(** * dict_lmdb: the dictionary adapter over the LMDB engine binding

    A shallow embedding of [src/util/dict_lmdb.c] (Postfix) and the
    properties its specification states about it.

    The adapter threads three kinds of state, all explicit here:
    - the handle ([DICT_LMDB]: generic [DICT] members, key and value buffers);
    - the outside world ([Env]: the engine session, the lock on the backing
      file, the file system and the clock), reached only through the
      collaborator calls of the class [Collaborators];
    - a log of those calls and of the messages written ([event]), so that
      statements on what the adapter asks of its collaborators can be made
      without assuming what the collaborators do.

    [msg_fatal] and [msg_panic] end the process: an operation has one of the
    three outcomes [Returned], [Fatal], [Panic]. *)

From Stdlib Require Import ZArith List Ascii String Bool Lia.
From stdpp Require Import base gmap strings list.

Local Open Scope Z_scope.

(** Byte strings as the engine sees them (an [MDB_val]: [mv_size] bytes at
    [mv_data]); they may hold the null byte. *)
Abbreviation bytes := (list ascii).

Definition NUL : ascii := Ascii.zero.

(** ** Constants of the headers the file includes

    [dict.h], [lmdb.h], [slmdb.h], [fcntl.h] and the platform's limits are
    not part of the file: their constants are taken as parameters. *)

Class Headers := {
  (* dict.h *)
  DICT_FLAG_DUP_WARN : Z;
  DICT_FLAG_DUP_IGNORE : Z;
  DICT_FLAG_TRY0NULL : Z;
  DICT_FLAG_TRY1NULL : Z;
  DICT_FLAG_FIXED : Z;
  DICT_FLAG_LOCK : Z;
  DICT_FLAG_DUP_REPLACE : Z;
  DICT_FLAG_FOLD_FIX : Z;
  DICT_FLAG_BULK_UPDATE : Z;
  DICT_FLAG_WORLD_READ : Z;
  DICT_SEQ_FUN_FIRST : Z;
  DICT_SEQ_FUN_NEXT : Z;
  (* lmdb.h *)
  MDB_SUCCESS : Z;
  MDB_NOTFOUND : Z;
  MDB_KEYEXIST : Z;
  MDB_MAP_FULL : Z;
  MDB_MAP_RESIZED : Z;
  MDB_READERS_FULL : Z;
  MDB_NOOVERWRITE : Z;
  MDB_NOSUBDIR : Z;
  MDB_NOLOCK : Z;
  MDB_RDONLY : Z;
  MDB_WRITEMAP : Z;
  (* slmdb.h *)
  SLMDB_FLAG_BULK : Z;
  (* fcntl.h *)
  O_RDONLY : Z;
  (* limits.h and the compiler *)
  CHAR_BIT : Z;
  sizeof_size_t : Z;
  sizeof_ssize_t : Z;
  (* build option: #ifdef LMDB_NO_TRAILING_NULL *)
  LMDB_NO_TRAILING_NULL : bool
}.

(** The dictionary flags, in the order of the record. *)
Definition flag_masks `{Headers} : list Z :=
  [DICT_FLAG_DUP_WARN; DICT_FLAG_DUP_IGNORE; DICT_FLAG_TRY0NULL;
   DICT_FLAG_TRY1NULL; DICT_FLAG_FIXED; DICT_FLAG_LOCK;
   DICT_FLAG_DUP_REPLACE; DICT_FLAG_FOLD_FIX; DICT_FLAG_BULK_UPDATE;
   DICT_FLAG_WORLD_READ].

(** A flag is one bit of an [int]. *)
Definition single_bit (m : Z) : bool :=
  (0 <? m) && (m =? 2 ^ Z.log2 m) && (m <? 2 ^ 31).

Fixpoint distinctb (l : list Z) : bool :=
  match l with
  | [] => true
  | x :: l' => forallb (fun y => negb (x =? y)) l' && distinctb l'
  end.

(** What the development assumes of the headers: the dictionary flags are
    distinct single bits, the engine's status codes for "not found" and
    "key exists" differ from each other and from success (0), the two scan
    functions differ, and the "no overwrite" put flag is not empty. *)
Definition headers_ok `{Headers} : bool :=
  forallb single_bit flag_masks && distinctb flag_masks
  && negb (MDB_NOTFOUND =? 0) && negb (MDB_KEYEXIST =? 0)
  && negb (MDB_NOTFOUND =? MDB_KEYEXIST)
  && negb (DICT_SEQ_FUN_FIRST =? DICT_SEQ_FUN_NEXT)
  && negb (MDB_NOOVERWRITE =? 0).

(** ** C integers *)

(** The conversion to [int] (32 bits, two's complement). *)
Definition to_int (z : Z) : Z := (z + 2 ^ 31) mod 2 ^ 32 - 2 ^ 31.

(** The conversion to [size_t]. *)
Definition to_size_t `{Headers} (z : Z) : Z :=
  z mod 2 ^ (sizeof_size_t * CHAR_BIT).

(** [f & m] is not zero. *)
Definition flag_set (f m : Z) : bool := negb (Z.land f m =? 0).

(** [f & ~m] *)
Definition flag_clear (f m : Z) : Z := Z.land f (Z.lnot m).


(** The runtime globals the file reads: [dict_lmdb_map_size] (defined in the
    file, initially 8192, set by the programs' configuration) and
    [msg_verbose] (of msg.h). *)
Class Globals := {
  dict_lmdb_map_size : Z;
  msg_verbose : bool
}.

(** ** C strings *)

(** A [const char *] argument is given by the bytes before its terminator.
    [strlen] is their number. *)
Definition strlen (s : bytes) : Z := Z.of_nat (length s).

(** The [MDB_val] made of a C string and a size: [size] bytes starting at the
    string's first byte; the byte after the last is the terminator (the
    adapter never asks for more than [strlen + 1] bytes). *)
Definition mdb_val (s : bytes) (size : Z) : bytes :=
  take (Z.to_nat size) (s ++ [NUL]).

(** Modelled from the spec: vstring.c is not part of the file. The spec has the
    adapter "materialize results into owned, terminator-guaranteed buffers",
    and the comment at SCOPY calls it a string copy "guaranteed to be
    null-terminated" of at most [size] bytes: read back as a C string, the
    buffer holds the bytes of [data] before the first null byte, at most
    [size] of them. *)
Fixpoint vstring_strncpy (data : bytes) (size : nat) : bytes :=
  match size, data with
  | S n, c :: rest =>
      if Ascii.eqb c NUL then [] else c :: vstring_strncpy rest n
  | _, _ => []
  end.

(** Modelled from the spec: stringops.c ([lowercase]) is not part of the file.
    The spec's option is "fold-keys-to-lowercase": each ASCII capital letter
    is replaced by its small letter, in place. *)
Definition tolower (c : ascii) : ascii :=
  let n := N_of_ascii c in
  if ((65 <=? n) && (n <=? 90))%N then ascii_of_N (n + 32) else c.

(** Modelled from the spec: [lowercase] of stringops.c, the folding above on
    each byte of the string. *)
Definition lowercase (s : bytes) : bytes := map tolower s.

(** Text of a byte string in a diagnostic ([%s]). *)
Definition text (s : bytes) : string := string_of_list_ascii s.

(** The double quote of the duplicate-entry diagnostics. *)
Definition dquote : string := String (ascii_of_nat 34) EmptyString.

(** ** The collaborators *)

Inductive myflock_style := MYFLOCK_STYLE_FLOCK | MYFLOCK_STYLE_FCNTL.

Inductive myflock_op :=
  MYFLOCK_OP_NONE | MYFLOCK_OP_SHARED | MYFLOCK_OP_EXCLUSIVE.

Inductive MDB_cursor_op := MDB_FIRST | MDB_NEXT.

(** One request of a [slmdb_control] call (the call takes a list of them,
    closed by SLMDB_CTL_END). *)
Inductive slmdb_ctl :=
| SLMDB_CTL_LONGJMP_FN
| SLMDB_CTL_NOTIFY_FN
| SLMDB_CTL_CONTEXT
| SLMDB_CTL_API_RETRY_LIMIT (limit : Z)
| SLMDB_CTL_BULK_RETRY_LIMIT (limit : Z).

Record struct_stat := { st_mtime : Z; st_uid : Z }.

(** The engine binding (slmdb), the locking primitive (myflock) and the
    system calls, as functions on the state of the outside world. A status
    comes first in each result. [slmdb_cursor_get] gives the value as
    [None] when its [mv_data] is null. *)
Class Collaborators (Env : Type) := {
  slmdb_init : Z -> Z -> Z -> Env -> Z * Env;
  slmdb_open : string -> Z -> Z -> Z -> Env -> Z * Env;
  slmdb_fd : Env -> Z;
  slmdb_curr_limit : Env -> Z;
  slmdb_control : list slmdb_ctl -> Env -> Z * Env;
  slmdb_get : bytes -> Env -> Z * bytes * Env;
  slmdb_put : bytes -> bytes -> Z -> Env -> Z * Env;
  slmdb_del : bytes -> Env -> Z * Env;
  slmdb_cursor_get : MDB_cursor_op -> Env -> Z * bytes * option bytes * Env;
  slmdb_close : Env -> Z * Env;
  mdb_strerror : Z -> string;
  myflock : Z -> myflock_style -> myflock_op -> Env -> Z * Env;
  fstat : Z -> Env -> Z * struct_stat;
  stat : string -> Env -> Z * struct_stat;
  time : Env -> Z
}.

(** What the adapter did to the outside: each call that changes it, with its
    arguments and its status, and each message logged. *)
Inductive event :=
| Ev_slmdb_init (size incr max status : Z)
| Ev_slmdb_open (path : string) (open_flags mdb_flags slmdb_flags status : Z)
| Ev_slmdb_control (requests : list slmdb_ctl) (status : Z)
| Ev_slmdb_get (key : bytes) (status : Z)
| Ev_slmdb_put (key value : bytes) (put_flags status : Z)
| Ev_slmdb_del (key : bytes) (status : Z)
| Ev_slmdb_cursor_get (op : MDB_cursor_op) (status : Z)
| Ev_slmdb_close (status : Z)
| Ev_myflock (fd : Z) (style : myflock_style) (op : myflock_op) (status : Z)
| Ev_msg_warn (message : string)
| Ev_msg_info (message : string).

(** The outside world and the log, most recent event first. *)
Record World (Env : Type) := mkWorld { env : Env; log : list event }.
Arguments mkWorld {Env} _ _.
Arguments env {Env} _.
Arguments log {Env} _.

(** ** Outcomes and the monad of the adapter *)

Inductive outcome (W A : Type) :=
| Returned (a : A) (w : W)
| Fatal (message : string) (w : W)
| Panic (message : string) (w : W).
Arguments Returned {W A} _ _.
Arguments Fatal {W A} _ _.
Arguments Panic {W A} _ _.

Definition M (Env A : Type) : Type := World Env -> outcome (World Env) A.

Definition ret {Env A} (a : A) : M Env A := fun w => Returned a w.

Definition bind {Env A B} (m : M Env A) (k : A -> M Env B) : M Env B :=
  fun w =>
    match m w with
    | Returned a w' => k a w'
    | Fatal msg w' => Fatal msg w'
    | Panic msg w' => Panic msg w'
    end.

Notation "'do' x <- m ; k" := (bind m (fun x => k))
  (at level 10, x name, m at level 100, k at level 200).
Notation "'do' ' p <- m ; k" := (bind m (fun x => match x with p => k end))
  (at level 10, p pattern, m at level 100, k at level 200).
Notation "'run' m ; k" := (bind m (fun _ => k))
  (at level 10, m at level 100, k at level 200).

Definition msg_fatal {Env A} (message : string) : M Env A :=
  fun w => Fatal message w.

Definition msg_panic {Env A} (message : string) : M Env A :=
  fun w => Panic message w.

Definition emit {Env} (e : event) : M Env unit :=
  fun w => Returned tt (mkWorld (env w) (e :: log w)).

Definition msg_warn {Env} (message : string) : M Env unit :=
  emit (Ev_msg_warn message).

Definition msg_info {Env} (message : string) : M Env unit :=
  emit (Ev_msg_info message).

(** A call of a collaborator that changes the world: run it and log it. *)
Definition call {Env R} (f : Env -> R * Env) (ev : R -> event) : M Env R :=
  fun w => let '(r, e') := f (env w) in Returned r (mkWorld e' (ev r :: log w)).

(** A call that only reads the world. *)
Definition observe {Env R} (f : Env -> R) : M Env R :=
  fun w => Returned (f (env w)) w.

(** ** The handle *)

(** The generic members ([DICT], dict.h) that the file reads or writes. The
    function pointers are the five operations below and are not stored. *)
Record DICT := mkDICT {
  type : string;
  name : string;
  flags : Z;
  error : Z;
  lock_fd : Z;
  stat_fd : Z;
  mtime : Z;
  owner_uid : Z;
  owner_status : Z;
  fold_buf : option bytes;
  jbuf : bool
}.

(** [DICT_LMDB]. The engine session ([slmdb]) is part of the outside world;
    a buffer is [None] while its pointer is null, else it holds the string
    it was last given. *)
Record DICT_LMDB := mkDICT_LMDB {
  dict : DICT;
  key_buf : option bytes;
  val_buf : option bytes
}.

(** The pointers the operations hand out: [vstring_str] of one of the two
    buffers of the handle. What is behind such a pointer is read from the
    handle at the time of reading. *)
Inductive bufptr := ptr_key_buf | ptr_val_buf.

Definition vstring_str (d : DICT_LMDB) (p : bufptr) : option bytes :=
  match p with
  | ptr_key_buf => key_buf d
  | ptr_val_buf => val_buf d
  end.

Definition set_flags (d : DICT_LMDB) (f : Z) : DICT_LMDB :=
  let g := dict d in
  mkDICT_LMDB
    (mkDICT (type g) (name g) f (error g) (lock_fd g) (stat_fd g) (mtime g)
            (owner_uid g) (owner_status g) (fold_buf g) (jbuf g))
    (key_buf d) (val_buf d).

Definition set_error (d : DICT_LMDB) (e : Z) : DICT_LMDB :=
  let g := dict d in
  mkDICT_LMDB
    (mkDICT (type g) (name g) (flags g) e (lock_fd g) (stat_fd g) (mtime g)
            (owner_uid g) (owner_status g) (fold_buf g) (jbuf g))
    (key_buf d) (val_buf d).

Definition set_fold_buf (d : DICT_LMDB) (b : option bytes) : DICT_LMDB :=
  let g := dict d in
  mkDICT_LMDB
    (mkDICT (type g) (name g) (flags g) (error g) (lock_fd g) (stat_fd g)
            (mtime g) (owner_uid g) (owner_status g) b (jbuf g))
    (key_buf d) (val_buf d).

Definition set_key_buf (d : DICT_LMDB) (b : option bytes) : DICT_LMDB :=
  mkDICT_LMDB (dict d) b (val_buf d).

Definition set_val_buf (d : DICT_LMDB) (b : option bytes) : DICT_LMDB :=
  mkDICT_LMDB (dict d) (key_buf d) b.

(** [dict->flags &= ~m] *)
Definition clear_flag (d : DICT_LMDB) (m : Z) : DICT_LMDB :=
  set_flags d (flag_clear (flags (dict d)) m).

(** The stand-in handle of [dict_surrogate]: what it was asked to open and
    the formatted reason. *)
Record DICT_SURROGATE := mkDICT_SURROGATE {
  surrogate_type : string;
  surrogate_name : string;
  surrogate_open_flags : Z;
  surrogate_dict_flags : Z;
  reason : string
}.

(** What [dict_lmdb_open] returns, a [DICT *]: one of the two kinds. *)
Inductive DICT_handle :=
| surrogate_handle (s : DICT_SURROGATE)
| lmdb_handle (d : DICT_LMDB).

(** The requests of the generic dictionary interface. *)
Inductive dict_request :=
| Lookup (key : bytes)
| Update (key value : bytes)
| Delete (key : bytes)
| Sequence (function : Z).

(** The answer of the stand-in handle to a request. *)
Inductive surrogate_result := Failed (diagnostic : string).

(** Modelled from the spec: dict_surrogate.c is not part of the file. The spec
    has the stand-in handle be one "whose every operation deterministically
    fails with a captured diagnostic message referencing the underlying
    error": each request fails with the reason captured at open. *)
Definition dict_surrogate_request (s : DICT_SURROGATE) (r : dict_request)
  : surrogate_result :=
  match r with
  | Lookup _ => Failed (reason s)
  | Update _ _ => Failed (reason s)
  | Delete _ => Failed (reason s)
  | Sequence _ => Failed (reason s)
  end.

(** ** The adapter *)

(** The type name of dict_lmdb.h; the source has it equal to the file name
    suffix ("happens to equal our DICT_TYPE_LMDB prefix"). *)
Definition DICT_TYPE_LMDB : string := "lmdb".
Definition DICT_LMDB_SUFFIX : string := "lmdb".

Definition DICT_LMDB_SIZE_INCR : Z := 2.
Definition DICT_LMDB_API_RETRY_LIMIT : Z := 2.

Section Adapter.

Context `{Hdr : Headers} `{Glb : Globals} {Env : Type} `{Col : Collaborators Env}.

(** [__MAXINT__(ssize_t)], the largest [ssize_t], with the two's complement
    the source assumes (a platform that defines SSIZE_T_MAX defines this
    value). *)
Definition SSIZE_T_MAX : Z := 2 ^ (sizeof_ssize_t * CHAR_BIT - 1) - 1.

Definition DICT_LMDB_SIZE_MAX : Z := SSIZE_T_MAX.

(** [(int) (2 * sizeof(size_t) * CHAR_BIT)]: a product in [size_t],
    converted to [int]. *)
Definition DICT_LMDB_BULK_RETRY_LIMIT : Z :=
  to_int ((2 * sizeof_size_t * CHAR_BIT) mod 2 ^ (sizeof_size_t * CHAR_BIT)).

(** [SCOPY(dict_lmdb->val_buf, data, size)] and the same on [key_buf]; the
    buffer is allocated when its pointer is null. *)
Definition SCOPY_val (d : DICT_LMDB) (data : bytes) : DICT_LMDB :=
  set_val_buf d (Some (vstring_strncpy data (length data))).

Definition SCOPY_key (d : DICT_LMDB) (data : bytes) : DICT_LMDB :=
  set_key_buf d (Some (vstring_strncpy data (length data))).

(** "Optionally fold the key": the copy in [fold_buf], made lowercase. *)
Definition fold_key (d : DICT_LMDB) (key : bytes) : DICT_LMDB * bytes :=
  if flag_set (flags (dict d)) DICT_FLAG_FOLD_FIX
  then (set_fold_buf d (Some (lowercase key)), lowercase key)
  else (d, key).

(** [(dict->flags & DICT_FLAG_LOCK) && myflock(...) < 0] then [msg_fatal]. *)
Definition lock_dictionary (d : DICT_LMDB) (op : myflock_op) (what : string)
  : M Env unit :=
  if flag_set (flags (dict d)) DICT_FLAG_LOCK then
    do r <- call (myflock (lock_fd (dict d)) MYFLOCK_STYLE_FCNTL op)
                 (Ev_myflock (lock_fd (dict d)) MYFLOCK_STYLE_FCNTL op);
    if r <? 0 then msg_fatal (name (dict d) ++ ": " ++ what ++ " dictionary: %m")
    else ret tt
  else ret tt.

Definition call_slmdb_get (key : bytes) : M Env (Z * bytes) :=
  fun w =>
    let '(status, value, e') := slmdb_get key (env w) in
    Returned (status, value) (mkWorld e' (Ev_slmdb_get key status :: log w)).

Definition call_slmdb_cursor_get (op : MDB_cursor_op)
  : M Env (Z * bytes * option bytes) :=
  fun w =>
    let '(status, key, value, e') := slmdb_cursor_get op (env w) in
    Returned (status, key, value)
             (mkWorld e' (Ev_slmdb_cursor_get op status :: log w)).

(** One probe of [dict_lmdb_lookup] with key size [size]. *)
Definition lookup_probe (d : DICT_LMDB) (key : bytes) (size : Z) (other : Z)
  : M Env (option bufptr * DICT_LMDB) :=
  do '(status, mdb_value) <- call_slmdb_get (mdb_val key size);
  if status =? 0 then
    ret (Some ptr_val_buf, SCOPY_val (clear_flag d other) mdb_value)
  else if negb (status =? MDB_NOTFOUND) then
    msg_fatal ("error reading " ++ type (dict d) ++ ":" ++ name (dict d)
               ++ ": " ++ mdb_strerror status)
  else ret (None, d).

(** dict_lmdb_lookup - find database entry. [klen] is an [int]: the sum
    [klen + 1] is one of two [int]s, written with the wrap-around of the
    usual implementations where C leaves its overflow undefined, and the
    assignments to [mv_size] convert to [size_t]. *)
Definition dict_lmdb_lookup (dict_lmdb : DICT_LMDB) (key : bytes)
  : M Env (option bufptr * DICT_LMDB) :=
  let dict_lmdb := set_error dict_lmdb 0 in
  let klen := to_int (strlen key) in
  if Z.land (flags (dict dict_lmdb))
            (Z.lor DICT_FLAG_TRY1NULL DICT_FLAG_TRY0NULL) =? 0 then
    msg_panic "dict_lmdb_lookup: no DICT_FLAG_TRY1NULL | DICT_FLAG_TRY0NULL flag"
  else
    let '(dict_lmdb, key) := fold_key dict_lmdb key in
    run lock_dictionary dict_lmdb MYFLOCK_OP_SHARED "lock";
    do '(result, dict_lmdb) <-
      (if flag_set (flags (dict dict_lmdb)) DICT_FLAG_TRY1NULL
       then lookup_probe dict_lmdb key (to_size_t (to_int (klen + 1)))
                         DICT_FLAG_TRY0NULL
       else ret (None, dict_lmdb));
    do '(result, dict_lmdb) <-
      (match result with
       | None =>
           if flag_set (flags (dict dict_lmdb)) DICT_FLAG_TRY0NULL
           then lookup_probe dict_lmdb key (to_size_t klen)
                             DICT_FLAG_TRY1NULL
           else ret (result, dict_lmdb)
       | Some _ => ret (result, dict_lmdb)
       end);
    run lock_dictionary dict_lmdb MYFLOCK_OP_NONE "unlock";
    ret (result, dict_lmdb).

(** dict_lmdb_update - add or update database entry *)
Definition dict_lmdb_update (dict_lmdb : DICT_LMDB) (key value : bytes)
  : M Env (Z * DICT_LMDB) :=
  let dict_lmdb := set_error dict_lmdb 0 in
  if Z.land (flags (dict dict_lmdb))
            (Z.lor DICT_FLAG_TRY1NULL DICT_FLAG_TRY0NULL) =? 0 then
    msg_panic "dict_lmdb_update: no DICT_FLAG_TRY1NULL | DICT_FLAG_TRY0NULL flag"
  else
    let '(dict_lmdb, key) := fold_key dict_lmdb key in
    let key_size := strlen key in
    let value_size := strlen value in
    (* undecided: the default of the platform *)
    let dict_lmdb :=
      if flag_set (flags (dict dict_lmdb)) DICT_FLAG_TRY1NULL
         && flag_set (flags (dict dict_lmdb)) DICT_FLAG_TRY0NULL
      then if LMDB_NO_TRAILING_NULL
           then clear_flag dict_lmdb DICT_FLAG_TRY1NULL
           else clear_flag dict_lmdb DICT_FLAG_TRY0NULL
      else dict_lmdb in
    (* optionally append a null byte to key and value *)
    let '(key_size, value_size) :=
      if flag_set (flags (dict dict_lmdb)) DICT_FLAG_TRY1NULL
      then (key_size + 1, value_size + 1)
      else (key_size, value_size) in
    run lock_dictionary dict_lmdb MYFLOCK_OP_EXCLUSIVE "lock";
    let put_flags :=
      if flag_set (flags (dict dict_lmdb)) DICT_FLAG_DUP_REPLACE
      then 0 else MDB_NOOVERWRITE in
    do status <-
      call (slmdb_put (mdb_val key key_size) (mdb_val value value_size)
                      put_flags)
           (Ev_slmdb_put (mdb_val key key_size) (mdb_val value value_size)
                         put_flags);
    run (if negb (status =? 0) then
           if status =? MDB_KEYEXIST then
             if flag_set (flags (dict dict_lmdb)) DICT_FLAG_DUP_IGNORE
             then ret tt
             else if flag_set (flags (dict dict_lmdb)) DICT_FLAG_DUP_WARN
             then msg_warn (type (dict dict_lmdb) ++ ":"
                            ++ name (dict dict_lmdb) ++ ": duplicate entry: "
                            ++ dquote ++ text key ++ dquote)
             else msg_fatal (type (dict dict_lmdb) ++ ":"
                             ++ name (dict dict_lmdb) ++ ": duplicate entry: "
                             ++ dquote ++ text key ++ dquote)
           else msg_fatal ("error updating " ++ type (dict dict_lmdb) ++ ":"
                           ++ name (dict dict_lmdb) ++ ": "
                           ++ mdb_strerror status)
         else ret tt);
    run lock_dictionary dict_lmdb MYFLOCK_OP_NONE "unlock";
    ret (status, dict_lmdb).

(** One probe of [dict_lmdb_delete] with key size [size]; the status is 1
    for "not found"; on success the [other] encoding is given up. *)
Definition delete_probe (d : DICT_LMDB) (key : bytes) (size : Z) (other : Z)
  : M Env (Z * DICT_LMDB) :=
  do status <- call (slmdb_del (mdb_val key size))
                    (Ev_slmdb_del (mdb_val key size));
  if negb (status =? 0) then
    if status =? MDB_NOTFOUND then ret (1, d)
    else msg_fatal ("error deleting from " ++ type (dict d) ++ ":"
                    ++ name (dict d) ++ ": " ++ mdb_strerror status)
  else ret (status, clear_flag d other).

(** dict_lmdb_delete - delete one entry from the dictionary. The sizes of
    the keys are those of the lookup: [klen + 1] in [int], converted to
    [size_t]. *)
Definition dict_lmdb_delete (dict_lmdb : DICT_LMDB) (key : bytes)
  : M Env (Z * DICT_LMDB) :=
  let status := 1 in
  let dict_lmdb := set_error dict_lmdb 0 in
  let klen := to_int (strlen key) in
  if Z.land (flags (dict dict_lmdb))
            (Z.lor DICT_FLAG_TRY1NULL DICT_FLAG_TRY0NULL) =? 0 then
    msg_panic "dict_lmdb_delete: no DICT_FLAG_TRY1NULL | DICT_FLAG_TRY0NULL flag"
  else
    let '(dict_lmdb, key) := fold_key dict_lmdb key in
    run lock_dictionary dict_lmdb MYFLOCK_OP_EXCLUSIVE "lock";
    do '(status, dict_lmdb) <-
      (if flag_set (flags (dict dict_lmdb)) DICT_FLAG_TRY1NULL
       then delete_probe dict_lmdb key (to_size_t (to_int (klen + 1)))
                         DICT_FLAG_TRY0NULL
       else ret (status, dict_lmdb));
    do '(status, dict_lmdb) <-
      (if (0 <? status) && flag_set (flags (dict dict_lmdb)) DICT_FLAG_TRY0NULL
       then delete_probe dict_lmdb key (to_size_t klen) DICT_FLAG_TRY1NULL
       else ret (status, dict_lmdb));
    run lock_dictionary dict_lmdb MYFLOCK_OP_NONE "unlock";
    ret (status, dict_lmdb).

(** dict_lmdb_sequence - traverse the dictionary. [key] and [value] are the
    caller's two pointer variables, as they are before and after the call. *)
Definition dict_lmdb_sequence (dict_lmdb : DICT_LMDB) (function : Z)
    (key value : option bufptr)
  : M Env (Z * option bufptr * option bufptr * DICT_LMDB) :=
  let myname := "dict_lmdb_sequence"%string in
  let dict_lmdb := set_error dict_lmdb 0 in
  do op <-
    (if function =? DICT_SEQ_FUN_FIRST then ret MDB_FIRST
     else if function =? DICT_SEQ_FUN_NEXT then ret MDB_NEXT
     else msg_panic (myname ++ ": invalid function: %d"));
  run lock_dictionary dict_lmdb MYFLOCK_OP_SHARED "lock";
  do '(status, mdb_key, mdb_value) <- call_slmdb_cursor_get op;
  do '(status, key, value, dict_lmdb) <-
    (if status =? 0 then
       let dict_lmdb := SCOPY_key dict_lmdb mdb_key in
       match mdb_value with
       | Some data =>
           if 0 <? strlen data
           then ret (status, Some ptr_key_buf, Some ptr_val_buf,
                     SCOPY_val dict_lmdb data)
           else ret (status, Some ptr_key_buf, value, dict_lmdb)
       | None => ret (status, Some ptr_key_buf, value, dict_lmdb)
       end
     else if status =? MDB_NOTFOUND then ret (1, key, value, dict_lmdb)
     else msg_fatal ("error seeking " ++ type (dict dict_lmdb) ++ ":"
                     ++ name (dict dict_lmdb) ++ ": " ++ mdb_strerror status));
  run lock_dictionary dict_lmdb MYFLOCK_OP_NONE "unlock";
  ret (status, key, value, dict_lmdb).

(** dict_lmdb_close - disassociate from data base: the session is closed,
    the buffers and the handle are freed. *)
Definition dict_lmdb_close (dict_lmdb : DICT_LMDB) : M Env unit :=
  run call slmdb_close Ev_slmdb_close;
  ret tt.

(** dict_lmdb_notify - debug logging; [limit] is the size of the variadic
    argument where there is one. *)
Definition dict_lmdb_notify (d : DICT) (error_code : Z) (limit : Z)
  : M Env unit :=
  if error_code =? MDB_SUCCESS then
    msg_info ("database " ++ type d ++ ":" ++ name d
              ++ ": using size limit %lu during open")
  else if error_code =? MDB_MAP_FULL then
    msg_info ("database " ++ type d ++ ":" ++ name d
              ++ ": using size limit %lu after MDB_MAP_FULL")
  else if error_code =? MDB_MAP_RESIZED then
    msg_info ("database " ++ type d ++ ":" ++ name d
              ++ ": using size limit %lu after MDB_MAP_RESIZED")
  else if error_code =? MDB_READERS_FULL then
    msg_info ("database " ++ type d ++ ":" ++ name d
              ++ ": pausing after MDB_READERS_FULL")
  else msg_warn "unknown MDB error code: %d".

(** [dict_surrogate(type, name, open_flags, dict_flags, fmt, ...)] with the
    format already filled in. *)
Definition dict_surrogate (dict_type dict_name : string)
    (open_flags dict_flags : Z) (why : string) : DICT_handle :=
  surrogate_handle
    (mkDICT_SURROGATE dict_type dict_name open_flags dict_flags why).

(** The requests of the [slmdb_control] call of the open. *)
Definition open_controls : list slmdb_ctl :=
  [SLMDB_CTL_API_RETRY_LIMIT DICT_LMDB_API_RETRY_LIMIT;
   SLMDB_CTL_BULK_RETRY_LIMIT DICT_LMDB_BULK_RETRY_LIMIT;
   SLMDB_CTL_LONGJMP_FN;
   SLMDB_CTL_CONTEXT].

(** "Impedance adapters": the flags of the engine's open. *)
Definition open_mdb_flags (open_flags dict_flags : Z) : Z :=
  let mdb_flags := Z.lor MDB_NOSUBDIR MDB_NOLOCK in
  let mdb_flags :=
    if open_flags =? O_RDONLY then Z.lor mdb_flags MDB_RDONLY else mdb_flags in
  if flag_set dict_flags DICT_FLAG_WORLD_READ
  then Z.lor mdb_flags MDB_WRITEMAP else mdb_flags.

Definition open_slmdb_flags (dict_flags : Z) : Z :=
  let slmdb_flags := 0 in
  if flag_set dict_flags DICT_FLAG_BULK_UPDATE
  then Z.lor slmdb_flags SLMDB_FLAG_BULK else slmdb_flags.

(** dict_lmdb_open - open LMDB data base. [dict_alloc] gives a handle with
    no error, no fold buffer and no jump buffer. The result is the handle
    itself: the logging proxy that DICT_DEBUG puts around it under
    DICT_FLAG_DEBUG is left out. *)
Definition dict_lmdb_open (path : string) (open_flags dict_flags : Z)
  : M Env DICT_handle :=
  let mdb_path := (path ++ "." ++ DICT_TYPE_LMDB)%string in
  let mdb_flags := open_mdb_flags open_flags dict_flags in
  let slmdb_flags := open_slmdb_flags dict_flags in
  (* gracefully handle most database open errors *)
  do status <-
    call (slmdb_init dict_lmdb_map_size DICT_LMDB_SIZE_INCR DICT_LMDB_SIZE_MAX)
         (Ev_slmdb_init dict_lmdb_map_size DICT_LMDB_SIZE_INCR
                        DICT_LMDB_SIZE_MAX);
  do status <-
    (if negb (status =? 0) then ret status
     else call (slmdb_open mdb_path open_flags mdb_flags slmdb_flags)
               (Ev_slmdb_open mdb_path open_flags mdb_flags slmdb_flags));
  if negb (status =? 0) then
    ret (dict_surrogate DICT_TYPE_LMDB path open_flags dict_flags
           ("open database " ++ mdb_path ++ ": " ++ mdb_strerror status))
  else
    do db_fd <- observe slmdb_fd;
    run (if flag_set dict_flags DICT_FLAG_BULK_UPDATE then
           do r <- call (myflock db_fd MYFLOCK_STYLE_FCNTL MYFLOCK_OP_EXCLUSIVE)
                        (Ev_myflock db_fd MYFLOCK_STYLE_FCNTL
                                    MYFLOCK_OP_EXCLUSIVE);
           if r <? 0 then msg_fatal (mdb_path ++ ": lock dictionary: %m")
           else
             do r <- call (myflock db_fd MYFLOCK_STYLE_FCNTL MYFLOCK_OP_SHARED)
                          (Ev_myflock db_fd MYFLOCK_STYLE_FCNTL
                                      MYFLOCK_OP_SHARED);
             if r <? 0 then msg_fatal (mdb_path ++ ": unlock dictionary: %m")
             else ret tt
         else ret tt);
    (* bundle up *)
    do '(r, st) <- observe (fstat db_fd);
    if r <? 0 then msg_fatal "dict_lmdb_open: fstat: %m"
    else
      let d_mtime := st_mtime st in
      (* warn if the source file is newer than the indexed file *)
      run (if flag_set dict_flags DICT_FLAG_LOCK then
             do '(r, st) <- observe (stat path);
             if (r =? 0) && (d_mtime <? st_mtime st) then
               do now <- observe time;
               if st_mtime st <? now - 100 then
                 msg_warn ("database " ++ mdb_path
                           ++ " is older than source file " ++ path)
               else ret tt
             else ret tt
           else ret tt);
      let d_flags := Z.lor dict_flags DICT_FLAG_FIXED in
      let d_flags :=
        if Z.land dict_flags
                  (Z.lor DICT_FLAG_TRY0NULL DICT_FLAG_TRY1NULL) =? 0
        then Z.lor d_flags (Z.lor DICT_FLAG_TRY0NULL DICT_FLAG_TRY1NULL)
        else d_flags in
      let d_fold_buf :=
        if flag_set dict_flags DICT_FLAG_FOLD_FIX then Some [] else None in
      let d_jbuf := flag_set dict_flags DICT_FLAG_BULK_UPDATE in
      let d :=
        mkDICT DICT_TYPE_LMDB path d_flags 0 db_fd db_fd d_mtime
               (st_uid st) (if st_uid st =? 0 then 0 else 1)
               d_fold_buf d_jbuf in
      run call (slmdb_control open_controls) (Ev_slmdb_control open_controls);
      run (if msg_verbose then
             run call (slmdb_control [SLMDB_CTL_NOTIFY_FN])
                      (Ev_slmdb_control [SLMDB_CTL_NOTIFY_FN]);
             do limit <- observe slmdb_curr_limit;
             dict_lmdb_notify d MDB_SUCCESS limit
           else ret tt);
      ret (lmdb_handle (mkDICT_LMDB d None None)).

(** A request of the generic interface sent to an open handle; the result
    of a lookup or of a scan is kept in the handle's buffers. *)
Definition dict_lmdb_request (d : DICT_LMDB) (r : dict_request)
  : M Env DICT_LMDB :=
  match r with
  | Lookup key => do '(_, d') <- dict_lmdb_lookup d key; ret d'
  | Update key value => do '(_, d') <- dict_lmdb_update d key value; ret d'
  | Delete key => do '(_, d') <- dict_lmdb_delete d key; ret d'
  | Sequence function =>
      do '(_, _, _, d') <- dict_lmdb_sequence d function None None; ret d'
  end.

(** The requests of a list, one after the other, on the same handle. *)
Fixpoint dict_lmdb_requests (d : DICT_LMDB) (rs : list dict_request)
  : M Env DICT_LMDB :=
  match rs with
  | [] => ret d
  | r :: rs' => do d' <- dict_lmdb_request d r; dict_lmdb_requests d' rs'
  end.

End Adapter.

(** ** A reference engine

    The engine binding (slmdb.c over LMDB), the locking primitive and the
    system calls are not part of the file. The model below is the one the
    statements on stored data are made against, and the one the examples
    run on. *)

(** The order of the keys in a scan: byte-wise lexicographic. *)
Fixpoint bytes_leb (a b : bytes) : bool :=
  match a, b with
  | [], _ => true
  | _ :: _, [] => false
  | x :: a', y :: b' =>
      if (N_of_ascii x <? N_of_ascii y)%N then true
      else if (N_of_ascii y <? N_of_ascii x)%N then false
      else bytes_leb a' b'
  end.

Fixpoint insert_entry (e : bytes * bytes) (l : list (bytes * bytes))
  : list (bytes * bytes) :=
  match l with
  | [] => [e]
  | e' :: l' =>
      if bytes_leb (fst e) (fst e') then e :: l else e' :: insert_entry e l'
  end.

Definition sort_entries (l : list (bytes * bytes)) : list (bytes * bytes) :=
  foldr insert_entry [] l.

(** The state of the reference world: the stored entries, the entries a scan
    has yet to visit, the lock last granted on the file, a status that the
    engine answers to every data call when one is injected, the status of
    the next open, and the file's descriptor, metadata and the clock. *)
Record RefEnv := mkRefEnv {
  store : gmap bytes bytes;
  cursor : list (bytes * bytes);
  held : myflock_op;
  fault : option Z;
  open_status : Z;
  db_fd : Z;
  db_stat : struct_stat;
  source_stat : option struct_stat;
  now : Z
}.

Definition set_store (e : RefEnv) (s : gmap bytes bytes) : RefEnv :=
  mkRefEnv s (cursor e) (held e) (fault e) (open_status e) (db_fd e)
           (db_stat e) (source_stat e) (now e).

Definition set_cursor (e : RefEnv) (c : list (bytes * bytes)) : RefEnv :=
  mkRefEnv (store e) c (held e) (fault e) (open_status e) (db_fd e)
           (db_stat e) (source_stat e) (now e).

Definition set_held (e : RefEnv) (op : myflock_op) : RefEnv :=
  mkRefEnv (store e) (cursor e) op (fault e) (open_status e) (db_fd e)
           (db_stat e) (source_stat e) (now e).

Section Reference.

Context `{Hdr : Headers}.

(** Modelled from the spec: slmdb.c is not part of the file. The spec lists
    the engine's primitives as "get(key) -> (status, value); put(key, value,
    overwrite-flag) -> status; delete(key) -> status; cursor-get(mode: FIRST
    | NEXT) -> (status, key, value)", with status codes that "distinguish
    success, not-found, key-exists" and "generic fatal errors". *)
Definition ref_get (key : bytes) (e : RefEnv) : Z * bytes * RefEnv :=
  match fault e with
  | Some status => (status, [], e)
  | None =>
      match store e !! key with
      | Some value => (0, value, e)
      | None => (MDB_NOTFOUND, [], e)
      end
  end.

(** Modelled from the spec: the put primitive of the list above; a put with
    the no-overwrite flag on a stored key answers "key exists" and stores
    nothing. *)
Definition ref_put (key value : bytes) (put_flags : Z) (e : RefEnv)
  : Z * RefEnv :=
  match fault e with
  | Some status => (status, e)
  | None =>
      match store e !! key with
      | Some _ =>
          if flag_set put_flags MDB_NOOVERWRITE then (MDB_KEYEXIST, e)
          else (0, set_store e (<[key := value]> (store e)))
      | None => (0, set_store e (<[key := value]> (store e)))
      end
  end.

(** Modelled from the spec: the delete primitive of the list above. *)
Definition ref_del (key : bytes) (e : RefEnv) : Z * RefEnv :=
  match fault e with
  | Some status => (status, e)
  | None =>
      match store e !! key with
      | Some _ => (0, set_store e (delete key (store e)))
      | None => (MDB_NOTFOUND, e)
      end
  end.

(** Modelled from the spec: the cursor primitive of the list above; FIRST
    starts a scan of the stored entries in key order, NEXT continues it, and
    the end of the scan is "not found". *)
Definition ref_cursor_get (op : MDB_cursor_op) (e : RefEnv)
  : Z * bytes * option bytes * RefEnv :=
  match fault e with
  | Some status => (status, [], None, e)
  | None =>
      let todo :=
        match op with
        | MDB_FIRST => sort_entries (map_to_list (store e))
        | MDB_NEXT => cursor e
        end in
      match todo with
      | [] => (MDB_NOTFOUND, [], None, set_cursor e [])
      | (k, v) :: rest => (0, k, Some v, set_cursor e rest)
      end
  end.

(** Modelled from the spec: "initialize-session(initial size, growth
    increment, max size) -> status; open(path, open-mode flags, feature
    flags) -> status": the session starts, and the open answers the status
    the world holds for it. *)
Definition ref_init (size incr max : Z) (e : RefEnv) : Z * RefEnv := (0, e).

(** Modelled from the spec: the open primitive of the list above; it answers
    the status that the world holds for it. *)
Definition ref_open (path : string) (open_flags mdb_flags slmdb_flags : Z)
    (e : RefEnv) : Z * RefEnv := (open_status e, e).

(** Modelled from the spec: "acquire(fd, mode in {shared, exclusive,
    none/release}) -> success/failure": in a world with one process the lock
    is granted. *)
Definition ref_myflock (fd : Z) (style : myflock_style) (op : myflock_op)
    (e : RefEnv) : Z * RefEnv := (0, set_held e op).

(** The text of a status, as far as the examples need it. *)
Definition ref_strerror (status : Z) : string :=
  if status =? MDB_NOTFOUND then "MDB_NOTFOUND: No matching key/data pair found"
  else if status =? MDB_KEYEXIST then "MDB_KEYEXIST: Key/data pair already exists"
  else if status =? 2 then "No such file or directory"
  else if status =? 5 then "Input/output error"
  else "Unknown error".

Definition ref_collaborators : Collaborators RefEnv := {|
  slmdb_init := ref_init;
  slmdb_open := ref_open;
  slmdb_fd := db_fd;
  slmdb_curr_limit := fun _ => 8192;
  slmdb_control := fun _ e => (0, e);
  slmdb_get := ref_get;
  slmdb_put := ref_put;
  slmdb_del := ref_del;
  slmdb_cursor_get := ref_cursor_get;
  slmdb_close := fun e => (0, e);
  mdb_strerror := ref_strerror;
  myflock := ref_myflock;
  fstat := fun _ e => (0, db_stat e);
  stat := fun _ e =>
    match source_stat e with
    | Some st => (0, st)
    | None => (-1, Build_struct_stat 0 0)
    end;
  time := now
|}.

End Reference.

(** A world around the entries [l]: no lock held, no fault, an open that
    succeeds. *)
Definition ref_world (l : list (bytes * bytes)) : World RefEnv :=
  mkWorld (mkRefEnv (list_to_map l) [] MYFLOCK_OP_NONE None 0 3
                    (Build_struct_stat 0 0) None 0) [].

(** The same world with the engine answering [status] to every data call. *)
Definition ref_world_faulty (l : list (bytes * bytes)) (status : Z)
  : World RefEnv :=
  mkWorld (mkRefEnv (list_to_map l) [] MYFLOCK_OP_NONE (Some status) 0 3
                    (Build_struct_stat 0 0) None 0) [].

(** The same world with an open that fails with [status]. *)
Definition ref_world_closed (status : Z) : World RefEnv :=
  mkWorld (mkRefEnv ∅ [] MYFLOCK_OP_NONE None status 3
                    (Build_struct_stat 0 0) None 0) [].

(** A set of header constants to run the examples with: one bit per
    dictionary flag, the status codes and flags of the engine's header, and
    a platform with 64-bit sizes that appends the null byte by default. *)
Definition sample_headers : Headers := {|
  DICT_FLAG_DUP_WARN := 1;
  DICT_FLAG_DUP_IGNORE := 2;
  DICT_FLAG_TRY0NULL := 4;
  DICT_FLAG_TRY1NULL := 8;
  DICT_FLAG_FIXED := 16;
  DICT_FLAG_LOCK := 64;
  DICT_FLAG_DUP_REPLACE := 128;
  DICT_FLAG_FOLD_FIX := 16384;
  DICT_FLAG_BULK_UPDATE := 131072;
  DICT_FLAG_WORLD_READ := 1024;
  DICT_SEQ_FUN_FIRST := 0;
  DICT_SEQ_FUN_NEXT := 1;
  MDB_SUCCESS := 0;
  MDB_NOTFOUND := -30798;
  MDB_KEYEXIST := -30799;
  MDB_MAP_FULL := -30792;
  MDB_MAP_RESIZED := -30785;
  MDB_READERS_FULL := -30790;
  MDB_NOOVERWRITE := 16;
  MDB_NOSUBDIR := 16384;
  MDB_NOLOCK := 4194304;
  MDB_RDONLY := 131072;
  MDB_WRITEMAP := 524288;
  SLMDB_FLAG_BULK := 1;
  O_RDONLY := 0;
  CHAR_BIT := 8;
  sizeof_size_t := 8;
  sizeof_ssize_t := 8;
  LMDB_NO_TRAILING_NULL := false
|}.

(** The same with the build option LMDB_NO_TRAILING_NULL. *)
Definition sample_headers_no_null : Headers := {|
  DICT_FLAG_DUP_WARN := 1;
  DICT_FLAG_DUP_IGNORE := 2;
  DICT_FLAG_TRY0NULL := 4;
  DICT_FLAG_TRY1NULL := 8;
  DICT_FLAG_FIXED := 16;
  DICT_FLAG_LOCK := 64;
  DICT_FLAG_DUP_REPLACE := 128;
  DICT_FLAG_FOLD_FIX := 16384;
  DICT_FLAG_BULK_UPDATE := 131072;
  DICT_FLAG_WORLD_READ := 1024;
  DICT_SEQ_FUN_FIRST := 0;
  DICT_SEQ_FUN_NEXT := 1;
  MDB_SUCCESS := 0;
  MDB_NOTFOUND := -30798;
  MDB_KEYEXIST := -30799;
  MDB_MAP_FULL := -30792;
  MDB_MAP_RESIZED := -30785;
  MDB_READERS_FULL := -30790;
  MDB_NOOVERWRITE := 16;
  MDB_NOSUBDIR := 16384;
  MDB_NOLOCK := 4194304;
  MDB_RDONLY := 131072;
  MDB_WRITEMAP := 524288;
  SLMDB_FLAG_BULK := 1;
  O_RDONLY := 0;
  CHAR_BIT := 8;
  sizeof_size_t := 8;
  sizeof_ssize_t := 8;
  LMDB_NO_TRAILING_NULL := true
|}.

Definition sample_globals : Globals := {|
  dict_lmdb_map_size := 8192;
  msg_verbose := false
|}.

(** A handle as [dict_lmdb_open] makes them, with the flags [f]. *)
Definition sample_handle (f : Z) : DICT_LMDB :=
  mkDICT_LMDB (mkDICT DICT_TYPE_LMDB "/etc/postfix/aliases" f 0 3 3 0 0 0
                      None false)
              None None.

(** The bytes of a string literal. *)
Definition cstr (s : string) : bytes := list_ascii_of_string s.

(** The adapter on the sample constants and the reference engine. *)
Module Sample.

Definition collaborators : Collaborators RefEnv :=
  @ref_collaborators sample_headers.

Definition lookup := @dict_lmdb_lookup sample_headers RefEnv collaborators.
Definition update := @dict_lmdb_update sample_headers RefEnv collaborators.
Definition delete := @dict_lmdb_delete sample_headers RefEnv collaborators.
Definition sequence := @dict_lmdb_sequence sample_headers RefEnv collaborators.
Definition open :=
  @dict_lmdb_open sample_headers sample_globals RefEnv collaborators.
Definition requests :=
  @dict_lmdb_requests sample_headers RefEnv collaborators.

End Sample.

(** The same on the platform without the trailing null byte. *)
Module SampleNoNull.

Definition collaborators : Collaborators RefEnv :=
  @ref_collaborators sample_headers_no_null.

Definition lookup :=
  @dict_lmdb_lookup sample_headers_no_null RefEnv collaborators.
Definition update :=
  @dict_lmdb_update sample_headers_no_null RefEnv collaborators.
Definition delete :=
  @dict_lmdb_delete sample_headers_no_null RefEnv collaborators.
Definition sequence :=
  @dict_lmdb_sequence sample_headers_no_null RefEnv collaborators.
Definition open :=
  @dict_lmdb_open sample_headers_no_null sample_globals RefEnv collaborators.

(** The scenario of the specification: two updates, a lookup, a delete and
    a scan on a handle; the result collects what the caller sees: the value
    looked up, the status of the delete, the entry of the first scan step
    and the status of the second. *)
Definition scenario (d : DICT_LMDB)
  : M RefEnv (option bytes * Z * (option bytes * option bytes) * Z) :=
  do '(_, d) <- update d (cstr "alice") (cstr "1");
  do '(_, d) <- update d (cstr "bob") (cstr "2");
  do '(result, d) <- lookup d (cstr "alice");
  let looked_up := result ≫= vstring_str d in
  do '(deleted, d) <- delete d (cstr "bob");
  do '(_, kp, vp, d) <- sequence d (@DICT_SEQ_FUN_FIRST sample_headers_no_null)
                                 None None;
  let first := (kp ≫= vstring_str d, vp ≫= vstring_str d) in
  do '(at_end, _, _, d) <- sequence d (@DICT_SEQ_FUN_NEXT sample_headers_no_null)
                                    kp vp;
  ret (looked_up, deleted, first, at_end).

End SampleNoNull.

(** ** Notions the statements use *)

(** The world an operation ends in, whatever the outcome. *)
Definition outcome_world {W A} (o : outcome W A) : W :=
  match o with
  | Returned _ w => w
  | Fatal _ w => w
  | Panic _ w => w
  end.

(** What the conversion of the bulk retry limit to [int] needs of the
    platform: bytes of at least 8 bits, and twice the number of bits of a
    [size_t] within an [int]. *)
Definition platform_ok `{Headers} : bool :=
  (8 <=? CHAR_BIT) && (1 <=? sizeof_size_t)
  && (2 * sizeof_size_t * CHAR_BIT <? 2 ^ 31).

(** The encoding-try flags [f] are those of the platform's default
    convention: without the build option LMDB_NO_TRAILING_NULL only the
    encoding with the null byte is tried, with it only the one without. *)
Definition platform_default `{Headers} (f : Z) : Prop :=
  flag_set f DICT_FLAG_TRY1NULL = negb LMDB_NO_TRAILING_NULL
  /\ flag_set f DICT_FLAG_TRY0NULL = LMDB_NO_TRAILING_NULL.

(** The flags of a handle after the "undecided" step of the update. *)
Definition decided `{Headers} (f : Z) : Z :=
  if flag_set f DICT_FLAG_TRY1NULL && flag_set f DICT_FLAG_TRY0NULL
  then if LMDB_NO_TRAILING_NULL
       then flag_clear f DICT_FLAG_TRY1NULL
       else flag_clear f DICT_FLAG_TRY0NULL
  else f.

(** A key or a value as the engine stores it under the encoding with
    ([true]) or without ([false]) the null byte. *)
Definition encode (with_null : bool) (s : bytes) : bytes :=
  if with_null then s ++ [NUL] else s.

(** The key after the optional folding. *)
Definition folded `{Headers} (f : Z) (key : bytes) : bytes :=
  if flag_set f DICT_FLAG_FOLD_FIX then lowercase key else key.

(** The lock requests of a log, most recent first: the operation asked
    for and the status of [myflock]. *)
Fixpoint lock_requests (l : list event) : list (myflock_op * Z) :=
  match l with
  | [] => []
  | Ev_myflock _ _ op status :: l' => (op, status) :: lock_requests l'
  | _ :: l' => lock_requests l'
  end.


(** The calls of the lock primitive in a log, most recent first: the
    descriptor, the style, the operation asked for and the status. *)
Fixpoint lock_calls (l : list event)
  : list (Z * myflock_style * myflock_op * Z) :=
  match l with
  | [] => []
  | Ev_myflock fd style op status :: l' =>
      (fd, style, op, status) :: lock_calls l'
  | _ :: l' => lock_calls l'
  end.

(** The lock that the calls [l] leave on the descriptor [fd]: the operation
    of the most recent request on it that was granted. *)
Fixpoint lock_held_on (fd : Z) (l : list (Z * myflock_style * myflock_op * Z))
  : myflock_op :=
  match l with
  | [] => MYFLOCK_OP_NONE
  | (fd', _, op, status) :: l' =>
      if (fd' =? fd) && negb (status <? 0) then op else lock_held_on fd l'
  end.

(** Modelled from the spec: myflock.c is not part of the file. The spec
    asks for "guaranteed release on every exit path including the fatal
    ones", which a port may meet when it can "guarantee the lock is
    process-scoped and released on process exit regardless". The lock that
    the process holds on [fd] when the operation has ended: the one its
    calls left when it returned to the caller; none when the process has
    ended, in a fatal error or a panic. *)
Definition lock_left {Env A} (fd : Z) (o : outcome (World Env) A)
  : myflock_op :=
  match o with
  | Returned _ w' => lock_held_on fd (lock_calls (log w'))
  | Fatal _ _ => MYFLOCK_OP_NONE
  | Panic _ _ => MYFLOCK_OP_NONE
  end.

(** The lock discipline of an operation that started in [w] and asks for
    the lock [mode] on the descriptor [fd]. Every request it makes is one on
    [fd] with the fcntl style. It returns with the lock asked for, granted
    and then released; it ends fatally either at the request for the lock,
    or with the lock granted and no request to release it, or at a request
    to release it that failed; it panics before any request. In every case
    no lock is left on [fd] when the operation has ended. *)
Definition lock_discipline {Env A} (fd : Z) (mode : myflock_op)
    (w : World Env) (o : outcome (World Env) A) : Prop :=
  let acquire r := (fd, MYFLOCK_STYLE_FCNTL, mode, r) in
  let release r := (fd, MYFLOCK_STYLE_FCNTL, MYFLOCK_OP_NONE, r) in
  lock_left fd o = MYFLOCK_OP_NONE
  /\ match o with
     | Returned _ w' =>
         exists r1 r2, 0 <= r1 /\ 0 <= r2
           /\ lock_calls (log w')
              = release r2 :: acquire r1 :: lock_calls (log w)
     | Fatal _ w' =>
         (exists r1, r1 < 0
            /\ lock_calls (log w') = acquire r1 :: lock_calls (log w))
         \/ (exists r1, 0 <= r1
            /\ lock_calls (log w') = acquire r1 :: lock_calls (log w))
         \/ (exists r1 r2, 0 <= r1 /\ r2 < 0
            /\ lock_calls (log w')
               = release r2 :: acquire r1 :: lock_calls (log w))
     | Panic _ w' => log w' = log w
     end.

(** A computation only adds to the log, whatever its outcome. *)
Definition grows {Env A} (m : M Env A) : Prop :=
  forall w, exists later, log (outcome_world (m w)) = later ++ log w.

(** The status of the start of the engine in the open: that of
    [slmdb_init] when it is not 0, else that of [slmdb_open]. *)
Definition engine_open_status `{Headers} `{Globals} {Env : Type}
    `{Collaborators Env} (path : string) (open_flags dict_flags : Z)
    (e : Env) : Z :=
  let '(status, e1) :=
    slmdb_init dict_lmdb_map_size DICT_LMDB_SIZE_INCR DICT_LMDB_SIZE_MAX e in
  if negb (status =? 0) then status
  else fst (slmdb_open (path ++ "." ++ DICT_TYPE_LMDB)%string open_flags
                       (open_mdb_flags open_flags dict_flags)
                       (open_slmdb_flags dict_flags) e1).

(** The keys of the engine's data calls (get, put, del) of a log, most
    recent first: the probes of the engine. *)
Fixpoint probe_keys (l : list event) : list bytes :=
  match l with
  | [] => []
  | Ev_slmdb_get key _ :: l' => key :: probe_keys l'
  | Ev_slmdb_put key _ _ _ :: l' => key :: probe_keys l'
  | Ev_slmdb_del key _ :: l' => key :: probe_keys l'
  | _ :: l' => probe_keys l'
  end.

(** The encoding of the flags [f] is resolved: exactly one encoding-try
    flag is set, that of the encoding with ([true]) or without ([false])
    the null byte. *)
Definition resolved `{Headers} (f : Z) (with_null : bool) : Prop :=
  flag_set f DICT_FLAG_TRY1NULL = with_null
  /\ flag_set f DICT_FLAG_TRY0NULL = negb with_null.

(** The key of a request, if it has one. *)
Definition request_key (r : dict_request) : option bytes :=
  match r with
  | Lookup key => Some key
  | Update key _ => Some key
  | Delete key => Some key
  | Sequence _ => None
  end.

(** The key is one that a lookup or a delete can size: its length with the
    null byte fits the [int] that holds it ([klen + 1] does not overflow),
    and the [size_t] it is passed in, as the size of every object does. *)
Definition key_fits `{Headers} (key : bytes) : Prop :=
  strlen key < 2 ^ 31 - 1
  /\ strlen key + 1 < 2 ^ (sizeof_size_t * CHAR_BIT).

(** The key of a lookup or of a delete fits; an update takes the sizes in
    [size_t] and a scan has no key. *)
Definition request_fits `{Headers} (r : dict_request) : Prop :=
  match r with
  | Lookup key => key_fits key
  | Delete key => key_fits key
  | Update _ _ => True
  | Sequence _ => True
  end.

(** The request leaves the entry of [key] alone, on a handle with the flags
    [f]: it is neither an update nor a delete of a key with the same folded
    form. *)
Definition leaves_key `{Headers} (f : Z) (key : bytes) (r : dict_request)
  : Prop :=
  match r with
  | Update key' _ => folded f key' <> folded f key
  | Delete key' => folded f key' <> folded f key
  | Lookup _ => True
  | Sequence _ => True
  end.

(** The one probe a request makes under a resolved encoding: the folded key
    in that encoding; a scan makes none. *)
Definition request_probe `{Headers} (f : Z) (with_null : bool)
    (r : dict_request) : list bytes :=
  match request_key r with
  | Some key => [encode with_null (folded f key)]
  | None => []
  end.

(** An operation that started in [w] with the flags [f] made the probes
    [ks] and no other, and kept the flags, if it returned; it made the
    probes [ks] or none if it did not. *)
Definition probes_only {Env A} (handle_of : A -> DICT_LMDB) (f : Z)
    (ks : list bytes) (w : World Env) (o : outcome (World Env) A) : Prop :=
  match o with
  | Returned a w' =>
      flags (dict (handle_of a)) = f
      /\ probe_keys (log w') = ks ++ probe_keys (log w)
  | Fatal _ w' =>
      probe_keys (log w') = probe_keys (log w)
      \/ probe_keys (log w') = ks ++ probe_keys (log w)
  | Panic _ w' =>
      probe_keys (log w') = probe_keys (log w)
      \/ probe_keys (log w') = ks ++ probe_keys (log w)
  end.

(** The probes of a list of requests under a resolved encoding, in the
    order of the requests. *)
Definition request_probes `{Headers} (f : Z) (with_null : bool)
    (rs : list dict_request) : list bytes :=
  concat (map (request_probe f with_null) rs).

(** An operation that returned with success (as [success] tells from its
    result) has left the handle with a resolved encoding. *)
Definition resolves_when `{Headers} {W A} (success : A -> bool)
    (handle_of : A -> DICT_LMDB) (o : outcome W A) : Prop :=
  match o with
  | Returned a _ =>
      success a = true -> exists e, resolved (flags (dict (handle_of a))) e
  | _ => True
  end.

(** What SCOPY leaves in a buffer for the [data] of the engine. *)
Definition copied (data : bytes) : bytes :=
  vstring_strncpy data (length data).

(** The buffers after a lookup on the handle [d]: a lookup that found the
    key returns the pointer to the value buffer, and the buffer holds the
    copy of the value that the engine gave for some probe; a lookup that
    did not find it leaves the value buffer as it was. The key buffer is
    not touched. *)
Definition lookup_buffers {Env} `{Collaborators Env} (d : DICT_LMDB)
    (o : outcome (World Env) (option bufptr * DICT_LMDB)) : Prop :=
  match o with
  | Returned (Some p, d') _ =>
      p = ptr_val_buf /\ key_buf d' = key_buf d
      /\ exists probe e value e',
          slmdb_get probe e = (0, value, e')
          /\ val_buf d' = Some (copied value)
  | Returned (None, d') _ => key_buf d' = key_buf d /\ val_buf d' = val_buf d
  | _ => True
  end.

(** The buffers after a scan step on the handle [d], [kp] and [vp] being
    the caller's pointers before it: a step that gives an entry (status 0)
    returns the pointer to the key buffer, which holds the copy of the
    engine's key; it returns the pointer to the value buffer, with the copy
    of the engine's value in it, when that value is not null and not empty,
    and else leaves the value buffer and the caller's value pointer as they
    were. A step at the end of the scan touches nothing. *)
Definition sequence_buffers {Env} `{Collaborators Env} (d : DICT_LMDB)
    (kp vp : option bufptr)
    (o : outcome (World Env) (Z * option bufptr * option bufptr * DICT_LMDB))
  : Prop :=
  match o with
  | Returned (status, kp', vp', d') _ =>
      (status = 0 ->
       exists op e mdb_key mdb_value e',
         slmdb_cursor_get op e = (0, mdb_key, mdb_value, e')
         /\ kp' = Some ptr_key_buf
         /\ key_buf d' = Some (copied mdb_key)
         /\ match mdb_value with
            | Some data =>
                if 0 <? strlen data
                then vp' = Some ptr_val_buf /\ val_buf d' = Some (copied data)
                else vp' = vp /\ val_buf d' = val_buf d
            | None => vp' = vp /\ val_buf d' = val_buf d
            end)
      /\ (status <> 0 ->
          kp' = kp /\ vp' = vp
          /\ key_buf d' = key_buf d /\ val_buf d' = val_buf d)
  | _ => True
  end.

(** A C string holds no null byte. *)
Definition is_c_string (s : bytes) : bool :=
  forallb (fun c => negb (Ascii.eqb c NUL)) s.

(** The operation returned, with a result and in a world that satisfy [P]. *)
Definition returns_with {W A} (P : A -> W -> Prop) (o : outcome W A) : Prop :=
  match o with
  | Returned a w' => P a w'
  | _ => False
  end.

(** If the operation returned, its result and its world satisfy [P]. *)
Definition when_returned {W A} (P : A -> W -> Prop) (o : outcome W A)
  : Prop :=
  match o with
  | Returned a w' => P a w'
  | _ => True
  end.

(** The operation ended fatally, in a world that satisfies [P]. *)
Definition ends_fatally {W A} (P : W -> Prop) (o : outcome W A) : Prop :=
  match o with
  | Fatal _ w' => P w'
  | _ => False
  end.

(** The warnings of a log, most recent first. *)
Fixpoint warnings (l : list event) : list string :=
  match l with
  | [] => []
  | Ev_msg_warn message :: l' => message :: warnings l'
  | _ :: l' => warnings l'
  end.

(** The encoding an update writes with, from the flags of the handle: the
    one with the null byte if its flag is the only one set, or if both are
    set and the platform's default is the null byte. *)
Definition update_with_null `{Headers} (f : Z) : bool :=
  flag_set (decided f) DICT_FLAG_TRY1NULL.

(** ** Notions of the further properties *)

(** The kinds of the engine's data calls. *)
Inductive engine_call := call_get | call_put | call_del | call_cursor_get.

(** The data calls of the engine in a log, most recent first: the kind of
    the call and the status the engine answered. *)
Fixpoint data_calls (l : list event) : list (engine_call * Z) :=
  match l with
  | [] => []
  | Ev_slmdb_get _ status :: l' => (call_get, status) :: data_calls l'
  | Ev_slmdb_put _ _ _ status :: l' => (call_put, status) :: data_calls l'
  | Ev_slmdb_del _ status :: l' => (call_del, status) :: data_calls l'
  | Ev_slmdb_cursor_get _ status :: l' =>
      (call_cursor_get, status) :: data_calls l'
  | _ :: l' => data_calls l'
  end.

(** An operation that started in [w] made, whatever its outcome, at most
    [most] data calls of the engine, all of the kind [c]. *)
Definition engine_calls_only {Env A} (c : engine_call) (most : nat)
    (w : World Env) (o : outcome (World Env) A) : Prop :=
  exists made,
    (length made <= most)%nat
    /\ Forall (fun x => fst x = c) made
    /\ data_calls (log (outcome_world o)) = made ++ data_calls (log w).

(** A status of the engine that an operation goes on after: success, "key
    exists" for a put, "not found" for the other calls. *)
Definition status_accepted `{Headers} (x : engine_call * Z) : Prop :=
  snd x = 0
  \/ match fst x with
     | call_put => snd x = MDB_KEYEXIST
     | _ => snd x = MDB_NOTFOUND
     end.

(** If the operation that started in [w] returned, every data call it made
    was answered with a status it accepts. *)
Definition errors_not_returned `{Headers} {Env A} (w : World Env)
    (o : outcome (World Env) A) : Prop :=
  match o with
  | Returned _ w' =>
      exists made,
        Forall status_accepted made
        /\ data_calls (log w') = made ++ data_calls (log w)
  | _ => True
  end.

(** The put calls of a log, most recent first: key, value and flags. *)
Fixpoint put_calls (l : list event) : list (bytes * bytes * Z) :=
  match l with
  | [] => []
  | Ev_slmdb_put key value put_flags _ :: l' =>
      (key, value, put_flags) :: put_calls l'
  | _ :: l' => put_calls l'
  end.

(** An operation that started in [w] did not panic and made the one put
    [entry]: it returned after it, or it ended fatally before or after it. *)
Definition puts_entry {Env A} (entry : bytes * bytes * Z) (w : World Env)
    (o : outcome (World Env) A) : Prop :=
  match o with
  | Returned _ w' => put_calls (log w') = entry :: put_calls (log w)
  | Fatal _ w' =>
      put_calls (log w') = put_calls (log w)
      \/ put_calls (log w') = entry :: put_calls (log w)
  | Panic _ _ => False
  end.

(** An operation that started in [w] made, whatever its outcome, no request
    to the lock primitive. *)
Definition no_lock_request {Env A} (w : World Env)
    (o : outcome (World Env) A) : Prop :=
  lock_requests (log (outcome_world o)) = lock_requests (log w).

(** At least one encoding-try flag is set in [f]. *)
Definition tries_encoding `{Headers} (f : Z) : bool :=
  flag_set f DICT_FLAG_TRY1NULL || flag_set f DICT_FLAG_TRY0NULL.

(** The flags [f'] are the flags [f], or [f] with one of its two
    encoding-try flags cleared, the other one being set. *)
Definition only_encoding_cleared `{Headers} (f f' : Z) : Prop :=
  f' = f
  \/ (flag_set f DICT_FLAG_TRY1NULL = true
      /\ f' = flag_clear f DICT_FLAG_TRY0NULL)
  \/ (flag_set f DICT_FLAG_TRY0NULL = true
      /\ f' = flag_clear f DICT_FLAG_TRY1NULL).

(** The handle [d'] is a handle of the dictionary of [d]: same type, name,
    descriptors, modification time, owner and jump buffer. *)
Definition same_dictionary (d d' : DICT_LMDB) : Prop :=
  type (dict d') = type (dict d) /\ name (dict d') = name (dict d)
  /\ lock_fd (dict d') = lock_fd (dict d)
  /\ stat_fd (dict d') = stat_fd (dict d)
  /\ mtime (dict d') = mtime (dict d)
  /\ owner_uid (dict d') = owner_uid (dict d)
  /\ owner_status (dict d') = owner_status (dict d)
  /\ jbuf (dict d') = jbuf (dict d).

(** The operation on the handle [d] did not panic; if it returned, the
    handle is one of the same dictionary, its flags are those of [d] with at
    most one encoding-try flag cleared, and it still has an encoding to try. *)
Definition keeps_handle `{Headers} {W A} (handle_of : A -> DICT_LMDB)
    (d : DICT_LMDB) (o : outcome W A) : Prop :=
  match o with
  | Returned a _ =>
      same_dictionary d (handle_of a)
      /\ only_encoding_cleared (flags (dict d)) (flags (dict (handle_of a)))
      /\ tries_encoding (flags (dict (handle_of a))) = true
  | Fatal _ _ => True
  | Panic _ _ => False
  end.

(** The function of a scan request is one of the two the interface has. *)
Definition request_valid `{Headers} (r : dict_request) : Prop :=
  match r with
  | Sequence function =>
      function = DICT_SEQ_FUN_FIRST \/ function = DICT_SEQ_FUN_NEXT
  | _ => True
  end.

(** What a caller gets from an update on a handle with the flags [f] that
    started in [w]: no error in the handle, and the status 0, or the
    engine's "key exists" under the ignore policy, with no warning, or "key
    exists" under the warn policy, with one warning logged. *)
Definition update_result `{Headers} {Env} (f : Z) (w : World Env)
    (o : outcome (World Env) (Z * DICT_LMDB)) : Prop :=
  match o with
  | Returned (status, d') w' =>
      error (dict d') = 0
      /\ ((status = 0 /\ warnings (log w') = warnings (log w))
          \/ (status = MDB_KEYEXIST
              /\ flag_set f DICT_FLAG_DUP_IGNORE = true
              /\ warnings (log w') = warnings (log w))
          \/ (status = MDB_KEYEXIST
              /\ flag_set f DICT_FLAG_DUP_IGNORE = false
              /\ flag_set f DICT_FLAG_DUP_WARN = true
              /\ exists message,
                  warnings (log w') = message :: warnings (log w)))
  | _ => True
  end.

(** What a caller gets from a lookup, a delete or a scan step that started
    in [w]: a result in the range [expected], no error in the handle, and
    no warning logged. *)
Definition plain_result {Env A} (expected : A -> Prop)
    (handle_of : A -> DICT_LMDB) (w : World Env)
    (o : outcome (World Env) A) : Prop :=
  match o with
  | Returned a w' =>
      expected a
      /\ error (dict (handle_of a)) = 0
      /\ warnings (log w') = warnings (log w)
  | _ => True
  end.

(** Every bit of the mask [m] is set in [f]. *)
Definition has_flags (f m : Z) : Prop := Z.land f m = m.

(** The calls of the engine's open in a log, most recent first: the path,
    the open flags, the flags of the engine and those of the binding. *)
Fixpoint engine_opens (l : list event) : list (string * Z * Z * Z) :=
  match l with
  | [] => []
  | Ev_slmdb_open path open_flags mdb_flags slmdb_flags _ :: l' =>
      (path, open_flags, mdb_flags, slmdb_flags) :: engine_opens l'
  | _ :: l' => engine_opens l'
  end.

(** An open that started in [w], where the start of the session answered
    [init_status], did not panic. When the session did not start (the
    status is not 0) it made no call of the engine's open and gave a
    stand-in; when the session started it made exactly one call of the
    engine's open, with the request [rq], whether it then gave a handle or
    a stand-in or ended fatally. *)
Definition opens_with {Env} (init_status : Z) (rq : string * Z * Z * Z)
    (w : World Env) (o : outcome (World Env) DICT_handle) : Prop :=
  match o with
  | Returned h w' =>
      if init_status =? 0
      then engine_opens (log w') = rq :: engine_opens (log w)
      else engine_opens (log w') = engine_opens (log w)
           /\ exists s, h = surrogate_handle s
  | Fatal _ w' =>
      init_status = 0
      /\ engine_opens (log w') = rq :: engine_opens (log w)
  | Panic _ _ => False
  end.


(** The handle that an open of [path] with the flags [dict_flags] gives:
    a dictionary of type "lmdb" named [path], with no error, the
    descriptor of the database file [fd] for locking and for stat, the
    modification time and the owner that [fstat] gave for it in the world
    [e], trusted only when the owner is root, no key or value buffer yet,
    the flags asked for and DICT_FLAG_FIXED, a fold buffer when keys are
    folded, a jump buffer when the open is for bulk update. *)
Definition opened_handle `{Headers} {Env} `{Collaborators Env}
    (path : string) (dict_flags : Z) (e : Env) (d : DICT_LMDB) : Prop :=
  type (dict d) = DICT_TYPE_LMDB /\ name (dict d) = path
  /\ error (dict d) = 0
  /\ lock_fd (dict d) = stat_fd (dict d)
  /\ (exists r st,
        fstat (lock_fd (dict d)) e = (r, st) /\ 0 <= r
        /\ mtime (dict d) = st_mtime st
        /\ owner_uid (dict d) = st_uid st
        /\ owner_status (dict d) = (if st_uid st =? 0 then 0 else 1))
  /\ key_buf d = None /\ val_buf d = None
  /\ has_flags (flags (dict d)) dict_flags
  /\ flag_set (flags (dict d)) DICT_FLAG_FIXED = true
  /\ (is_Some (fold_buf (dict d))
      <-> flag_set dict_flags DICT_FLAG_FOLD_FIX = true)
  /\ jbuf (dict d) = flag_set dict_flags DICT_FLAG_BULK_UPDATE.

(** The source file of [path] is stale in the world [e] for a database
    last modified at [db_mtime]: it exists, is newer than the database, and
    was changed more than 100 seconds ago. *)
Definition source_newer {Env} `{Collaborators Env} (path : string)
    (db_mtime : Z) (e : Env) : bool :=
  let '(r, st) := stat path e in
  (r =? 0) && (db_mtime <? st_mtime st) && (st_mtime st <? time e - 100).

(** An open of [path] with the flags [dict_flags] that started in [w] and
    gave a database handle bundled it up in some world [e], and logged the
    warning on a stale source file exactly when locking is asked for and
    the source is stale in [e]; it logged no other warning. *)
Definition opens_handle `{Headers} {Env} `{Collaborators Env} (path : string)
    (dict_flags : Z) (w : World Env) (o : outcome (World Env) DICT_handle)
  : Prop :=
  match o with
  | Returned (lmdb_handle d) w' =>
      exists e logged,
        warnings (log w') = logged ++ warnings (log w)
        /\ opened_handle path dict_flags e d
        /\ logged
           = (if flag_set dict_flags DICT_FLAG_LOCK
                 && source_newer path (mtime (dict d)) e
              then [("database " ++ (path ++ ".lmdb")
                     ++ " is older than source file " ++ path)%string]
              else [])
  | _ => True
  end.


(** What [headers_ok] says of the flags the operations test. *)
Record flags_ok `{Headers} : Prop := {
  bit_try0 : single_bit DICT_FLAG_TRY0NULL = true;
  bit_try1 : single_bit DICT_FLAG_TRY1NULL = true;
  bit_lock : single_bit DICT_FLAG_LOCK = true;
  bit_fold : single_bit DICT_FLAG_FOLD_FIX = true;
  bit_fixed : single_bit DICT_FLAG_FIXED = true;
  bit_warn : single_bit DICT_FLAG_DUP_WARN = true;
  bit_ignore : single_bit DICT_FLAG_DUP_IGNORE = true;
  bit_replace : single_bit DICT_FLAG_DUP_REPLACE = true;
  ne_try : DICT_FLAG_TRY0NULL <> DICT_FLAG_TRY1NULL;
  ne_try_sym : DICT_FLAG_TRY1NULL <> DICT_FLAG_TRY0NULL;
  ne_try0_lock : DICT_FLAG_TRY0NULL <> DICT_FLAG_LOCK;
  ne_try1_lock : DICT_FLAG_TRY1NULL <> DICT_FLAG_LOCK;
  ne_try0_fold : DICT_FLAG_TRY0NULL <> DICT_FLAG_FOLD_FIX;
  ne_try1_fold : DICT_FLAG_TRY1NULL <> DICT_FLAG_FOLD_FIX;
  ne_try0_fixed : DICT_FLAG_TRY0NULL <> DICT_FLAG_FIXED;
  ne_try1_fixed : DICT_FLAG_TRY1NULL <> DICT_FLAG_FIXED;
  ne_try0_warn : DICT_FLAG_TRY0NULL <> DICT_FLAG_DUP_WARN;
  ne_try1_warn : DICT_FLAG_TRY1NULL <> DICT_FLAG_DUP_WARN;
  ne_try0_ignore : DICT_FLAG_TRY0NULL <> DICT_FLAG_DUP_IGNORE;
  ne_try1_ignore : DICT_FLAG_TRY1NULL <> DICT_FLAG_DUP_IGNORE;
  ne_try0_replace : DICT_FLAG_TRY0NULL <> DICT_FLAG_DUP_REPLACE;
  ne_try1_replace : DICT_FLAG_TRY1NULL <> DICT_FLAG_DUP_REPLACE;
  ne_notfound_0 : MDB_NOTFOUND <> 0;
  ne_keyexist_0 : MDB_KEYEXIST <> 0;
  ne_notfound_keyexist : MDB_NOTFOUND <> MDB_KEYEXIST;
  ne_first_next : DICT_SEQ_FUN_FIRST <> DICT_SEQ_FUN_NEXT;
  ne_nooverwrite_0 : MDB_NOOVERWRITE <> 0
}.

(** * Properties *)

(** ** Facts on flags *)

Lemma land_pow2_eqb (f k : Z) :
  0 <= k -> (Z.land f (2 ^ k) =? 0) = negb (Z.testbit f k).
Proof.
  intros Hk. destruct (Z.testbit f k) eqn:Hb; simpl.
  - apply Z.eqb_neq. intros H0.
    assert (Hc : Z.testbit (Z.land f (2 ^ k)) k = true).
    { rewrite Z.land_spec, Hb, Z.pow2_bits_true by lia. reflexivity. }
    rewrite H0, Z.bits_0 in Hc. discriminate.
  - apply Z.eqb_eq. apply Z.bits_inj'. intros n Hn.
    rewrite Z.land_spec, Z.bits_0, Z.pow2_bits_eqb by lia.
    destruct (Z.eqb_spec k n) as [->|]; [rewrite Hb|]; auto using andb_false_r.
Qed.

Lemma single_bit_pow2 (m : Z) :
  single_bit m = true -> 0 <= Z.log2 m /\ m = 2 ^ Z.log2 m /\ 0 < m.
Proof.
  unfold single_bit. rewrite !andb_true_iff.
  intros [[H1 H2] _]. apply Z.ltb_lt in H1. apply Z.eqb_eq in H2.
  split; [apply Z.log2_nonneg|]. split; [exact H2 | exact H1].
Qed.

Lemma flag_set_testbit (f m : Z) :
  single_bit m = true -> flag_set f m = Z.testbit f (Z.log2 m).
Proof.
  intros Hm. destruct (single_bit_pow2 m Hm) as (Hk & Heq & _).
  unfold flag_set. rewrite Heq at 1. rewrite land_pow2_eqb by exact Hk.
  apply negb_involutive.
Qed.

Lemma flag_set_clear_same (f m : Z) :
  single_bit m = true -> flag_set (flag_clear f m) m = false.
Proof.
  intros Hm. rewrite flag_set_testbit by exact Hm.
  destruct (single_bit_pow2 m Hm) as (Hk & Heq & _).
  unfold flag_clear. rewrite Z.land_spec, Z.lnot_spec by exact Hk.
  rewrite Heq at 2. rewrite Z.pow2_bits_true by exact Hk.
  apply andb_false_r.
Qed.

Lemma flag_set_clear_other (f a b : Z) :
  single_bit a = true -> single_bit b = true -> a <> b ->
  flag_set (flag_clear f a) b = flag_set f b.
Proof.
  intros Ha Hb Hab. rewrite !flag_set_testbit by exact Hb.
  destruct (single_bit_pow2 a Ha) as (Hka & Heqa & _).
  destruct (single_bit_pow2 b Hb) as (Hkb & Heqb & _).
  unfold flag_clear. rewrite Z.land_spec, Z.lnot_spec by exact Hkb.
  rewrite Heqa at 1. rewrite Z.pow2_bits_eqb by exact Hka.
  destruct (Z.eqb_spec (Z.log2 a) (Z.log2 b)) as [E|E].
  - exfalso. apply Hab. rewrite Heqa, Heqb, E. reflexivity.
  - simpl. apply andb_true_r.
Qed.

Lemma flag_set_lor (f a m : Z) :
  flag_set (Z.lor f a) m = flag_set f m || flag_set a m.
Proof.
  unfold flag_set. rewrite Z.land_lor_distr_l.
  destruct (Z.eqb_spec (Z.land f m) 0) as [E1|E1];
    destruct (Z.eqb_spec (Z.land a m) 0) as [E2|E2]; simpl.
  - rewrite E1, E2. reflexivity.
  - rewrite E1, Z.lor_0_l. apply negb_true_iff, Z.eqb_neq, E2.
  - rewrite E2, Z.lor_0_r. apply negb_true_iff, Z.eqb_neq, E1.
  - apply negb_true_iff, Z.eqb_neq. intros E. apply Z.lor_eq_0_iff in E. tauto.
Qed.

Lemma flag_set_self (m : Z) : single_bit m = true -> flag_set m m = true.
Proof.
  intros Hm. destruct (single_bit_pow2 m Hm) as (_ & _ & Hpos).
  unfold flag_set. rewrite Z.land_diag. apply negb_true_iff, Z.eqb_neq. lia.
Qed.

Lemma flag_set_distinct (a b : Z) :
  single_bit a = true -> single_bit b = true -> a <> b -> flag_set a b = false.
Proof.
  intros Ha Hb Hab. rewrite flag_set_testbit by exact Hb.
  destruct (single_bit_pow2 a Ha) as (Hka & Heqa & _).
  destruct (single_bit_pow2 b Hb) as (Hkb & Heqb & _).
  rewrite Heqa at 1. rewrite Z.pow2_bits_eqb by exact Hka.
  apply Z.eqb_neq. intros E. apply Hab. rewrite Heqa, Heqb, E. reflexivity.
Qed.

(** [(f & (a | b)) == 0] tests that neither flag is set. *)
Lemma land_lor_eqb (f a b : Z) :
  (Z.land f (Z.lor a b) =? 0) = negb (flag_set f a) && negb (flag_set f b).
Proof.
  unfold flag_set. rewrite !negb_involutive, Z.land_lor_distr_r.
  destruct (Z.eqb_spec (Z.land f a) 0) as [E1|E1];
    destruct (Z.eqb_spec (Z.land f b) 0) as [E2|E2]; simpl.
  - rewrite E1, E2. reflexivity.
  - rewrite E1, Z.lor_0_l. apply Z.eqb_neq, E2.
  - apply Z.eqb_neq. intros E. apply Z.lor_eq_0_iff in E. tauto.
  - apply Z.eqb_neq. intros E. apply Z.lor_eq_0_iff in E. tauto.
Qed.

Lemma distinctb_NoDup (l : list Z) : distinctb l = true -> NoDup l.
Proof.
  induction l as [|x l IH]; simpl; intros H; [constructor|].
  apply andb_true_iff in H. destruct H as [H1 H2].
  constructor; [|auto].
  intros Hin. apply list_elem_of_In in Hin.
  rewrite forallb_forall in H1. specialize (H1 x Hin).
  rewrite Z.eqb_refl in H1. discriminate.
Qed.

Lemma headers_ok_flags `{Headers} : headers_ok = true -> flags_ok.
Proof.
  unfold headers_ok. rewrite !andb_true_iff, !negb_true_iff, !Z.eqb_neq.
  intros [[[[[[Hb Hd] ?] ?] ?] ?] ?].
  apply distinctb_NoDup in Hd.
  rewrite forallb_forall in Hb.
  assert (Hbit : forall m, In m flag_masks -> single_bit m = true) by exact Hb.
  unfold flag_masks in *.
  repeat match goal with
         | Hn : NoDup (_ :: _) |- _ => apply NoDup_cons in Hn; destruct Hn
         end.
  repeat match goal with
         | Hn : _ ∉ _ |- _ => rewrite list_elem_of_In in Hn; simpl in Hn
         end.
  constructor; try assumption;
    try (apply Hbit; simpl; tauto); try (intros E; rewrite E in *; tauto);
    try (intros E; rewrite <- E in *; tauto).
Qed.

Section Properties.

Context `{Hdr : Headers} `{Glb : Globals} {Env : Type} `{Col : Collaborators Env}.

(** ** Programming errors *)

(** C7. A lookup, an update or a delete on a handle that has neither
    encoding-try flag, and a scan whose function is neither FIRST nor NEXT,
    end in a panic: the process is terminated with a diagnostic, before any
    lock is asked for and before the engine is called (the world is the one
    the call started in). *)
Theorem misuse_panics (d : DICT_LMDB) (key value : bytes) (function : Z)
    (kp vp : option bufptr) (w : World Env) :
  (flag_set (flags (dict d)) DICT_FLAG_TRY1NULL = false ->
   flag_set (flags (dict d)) DICT_FLAG_TRY0NULL = false ->
   (exists message, dict_lmdb_lookup d key w = Panic message w)
   /\ (exists message, dict_lmdb_update d key value w = Panic message w)
   /\ (exists message, dict_lmdb_delete d key w = Panic message w))
  /\ (function <> DICT_SEQ_FUN_FIRST -> function <> DICT_SEQ_FUN_NEXT ->
      exists message, dict_lmdb_sequence d function kp vp w = Panic message w).
Proof.
  split.
  - intros H1 H0.
    unfold dict_lmdb_lookup, dict_lmdb_update, dict_lmdb_delete. simpl.
    rewrite land_lor_eqb, H1, H0. simpl.
    repeat split; eexists; reflexivity.
  - intros Hf Hn. unfold dict_lmdb_sequence, bind.
    apply Z.eqb_neq in Hf, Hn. rewrite Hf, Hn. simpl.
    eexists. reflexivity.
Qed.

End Properties.

(** C7 on the sample constants: a handle opened with the flags cleared, and
    the scan function 7. *)
Lemma misuse_panics_witness :
  ((exists message,
       Sample.lookup (sample_handle 64) (cstr "k") (ref_world [])
       = Panic message (ref_world []))
   /\ (exists message,
       Sample.update (sample_handle 64) (cstr "k") (cstr "v") (ref_world [])
       = Panic message (ref_world []))
   /\ (exists message,
       Sample.delete (sample_handle 64) (cstr "k") (ref_world [])
       = Panic message (ref_world [])))
  /\ (exists message,
       Sample.sequence (sample_handle 64) 7 None None (ref_world [])
       = Panic message (ref_world [])).
Proof.
  destruct (@misuse_panics sample_headers RefEnv Sample.collaborators
              (sample_handle 64) (cstr "k") (cstr "v") 7 None None (ref_world []))
    as [Hflags Hfun].
  split.
  - apply Hflags; reflexivity.
  - apply Hfun; discriminate.
Defined.

(** ** Tactics to run the adapter *)

Ltac simpl_handle :=
  cbn [flags dict error name type lock_fd fold_buf key_buf val_buf
       set_error set_flags set_fold_buf set_key_buf set_val_buf clear_flag
       SCOPY_val SCOPY_key vstring_str env log outcome_world fst snd] in *.

(** ** The blocks the operations are made of *)

Section Blocks.

Context `{Hdr : Headers} {Env : Type} `{Col : Collaborators Env}.

Lemma bind_Returned {A B} (m : M Env A) (k : A -> M Env B) (w w' : World Env)
    (y : B) :
  bind m k w = Returned y w' ->
  exists x w0, m w = Returned x w0 /\ k x w0 = Returned y w'.
Proof.
  unfold bind. destruct (m w) as [x w0| |]; try discriminate. eauto.
Qed.

Lemma bind_eq {A B} (m : M Env A) (k : A -> M Env B) (w w0 : World Env)
    (x : A) :
  m w = Returned x w0 -> bind m k w = k x w0.
Proof. unfold bind. intros ->. reflexivity. Qed.

Lemma bind_Fatal_eq {A B} (m : M Env A) (k : A -> M Env B) (w w0 : World Env)
    (msg : string) :
  m w = Fatal msg w0 -> bind m k w = Fatal msg w0.
Proof. unfold bind. intros ->. reflexivity. Qed.

Lemma bind_msg_fatal {A B} (msg : string) (k : A -> M Env B) (w : World Env) :
  bind (msg_fatal msg) k w = Fatal msg w.
Proof. reflexivity. Qed.

Lemma bind_msg_panic {A B} (msg : string) (k : A -> M Env B) (w : World Env) :
  bind (msg_panic msg) k w = Panic msg w.
Proof. reflexivity. Qed.

(** The folding gives a handle that differs at most in its fold buffer. *)
Lemma fold_key_spec (d : DICT_LMDB) (key : bytes) :
  exists fb,
    fold_key d key = (set_fold_buf d fb, folded (flags (dict d)) key).
Proof.
  unfold fold_key, folded.
  destruct (flag_set (flags (dict d)) DICT_FLAG_FOLD_FIX).
  - exists (Some (lowercase key)). reflexivity.
  - exists (fold_buf (dict d)). destruct d as [[] ? ?]. reflexivity.
Qed.

(** The three ways a lock request of an operation goes. *)
Lemma lock_dictionary_cases (d : DICT_LMDB) (op : myflock_op) (what : string)
    (w : World Env) :
  (flag_set (flags (dict d)) DICT_FLAG_LOCK = false
   /\ lock_dictionary d op what w = Returned tt w)
  \/ (flag_set (flags (dict d)) DICT_FLAG_LOCK = true
      /\ exists r e',
          let w' := mkWorld e' (Ev_myflock (lock_fd (dict d))
                                  MYFLOCK_STYLE_FCNTL op r :: log w) in
          myflock (lock_fd (dict d)) MYFLOCK_STYLE_FCNTL op (env w) = (r, e')
          /\ ((r < 0 /\ exists msg, lock_dictionary d op what w = Fatal msg w')
              \/ (0 <= r /\ lock_dictionary d op what w = Returned tt w'))).
Proof.
  unfold lock_dictionary.
  destruct (flag_set (flags (dict d)) DICT_FLAG_LOCK); [right|left; auto].
  split; [reflexivity|]. unfold bind, call.
  destruct (myflock _ _ _ _) as [r e']. exists r, e'. simpl.
  split; [reflexivity|].
  destruct (Z.ltb_spec r 0); [left|right]; split; eauto.
Qed.

(** The three ways a probe of the lookup goes. *)
Lemma lookup_probe_cases (d : DICT_LMDB) (key : bytes) (size other : Z)
    (w : World Env) :
  exists status value e',
    let w' := mkWorld e' (Ev_slmdb_get (mdb_val key size) status :: log w) in
    slmdb_get (mdb_val key size) (env w) = (status, value, e')
    /\ ((status = 0
         /\ lookup_probe d key size other w
            = Returned (Some ptr_val_buf,
                        SCOPY_val (clear_flag d other) value) w')
        \/ (status <> 0 /\ status = MDB_NOTFOUND
            /\ lookup_probe d key size other w = Returned (None, d) w')
        \/ (status <> 0 /\ status <> MDB_NOTFOUND
            /\ exists msg, lookup_probe d key size other w = Fatal msg w')).
Proof.
  unfold lookup_probe, bind, call_slmdb_get.
  destruct (slmdb_get _ _) as [[status value] e']. exists status, value, e'.
  simpl. split; [reflexivity|].
  destruct (Z.eqb_spec status 0); [left; auto|right].
  destruct (Z.eqb_spec status MDB_NOTFOUND); [left; auto|right].
  simpl. eauto.
Qed.

(** The three ways a probe of the delete goes. *)
Lemma delete_probe_cases (d : DICT_LMDB) (key : bytes) (size other : Z)
    (w : World Env) :
  exists status e',
    let w' := mkWorld e' (Ev_slmdb_del (mdb_val key size) status :: log w) in
    slmdb_del (mdb_val key size) (env w) = (status, e')
    /\ ((status = 0
         /\ delete_probe d key size other w
            = Returned (0, clear_flag d other) w')
        \/ (status <> 0 /\ status = MDB_NOTFOUND
            /\ delete_probe d key size other w = Returned (1, d) w')
        \/ (status <> 0 /\ status <> MDB_NOTFOUND
            /\ exists msg, delete_probe d key size other w = Fatal msg w')).
Proof.
  unfold delete_probe, bind, call.
  destruct (slmdb_del _ _) as [status e']. exists status, e'.
  simpl. split; [reflexivity|].
  destruct (Z.eqb_spec status 0) as [->|]; [left; auto|right].
  destruct (Z.eqb_spec status MDB_NOTFOUND); [left; auto|right].
  simpl. eauto.
Qed.

Lemma length_lowercase (s : bytes) : length (lowercase s) = length s.
Proof. apply length_map. Qed.

Lemma length_folded (f : Z) (s : bytes) : length (folded f s) = length s.
Proof.
  unfold folded. destruct (flag_set f DICT_FLAG_FOLD_FIX);
    auto using length_lowercase.
Qed.

Lemma mdb_val_all (s : bytes) (n : Z) :
  n = strlen s -> mdb_val s n = s.
Proof.
  intros ->. unfold mdb_val, strlen. rewrite Nat2Z.id.
  rewrite take_app_le by lia. apply firstn_all.
Qed.

Lemma mdb_val_all_null (s : bytes) (n : Z) :
  n = strlen s + 1 -> mdb_val s n = s ++ [NUL].
Proof.
  intros ->. unfold mdb_val, strlen.
  replace (Z.to_nat (Z.of_nat (length s) + 1)) with (length (s ++ [NUL])).
  - apply firstn_all.
  - rewrite length_app. simpl. lia.
Qed.

End Blocks.

(** ** The log only grows *)

Section LogGrowth.

Context `{Hdr : Headers} `{Glb : Globals} {Env : Type} `{Col : Collaborators Env}.

Lemma grows_ret {A} (a : A) : grows (@ret Env A a).
Proof. intros w. exists []. reflexivity. Qed.

Lemma grows_msg_fatal {A} (msg : string) : grows (@msg_fatal Env A msg).
Proof. intros w. exists []. reflexivity. Qed.

Lemma grows_msg_panic {A} (msg : string) : grows (@msg_panic Env A msg).
Proof. intros w. exists []. reflexivity. Qed.

Lemma grows_emit (e : event) : grows (@emit Env e).
Proof. intros w. exists [e]. reflexivity. Qed.

Lemma grows_call {R} (f : Env -> R * Env) (ev : R -> event) :
  grows (call f ev).
Proof.
  intros w. unfold call. destruct (f (env w)) as [r e'].
  exists [ev r]. reflexivity.
Qed.

Lemma grows_observe {R} (f : Env -> R) : grows (observe f).
Proof. intros w. exists []. reflexivity. Qed.

Lemma grows_bind {A B} (m : M Env A) (k : A -> M Env B) :
  grows m -> (forall a, grows (k a)) -> grows (bind m k).
Proof.
  intros Hm Hk w. unfold bind. specialize (Hm w).
  destruct (m w) as [a w0|msg w0|msg w0]; simpl in *; try exact Hm.
  destruct Hm as [l1 H1]. destruct (Hk a w0) as [l2 H2].
  exists (l2 ++ l1). rewrite H2, H1. apply app_assoc.
Qed.

Lemma grows_call_slmdb_get (key : bytes) : grows (call_slmdb_get key).
Proof.
  intros w. unfold call_slmdb_get.
  destruct (slmdb_get key (env w)) as [[status value] e'].
  exists [Ev_slmdb_get key status]. reflexivity.
Qed.

Lemma grows_call_slmdb_cursor_get (op : MDB_cursor_op) :
  grows (call_slmdb_cursor_get op).
Proof.
  intros w. unfold call_slmdb_cursor_get.
  destruct (slmdb_cursor_get op (env w)) as [[[status key] value] e'].
  exists [Ev_slmdb_cursor_get op status]. reflexivity.
Qed.

Lemma grows_Returned {A} (m : M Env A) (w w' : World Env) (a : A) :
  grows m -> m w = Returned a w' -> exists later, log w' = later ++ log w.
Proof. intros Hm Hr. specialize (Hm w). rewrite Hr in Hm. exact Hm. Qed.

(** After a logged call, the rest of a program adds to the log on top of
    the event of the call. *)
Lemma grows_after_call {R B} (f : Env -> R * Env) (ev : R -> event)
    (k : R -> M Env B) (w : World Env) :
  (forall a, grows (k a)) ->
  exists r later,
    log (outcome_world (bind (call f ev) k w)) = later ++ ev r :: log w.
Proof.
  intros Hk. unfold bind, call. destruct (f (env w)) as [r e'].
  destruct (Hk r (mkWorld e' (ev r :: log w))) as [later Hlater].
  exists r, later. exact Hlater.
Qed.

End LogGrowth.

(** Growth of a computation, by the shape of its program. *)
Ltac grows_step :=
  match goal with
  | |- grows (bind _ _) => apply grows_bind; [|intros]
  | |- grows (ret _) => apply grows_ret
  | |- grows (msg_fatal _) => apply grows_msg_fatal
  | |- grows (msg_panic _) => apply grows_msg_panic
  | |- grows (msg_warn _) => apply grows_emit
  | |- grows (msg_info _) => apply grows_emit
  | |- grows (emit _) => apply grows_emit
  | |- grows (call _ _) => apply grows_call
  | |- grows (observe _) => apply grows_observe
  | |- grows (call_slmdb_get _) => apply grows_call_slmdb_get
  | |- grows (call_slmdb_cursor_get _) => apply grows_call_slmdb_cursor_get
  | |- grows (if ?c then _ else _) => destruct c
  | |- grows (match ?x with _ => _ end) => destruct x
  end.

Tactic Notation "inv_bind" hyp(H) "as" ident(x) ident(w0) ident(H0) :=
  apply bind_Returned in H; destruct H as (x & w0 & H0 & H).

Section OpenProperties.

Context `{Hdr : Headers} `{Glb : Globals} {Env : Type} `{Col : Collaborators Env}.

Lemma to_int_small (z : Z) : 0 <= z < 2 ^ 31 -> to_int z = z.
Proof.
  intros Hz. unfold to_int.
  rewrite Z.mod_small; lia.
Qed.

Lemma double_lt_pow2 (n : Z) : 8 <= n -> 2 * n < 2 ^ n.
Proof.
  intros Hn.
  assert (H2 : n - 2 < 2 ^ (n - 2)) by (apply Z.pow_gt_lin_r; lia).
  replace n with (2 + (n - 2)) at 2 by lia.
  rewrite Z.pow_add_r by lia. change (2 ^ 2) with 4. lia.
Qed.

Lemma bulk_retry_limit_bits :
  platform_ok = true ->
  DICT_LMDB_BULK_RETRY_LIMIT = 2 * (sizeof_size_t * CHAR_BIT).
Proof.
  unfold platform_ok. rewrite !andb_true_iff.
  intros [[Hc Hs] Hb].
  apply Z.leb_le in Hc, Hs. apply Z.ltb_lt in Hb.
  unfold DICT_LMDB_BULK_RETRY_LIMIT.
  assert (Hn : 8 <= sizeof_size_t * CHAR_BIT) by nia.
  pose proof (double_lt_pow2 _ Hn) as Hlt.
  rewrite Z.mod_small by lia.
  rewrite to_int_small by lia. lia.
Qed.

Lemma grows_dict_lmdb_notify (d : DICT) (code limit : Z) :
  grows (@dict_lmdb_notify Hdr Env d code limit).
Proof. unfold dict_lmdb_notify. repeat grows_step. Qed.

(** The open, as the start of the engine session followed by the rest. *)
Lemma open_starts_session (path : string) (open_flags dict_flags : Z)
    (w : World Env) :
  exists status later,
    log (outcome_world (dict_lmdb_open path open_flags dict_flags w))
    = later ++ Ev_slmdb_init dict_lmdb_map_size DICT_LMDB_SIZE_INCR
                 DICT_LMDB_SIZE_MAX status :: log w.
Proof.
  unfold dict_lmdb_open. cbv zeta.
  apply (grows_after_call
           (slmdb_init dict_lmdb_map_size DICT_LMDB_SIZE_INCR
                       DICT_LMDB_SIZE_MAX)
           (Ev_slmdb_init dict_lmdb_map_size DICT_LMDB_SIZE_INCR
                          DICT_LMDB_SIZE_MAX)).
  intros a. unfold dict_surrogate.
  repeat first [apply grows_dict_lmdb_notify | grows_step].
Qed.

(** An open that gives a database handle has sent the controls, and the
    flags of the handle are those asked for, with the two encoding-try flags
    added when neither was asked for. *)
Lemma open_Returned_lmdb (path : string) (open_flags dict_flags : Z)
    (w w' : World Env) (d : DICT_LMDB) :
  dict_lmdb_open path open_flags dict_flags w = Returned (lmdb_handle d) w' ->
  (exists status, In (Ev_slmdb_control open_controls status) (log w'))
  /\ flags (dict d)
     = (if Z.land dict_flags (Z.lor DICT_FLAG_TRY0NULL DICT_FLAG_TRY1NULL) =? 0
        then Z.lor (Z.lor dict_flags DICT_FLAG_FIXED)
                   (Z.lor DICT_FLAG_TRY0NULL DICT_FLAG_TRY1NULL)
        else Z.lor dict_flags DICT_FLAG_FIXED).
Proof.
  unfold dict_lmdb_open. cbv zeta. intros H.
  inv_bind H as s1 w1 H1. inv_bind H as s2 w2 H2.
  destruct (negb (s2 =? 0)); [discriminate|].
  inv_bind H as fd w3 H3. inv_bind H as u4 w4 H4. inv_bind H as rs w5 H5.
  destruct rs as [r st]. destruct (r <? 0); [discriminate|].
  inv_bind H as u6 w6 H6. inv_bind H as cs w7 H7.
  inv_bind H as u8 w8 H8.
  inversion H; subst; clear H. simpl. split; [|reflexivity].
  unfold call in H7. destruct (slmdb_control _ _) as [cs' e'].
  inversion H7; subst; clear H7.
  assert (Hg : exists later,
             log w' = later ++ Ev_slmdb_control open_controls cs :: log w6).
  { pose proof (fun G => grows_Returned _ _ _ _ G H8) as Hg.
    simpl in Hg. apply Hg.
    repeat first [apply grows_dict_lmdb_notify | grows_step]. }
  destruct Hg as [later Hg].
  exists cs. rewrite Hg. apply in_or_app. right. left. reflexivity.
Qed.

(** C9. Every open starts the engine session with the initial map size of
    [dict_lmdb_map_size], the growth factor 2 and the largest value of a
    signed size as the maximum; and an open that gives a database handle has
    set the retry limit of one call to 2 and the retry limit of a bulk
    transaction to twice the number of bits of a [size_t]. *)
Theorem open_session_limits (path : string) (open_flags dict_flags : Z)
    (w : World Env) :
  platform_ok = true ->
  (exists status later,
      log (outcome_world (dict_lmdb_open path open_flags dict_flags w))
      = later ++ Ev_slmdb_init dict_lmdb_map_size 2
                   (2 ^ (sizeof_ssize_t * CHAR_BIT - 1) - 1) status :: log w)
  /\ (forall d w',
         dict_lmdb_open path open_flags dict_flags w
         = Returned (lmdb_handle d) w' ->
         exists status,
           In (Ev_slmdb_control
                 [SLMDB_CTL_API_RETRY_LIMIT 2;
                  SLMDB_CTL_BULK_RETRY_LIMIT (2 * (sizeof_size_t * CHAR_BIT));
                  SLMDB_CTL_LONGJMP_FN; SLMDB_CTL_CONTEXT] status)
              (log w')).
Proof.
  intros Hplat. split.
  - exact (open_starts_session path open_flags dict_flags w).
  - intros d w' Hopen.
    destruct (open_Returned_lmdb _ _ _ _ _ _ Hopen) as [Hctl _].
    unfold open_controls in Hctl.
    rewrite (bulk_retry_limit_bits Hplat) in Hctl. exact Hctl.
Qed.

(** The flags of a handle after an update that returned. *)
Lemma update_handle_flags (d d1 : DICT_LMDB) (key value : bytes) (status : Z)
    (w w1 : World Env) :
  dict_lmdb_update d key value w = Returned (status, d1) w1 ->
  flags (dict d1) = decided (flags (dict d)).
Proof.
  unfold dict_lmdb_update. cbv zeta. simpl_handle.
  destruct (Z.land _ _ =? 0); [discriminate|].
  destruct (fold_key_spec (set_error d 0) key) as [fb ->]. simpl_handle.
  destruct (flag_set (flags (dict _)) DICT_FLAG_TRY1NULL) eqn:Hafter;
    intros H;
    inv_bind H as u1 w2 H1; inv_bind H as s2 w3 H2; inv_bind H as u3 w4 H3;
    inv_bind H as u4 w5 H4; inversion H; subst; clear H;
    unfold decided;
    destruct (flag_set (flags (dict d)) DICT_FLAG_TRY1NULL
              && flag_set (flags (dict d)) DICT_FLAG_TRY0NULL);
    destruct LMDB_NO_TRAILING_NULL; reflexivity.
Qed.

(** C8, as the code has it. An open that gives a database handle never
    leaves both encoding-try flags clear: when the caller asked for neither,
    the open sets both and so leaves the choice open; when the caller asked
    for at least one, the two flags are as asked. The default convention of
    the platform is applied later, by an update on a handle that still has
    both flags. *)
Theorem open_encoding_flags (path : string) (open_flags dict_flags : Z)
    (w w' : World Env) (d : DICT_LMDB) :
  headers_ok = true ->
  dict_lmdb_open path open_flags dict_flags w = Returned (lmdb_handle d) w' ->
  (flag_set (flags (dict d)) DICT_FLAG_TRY0NULL
   || flag_set (flags (dict d)) DICT_FLAG_TRY1NULL = true)
  /\ (flag_set dict_flags DICT_FLAG_TRY0NULL = false ->
      flag_set dict_flags DICT_FLAG_TRY1NULL = false ->
      flag_set (flags (dict d)) DICT_FLAG_TRY0NULL = true
      /\ flag_set (flags (dict d)) DICT_FLAG_TRY1NULL = true)
  /\ (flag_set dict_flags DICT_FLAG_TRY0NULL
      || flag_set dict_flags DICT_FLAG_TRY1NULL = true ->
      flag_set (flags (dict d)) DICT_FLAG_TRY0NULL
      = flag_set dict_flags DICT_FLAG_TRY0NULL
      /\ flag_set (flags (dict d)) DICT_FLAG_TRY1NULL
         = flag_set dict_flags DICT_FLAG_TRY1NULL)
  /\ (forall key value status d1 w1,
         flag_set (flags (dict d)) DICT_FLAG_TRY0NULL = true ->
         flag_set (flags (dict d)) DICT_FLAG_TRY1NULL = true ->
         dict_lmdb_update d key value w' = Returned (status, d1) w1 ->
         platform_default (flags (dict d1))).
Proof.
  intros Hok Hopen. destruct (headers_ok_flags Hok).
  destruct (open_Returned_lmdb _ _ _ _ _ _ Hopen) as [_ Hflags].
  rewrite land_lor_eqb in Hflags.
  assert (H0 : flag_set (flags (dict d)) DICT_FLAG_TRY0NULL
               = if negb (flag_set dict_flags DICT_FLAG_TRY0NULL)
                    && negb (flag_set dict_flags DICT_FLAG_TRY1NULL)
                 then true else flag_set dict_flags DICT_FLAG_TRY0NULL).
  { rewrite Hflags. destruct (_ && _); rewrite !flag_set_lor.
    - rewrite flag_set_self by assumption. rewrite orb_true_r. reflexivity.
    - rewrite (flag_set_distinct DICT_FLAG_FIXED) by auto.
      apply orb_false_r. }
  assert (H1 : flag_set (flags (dict d)) DICT_FLAG_TRY1NULL
               = if negb (flag_set dict_flags DICT_FLAG_TRY0NULL)
                    && negb (flag_set dict_flags DICT_FLAG_TRY1NULL)
                 then true else flag_set dict_flags DICT_FLAG_TRY1NULL).
  { rewrite Hflags. destruct (_ && _); rewrite !flag_set_lor.
    - rewrite flag_set_self by assumption. rewrite !orb_true_r. reflexivity.
    - rewrite (flag_set_distinct DICT_FLAG_FIXED) by auto.
      apply orb_false_r. }
  rewrite H0, H1. clear Hflags.
  split; [|split; [|split]].
  - destruct (flag_set dict_flags DICT_FLAG_TRY0NULL),
      (flag_set dict_flags DICT_FLAG_TRY1NULL); reflexivity.
  - intros -> ->. split; reflexivity.
  - destruct (flag_set dict_flags DICT_FLAG_TRY0NULL),
      (flag_set dict_flags DICT_FLAG_TRY1NULL); try discriminate;
      split; reflexivity.
  - intros key value status d1 w1 Hd0 Hd1 Hupd.
    rewrite <- H0 in Hd0. rewrite <- H1 in Hd1.
    apply update_handle_flags in Hupd. unfold platform_default.
    rewrite Hupd. unfold decided.
    rewrite Hd0, Hd1. simpl. destruct LMDB_NO_TRAILING_NULL; simpl.
    + rewrite flag_set_clear_same by assumption.
      rewrite flag_set_clear_other by auto. auto.
    + rewrite flag_set_clear_same by assumption.
      rewrite flag_set_clear_other by auto. auto.
Qed.

(** C4. When the start of the engine session or the engine's open fails,
    the open returns (it neither ends fatally nor panics) a stand-in handle
    of the same type and name, whose reason names the database file and
    carries the engine's text for the failing status; no lock was asked for;
    and every request on the stand-in fails with that one reason. *)
Theorem open_failure_degraded (path : string) (open_flags dict_flags : Z)
    (w : World Env) :
  engine_open_status path open_flags dict_flags (env w) <> 0 ->
  exists s w',
    dict_lmdb_open path open_flags dict_flags w
    = Returned (surrogate_handle s) w'
    /\ surrogate_type s = DICT_TYPE_LMDB
    /\ surrogate_name s = path
    /\ reason s
       = ("open database " ++ (path ++ "." ++ DICT_TYPE_LMDB) ++ ": "
          ++ mdb_strerror
               (engine_open_status path open_flags dict_flags (env w)))%string
    /\ lock_requests (log w') = lock_requests (log w)
    /\ forall r, dict_surrogate_request s r = Failed (reason s).
Proof.
  unfold engine_open_status, dict_lmdb_open, dict_surrogate. cbv zeta.
  unfold bind at 1. unfold call at 1.
  destruct (slmdb_init _ _ _ _) as [s1 e1].
  unfold bind at 1.
  destruct (negb (s1 =? 0)) eqn:Hs1.
  - intros _. unfold ret at 1. rewrite Hs1. unfold ret.
    eexists _, _. split; [reflexivity|]. simpl.
    do 4 (split; [reflexivity|]). intros []; reflexivity.
  - unfold call at 1. cbn [env].
    destruct (slmdb_open _ _ _ _ _) as [s2 e2]. cbn [fst].
    intros Hs2. apply Z.eqb_neq in Hs2. rewrite Hs2. unfold ret. simpl.
    eexists _, _. split; [reflexivity|]. simpl.
    do 4 (split; [reflexivity|]). intros []; reflexivity.
Qed.

End OpenProperties.

(** C9 on the sample constants (64-bit sizes): the limits are 2 and 128, the
    maximum is 2^63 - 1. *)
Lemma open_session_limits_witness :
  @platform_ok sample_headers = true
  /\ (exists status later,
         log (outcome_world (Sample.open "/etc/postfix/aliases" 2 0
                                         (ref_world [])))
         = later ++ [Ev_slmdb_init 8192 2 9223372036854775807 status])
  /\ (exists status,
         In (Ev_slmdb_control
               [SLMDB_CTL_API_RETRY_LIMIT 2; SLMDB_CTL_BULK_RETRY_LIMIT 128;
                SLMDB_CTL_LONGJMP_FN; SLMDB_CTL_CONTEXT] status)
            (log (outcome_world (Sample.open "/etc/postfix/aliases" 2 0
                                             (ref_world []))))).
Proof.
  destruct (@open_session_limits sample_headers sample_globals RefEnv
              Sample.collaborators "/etc/postfix/aliases" 2 0 (ref_world [])
              eq_refl) as [Hinit Hctl].
  split; [reflexivity|]. split.
  - exact Hinit.
  - exact (Hctl _ _ eq_refl).
Defined.

(** C4 on the reference engine, with an open that answers 2 (no such file):
    the reason of the stand-in handle. *)
Lemma open_failure_degraded_witness :
  exists s w',
    Sample.open "/etc/postfix/aliases" 0 0 (ref_world_closed 2)
    = Returned (surrogate_handle s) w'
    /\ reason s
       = "open database /etc/postfix/aliases.lmdb: No such file or directory"%string
    /\ forall r, dict_surrogate_request s r = Failed (reason s).
Proof.
  destruct (@open_failure_degraded sample_headers sample_globals RefEnv
              Sample.collaborators "/etc/postfix/aliases" 0 0
              (ref_world_closed 2))
    as (s & w' & Hopen & _ & _ & Hreason & _ & Hreq).
  - vm_compute. discriminate.
  - exists s, w'. split; [exact Hopen|]. split; [exact Hreason|exact Hreq].
Defined.

(** What the code does where C8 says otherwise: an open without either
    encoding-try flag, on a platform whose default is the trailing null
    byte, gives a handle with both flags set, not the platform's default
    alone. *)
Lemma open_keeps_both_encodings :
  match Sample.open "/etc/postfix/aliases" 2 0 (ref_world []) with
  | Returned (lmdb_handle d) _ =>
      flag_set (flags (dict d)) (@DICT_FLAG_TRY0NULL sample_headers) = true
      /\ flag_set (flags (dict d)) (@DICT_FLAG_TRY1NULL sample_headers) = true
      /\ ~ @platform_default sample_headers (flags (dict d))
  | _ => False
  end.
Proof.
  vm_compute. split; [reflexivity|]. split; [reflexivity|].
  intros [_ H]. discriminate H.
Qed.

(** C8 as amended, on the sample constants: the open sets both flags, and
    the first update leaves the platform's default. *)
Lemma open_encoding_flags_witness :
  match Sample.open "/etc/postfix/aliases" 2 0 (ref_world []) with
  | Returned (lmdb_handle d) w' =>
      (flag_set (flags (dict d)) (@DICT_FLAG_TRY0NULL sample_headers) = true
       /\ flag_set (flags (dict d)) (@DICT_FLAG_TRY1NULL sample_headers)
          = true)
      /\ forall key value status d1 w1,
           Sample.update d key value w' = Returned (status, d1) w1 ->
           @platform_default sample_headers (flags (dict d1))
  | _ => False
  end.
Proof.
  destruct (Sample.open "/etc/postfix/aliases" 2 0 (ref_world []))
    as [[s|d] w'|msg w'|msg w'] eqn:Hopen; try (vm_compute in Hopen; discriminate).
  destruct (@open_encoding_flags sample_headers sample_globals RefEnv
              Sample.collaborators "/etc/postfix/aliases" 2 0 (ref_world [])
              w' d eq_refl Hopen) as (_ & Hboth & _ & Hupd).
  assert (Hb : flag_set (flags (dict d)) (@DICT_FLAG_TRY0NULL sample_headers)
               = true
               /\ flag_set (flags (dict d))
                           (@DICT_FLAG_TRY1NULL sample_headers) = true)
    by (apply Hboth; reflexivity).
  split; [exact Hb|].
  intros key value status d1 w1. apply Hupd; apply Hb.
Defined.

(** ** Running an operation step by step *)

(** One step of the program at the head of the goal [Q (bind m k w)]: the
    cases of [m], each followed by the continuation. *)
Ltac exec_step :=
  cbv beta iota zeta;
  lazymatch goal with
  | |- ?Q (bind (lock_dictionary ?d ?op ?what) ?k ?w) =>
      let Hl := fresh "Hlock" in
      let r := fresh "r" in
      let e' := fresh "e" in
      let Hr := fresh "Hr" in
      let Hf := fresh "Hflock" in
      let msg := fresh "msg" in
      let E := fresh "E" in
      destruct (lock_dictionary_cases d op what w)
        as [[Hl E]|[Hl (r & e' & Hf & [[Hr [msg E]]|[Hr E]])]];
      [rewrite (bind_eq _ k _ _ _ E)
      |rewrite (bind_Fatal_eq _ k _ _ _ E)
      |rewrite (bind_eq _ k _ _ _ E)];
      clear E; simpl_handle
  | |- ?Q (bind (lookup_probe ?d ?key ?size ?other) ?k ?w) =>
      let st := fresh "status" in
      let v := fresh "value" in
      let e' := fresh "e" in
      let Hget := fresh "Hget" in
      let Hst := fresh "Hst" in
      let Hnf := fresh "Hnf" in
      let msg := fresh "msg" in
      let E := fresh "E" in
      destruct (lookup_probe_cases d key size other w)
        as (st & v & e' & Hget
            & [(Hst & E)|[(Hst & Hnf & E)|(Hst & Hnf & msg & E)]]);
      [rewrite (bind_eq _ k _ _ _ E)
      |rewrite (bind_eq _ k _ _ _ E)
      |rewrite (bind_Fatal_eq _ k _ _ _ E)];
      clear E; simpl_handle
  | |- ?Q (bind (delete_probe ?d ?key ?size ?other) ?k ?w) =>
      let st := fresh "status" in
      let e' := fresh "e" in
      let Hdel := fresh "Hdel" in
      let Hst := fresh "Hst" in
      let Hnf := fresh "Hnf" in
      let msg := fresh "msg" in
      let E := fresh "E" in
      destruct (delete_probe_cases d key size other w)
        as (st & e' & Hdel
            & [(Hst & E)|[(Hst & Hnf & E)|(Hst & Hnf & msg & E)]]);
      [rewrite (bind_eq _ k _ _ _ E)
      |rewrite (bind_eq _ k _ _ _ E)
      |rewrite (bind_Fatal_eq _ k _ _ _ E)];
      clear E; simpl_handle
  | |- ?Q (bind (call ?f ?ev) ?k ?w) =>
      let r := fresh "status" in
      let e' := fresh "e" in
      let Hc := fresh "Hcall" in
      unfold bind at 1, call at 1;
      destruct (f (env w)) as [r e'] eqn:Hc
  | |- ?Q (bind (call_slmdb_cursor_get ?op) ?k ?w) =>
      let r := fresh "status" in
      let ky := fresh "mdb_key" in
      let v := fresh "mdb_value" in
      let e' := fresh "e" in
      let Hc := fresh "Hcursor" in
      unfold bind at 1, call_slmdb_cursor_get at 1;
      destruct (slmdb_cursor_get op (env w)) as [[[r ky] v] e'] eqn:Hc
  | |- ?Q (bind (ret ?x) ?k ?w) =>
      change (bind (ret x) k w) with (k x w)
  | |- ?Q (bind (msg_fatal ?m) ?k ?w) => rewrite (bind_msg_fatal m k w)
  | |- ?Q (bind (msg_panic ?m) ?k ?w) => rewrite (bind_msg_panic m k w)
  | |- ?Q (bind (msg_warn ?m) ?k ?w) =>
      change (bind (msg_warn m) k w)
        with (k tt (mkWorld (env w) (Ev_msg_warn m :: log w)))
  | |- ?Q (bind (if ?c then _ else _) ?k ?w) => destruct c eqn:?
  | |- ?Q (bind (match ?x with _ => _ end) ?k ?w) => destruct x eqn:?
  | |- ?Q (ret ?x ?w) => change (ret x w) with (Returned x w)
  | |- ?Q ((if ?c then _ else _) ?w) => destruct c eqn:?
  | |- ?Q ((match ?x with _ => _ end) ?w) => destruct x eqn:?
  end.

(** The end of a run, for the lock discipline: the calls of the lock
    primitive are those of the discipline, and the last one granted on the
    descriptor is the release. *)
Ltac lock_discipline_done :=
  unfold lock_discipline; cbv zeta;
  cbn [lock_left outcome_world log lock_calls lock_held_on];
  rewrite ?Z.eqb_refl;
  repeat match goal with
         | H : 0 <= ?r |- context [?r <? 0] =>
             rewrite (proj2 (Z.ltb_ge r 0) H)
         end;
  cbn [andb negb];
  split; [reflexivity|eauto 10].

Section LockDiscipline.

Context `{Hdr : Headers} {Env : Type} `{Col : Collaborators Env}.

Hypothesis Hok : headers_ok = true.

Lemma lookup_lock_discipline (d : DICT_LMDB) (key : bytes) (w : World Env) :
  flag_set (flags (dict d)) DICT_FLAG_LOCK = true ->
  lock_discipline (lock_fd (dict d)) MYFLOCK_OP_SHARED w
    (dict_lmdb_lookup d key w).
Proof.
  intros Hlock. destruct (headers_ok_flags Hok).
  unfold dict_lmdb_lookup. cbv zeta. simpl_handle.
  destruct (Z.land _ _ =? 0); [split; reflexivity|].
  destruct (fold_key_spec (set_error d 0) key) as [fb ->].
  repeat exec_step.
  all: rewrite ?flag_set_clear_other in * by auto.
  all: try congruence.
  all: lock_discipline_done.
Qed.

Lemma update_lock_discipline (d : DICT_LMDB) (key value : bytes)
    (w : World Env) :
  flag_set (flags (dict d)) DICT_FLAG_LOCK = true ->
  lock_discipline (lock_fd (dict d)) MYFLOCK_OP_EXCLUSIVE w
    (dict_lmdb_update d key value w).
Proof.
  intros Hlock. destruct (headers_ok_flags Hok).
  unfold dict_lmdb_update. cbv zeta. simpl_handle.
  destruct (Z.land _ _ =? 0); [split; reflexivity|].
  destruct (fold_key_spec (set_error d 0) key) as [fb ->]. simpl_handle.
  destruct (flag_set (flags (dict d)) DICT_FLAG_TRY1NULL
            && flag_set (flags (dict d)) DICT_FLAG_TRY0NULL);
    [destruct LMDB_NO_TRAILING_NULL|]; simpl_handle.
  all: match goal with
       | |- context [if ?c then (_, _) else (_, _)] => destruct c
       end.
  all: repeat exec_step.
  all: rewrite ?flag_set_clear_other in * by auto.
  all: try congruence.
  all: lock_discipline_done.
Qed.

Lemma delete_lock_discipline (d : DICT_LMDB) (key : bytes) (w : World Env) :
  flag_set (flags (dict d)) DICT_FLAG_LOCK = true ->
  lock_discipline (lock_fd (dict d)) MYFLOCK_OP_EXCLUSIVE w
    (dict_lmdb_delete d key w).
Proof.
  intros Hlock. destruct (headers_ok_flags Hok).
  unfold dict_lmdb_delete. cbv zeta. simpl_handle.
  destruct (Z.land _ _ =? 0); [split; reflexivity|].
  destruct (fold_key_spec (set_error d 0) key) as [fb ->].
  repeat exec_step.
  all: rewrite ?flag_set_clear_other in * by auto.
  all: try congruence.
  all: lock_discipline_done.
Qed.

Lemma sequence_lock_discipline (d : DICT_LMDB) (function : Z)
    (kp vp : option bufptr) (w : World Env) :
  flag_set (flags (dict d)) DICT_FLAG_LOCK = true ->
  lock_discipline (lock_fd (dict d)) MYFLOCK_OP_SHARED w
    (dict_lmdb_sequence d function kp vp w).
Proof.
  intros Hlock.
  unfold dict_lmdb_sequence. cbv zeta.
  repeat exec_step.
  all: try congruence.
  all: lock_discipline_done.
Qed.

(** C6. With locking enabled, each operation asks for its lock first
    (shared for lookup and sequence, exclusive for update and delete), on
    the lock descriptor of the handle and with the fcntl style, and asks for
    no other. On every path on which it returns to the caller the lock was
    granted and then released, by a request on the same descriptor with the
    same style that was granted too. On a fatal exit the process ends where
    it is: at the request for the lock, or with the lock granted (an engine
    failure, a fatal duplicate), or at a release that failed; there the
    lock ends with the process that held it. A panic comes before any
    request. So no lock is left on the descriptor when the operation has
    ended, whatever the exit. *)
Theorem operations_lock_discipline (d : DICT_LMDB) (key value : bytes)
    (function : Z) (kp vp : option bufptr) (w : World Env) :
  flag_set (flags (dict d)) DICT_FLAG_LOCK = true ->
  lock_discipline (lock_fd (dict d)) MYFLOCK_OP_SHARED w
    (dict_lmdb_lookup d key w)
  /\ lock_discipline (lock_fd (dict d)) MYFLOCK_OP_EXCLUSIVE w
       (dict_lmdb_update d key value w)
  /\ lock_discipline (lock_fd (dict d)) MYFLOCK_OP_EXCLUSIVE w
       (dict_lmdb_delete d key w)
  /\ lock_discipline (lock_fd (dict d)) MYFLOCK_OP_SHARED w
       (dict_lmdb_sequence d function kp vp w).
Proof.
  intros Hlock.
  auto using lookup_lock_discipline, update_lock_discipline,
    delete_lock_discipline, sequence_lock_discipline.
Qed.

End LockDiscipline.

(** The fatal exit of a lookup with locking enabled, on an engine that
    answers a read with the status 5: the one call of the lock primitive is
    the request for the shared lock on the descriptor of the handle; the
    operation makes no request to release it, the process ends. *)
Example lookup_fatal_ends_process :
  match Sample.lookup (sample_handle (8 + 64)) (cstr "k") (ref_world_faulty [] 5)
  with
  | Fatal _ w' =>
      lock_calls (log w') = [(3, MYFLOCK_STYLE_FCNTL, MYFLOCK_OP_SHARED, 0)]
  | _ => False
  end.
Proof. vm_compute. reflexivity. Qed.

(** C6 on the sample constants and the reference engine, for a handle with
    locking enabled and both encodings to try: the descriptor is 3. *)
Lemma operations_lock_discipline_witness :
  flag_set (flags (dict (sample_handle (4 + 8 + 64))))
           (@DICT_FLAG_LOCK sample_headers) = true
  /\ lock_discipline 3 MYFLOCK_OP_SHARED (ref_world [])
       (Sample.lookup (sample_handle (4 + 8 + 64)) (cstr "k") (ref_world []))
  /\ lock_discipline 3 MYFLOCK_OP_EXCLUSIVE (ref_world [])
       (Sample.update (sample_handle (4 + 8 + 64)) (cstr "k") (cstr "v")
                      (ref_world []))
  /\ lock_discipline 3 MYFLOCK_OP_EXCLUSIVE (ref_world [])
       (Sample.delete (sample_handle (4 + 8 + 64)) (cstr "k") (ref_world []))
  /\ lock_discipline 3 MYFLOCK_OP_SHARED (ref_world [])
       (Sample.sequence (sample_handle (4 + 8 + 64)) 0 None None
                        (ref_world [])).
Proof.
  split; [reflexivity|].
  exact (@operations_lock_discipline sample_headers RefEnv
           Sample.collaborators eq_refl (sample_handle (4 + 8 + 64))
           (cstr "k") (cstr "v") 0 None None (ref_world []) eq_refl).
Defined.

(** ** Probes under a resolved encoding *)

Lemma flag_clear_unset (f m : Z) :
  flag_set f m = false -> flag_clear f m = f.
Proof.
  unfold flag_set, flag_clear. intros H.
  apply negb_false_iff, Z.eqb_eq in H.
  apply Z.bits_inj'. intros n Hn.
  rewrite Z.land_spec, Z.lnot_spec by exact Hn.
  assert (Hb : Z.testbit (Z.land f m) n = false) by (rewrite H; apply Z.bits_0).
  rewrite Z.land_spec in Hb.
  destruct (Z.testbit f n), (Z.testbit m n); simpl in *; congruence.
Qed.

Section ResolvedEncoding.

Context `{Hdr : Headers} {Env : Type} `{Col : Collaborators Env}.

Hypothesis Hok : headers_ok = true.

(** The sizes of the two probes of a key that fits: the length of the key,
    and the length with the null byte. *)
Lemma key_fits_sizes (key : bytes) :
  key_fits key ->
  to_size_t (to_int (strlen key)) = strlen key
  /\ to_size_t (to_int (to_int (strlen key) + 1)) = strlen key + 1.
Proof.
  unfold key_fits, to_size_t, strlen. intros [Hint Hsize].
  assert (H0 : 0 <= Z.of_nat (length key)) by apply Nat2Z.is_nonneg.
  rewrite !to_int_small by (rewrite ?to_int_small; lia).
  rewrite !Z.mod_small by lia. split; reflexivity.
Qed.

Lemma mdb_val_folded (f : Z) (key : bytes) :
  key_fits key ->
  mdb_val (folded f key) (to_size_t (to_int (strlen key))) = folded f key.
Proof.
  intros Hlen. destruct (key_fits_sizes key Hlen) as [-> _].
  apply mdb_val_all. unfold strlen. rewrite length_folded. reflexivity.
Qed.

Lemma mdb_val_folded_null (f : Z) (key : bytes) :
  key_fits key ->
  mdb_val (folded f key) (to_size_t (to_int (to_int (strlen key) + 1)))
  = folded f key ++ [NUL].
Proof.
  intros Hlen. destruct (key_fits_sizes key Hlen) as [_ ->].
  apply mdb_val_all_null. unfold strlen. rewrite length_folded. reflexivity.
Qed.

Lemma resolved_not_panic (f : Z) (e : bool) :
  resolved f e ->
  (Z.land f (Z.lor DICT_FLAG_TRY1NULL DICT_FLAG_TRY0NULL) =? 0) = false.
Proof.
  intros [H1 H0]. rewrite land_lor_eqb, H1, H0. destruct e; reflexivity.
Qed.

Lemma lookup_probes_only (d : DICT_LMDB) (key : bytes) (e : bool)
    (w : World Env) :
  resolved (flags (dict d)) e -> key_fits key ->
  probes_only snd (flags (dict d))
    [encode e (folded (flags (dict d)) key)] w (dict_lmdb_lookup d key w).
Proof.
  intros Hres Hlen. destruct (headers_ok_flags Hok).
  unfold dict_lmdb_lookup. cbv zeta. simpl_handle.
  rewrite (resolved_not_panic _ _ Hres).
  destruct (fold_key_spec (set_error d 0) key) as [fb ->]. simpl_handle.
  destruct Hres as [H1 H0].
  repeat exec_step.
  all: rewrite ?flag_set_clear_other in * by auto.
  all: rewrite ?flag_set_clear_same in * by auto.
  all: destruct e; simpl in *; try congruence.
  all: rewrite ?mdb_val_folded, ?mdb_val_folded_null by exact Hlen.
  all: rewrite ?flag_clear_unset by assumption; auto.
Qed.

Lemma update_probes_only (d : DICT_LMDB) (key value : bytes) (e : bool)
    (w : World Env) :
  resolved (flags (dict d)) e ->
  probes_only snd (flags (dict d))
    [encode e (folded (flags (dict d)) key)] w
    (dict_lmdb_update d key value w).
Proof.
  intros Hres. destruct (headers_ok_flags Hok).
  unfold dict_lmdb_update. cbv zeta. simpl_handle.
  rewrite (resolved_not_panic _ _ Hres).
  destruct (fold_key_spec (set_error d 0) key) as [fb ->]. simpl_handle.
  destruct Hres as [H1 H0].
  destruct e; simpl in H1, H0; rewrite H1, H0; cbn [andb]; simpl_handle;
    rewrite ?H1.
  all: repeat exec_step.
  all: simpl.
  all: rewrite ?(mdb_val_all_null _ _ eq_refl), ?(mdb_val_all _ _ eq_refl).
  all: auto.
Qed.

Lemma delete_probes_only (d : DICT_LMDB) (key : bytes) (e : bool)
    (w : World Env) :
  resolved (flags (dict d)) e -> key_fits key ->
  probes_only snd (flags (dict d))
    [encode e (folded (flags (dict d)) key)] w (dict_lmdb_delete d key w).
Proof.
  intros Hres Hlen. destruct (headers_ok_flags Hok).
  unfold dict_lmdb_delete. cbv zeta. simpl_handle.
  rewrite (resolved_not_panic _ _ Hres).
  destruct (fold_key_spec (set_error d 0) key) as [fb ->]. simpl_handle.
  destruct Hres as [H1 H0].
  repeat exec_step.
  all: rewrite ?flag_set_clear_other in * by auto.
  all: rewrite ?flag_set_clear_same in * by auto.
  all: rewrite ?andb_true_iff, ?andb_false_iff in *.
  all: destruct e; simpl in *; try congruence.
  all: rewrite ?mdb_val_folded, ?mdb_val_folded_null by exact Hlen.
  all: rewrite ?flag_clear_unset by assumption; auto.
  all: try (exfalso; intuition (congruence || lia)).
Qed.

Lemma sequence_probes_only (d : DICT_LMDB) (function : Z)
    (kp vp : option bufptr) (w : World Env) :
  probes_only snd (flags (dict d)) [] w
    (dict_lmdb_sequence d function kp vp w).
Proof.
  unfold dict_lmdb_sequence. cbv zeta.
  repeat exec_step.
  all: simpl; auto.
Qed.

Lemma request_probes_only (d : DICT_LMDB) (r : dict_request) (e : bool)
    (w : World Env) :
  resolved (flags (dict d)) e -> request_fits r ->
  probes_only id (flags (dict d)) (request_probe (flags (dict d)) e r) w
    (dict_lmdb_request d r w).
Proof.
  intros Hres Hfit.
  destruct r as [key|key value|key|function];
    unfold dict_lmdb_request, request_probe, request_fits in *; simpl in *.
  - pose proof (lookup_probes_only d key e w Hres Hfit) as H.
    unfold bind. destruct (dict_lmdb_lookup d key w) as [[? ?] ?| |]; exact H.
  - pose proof (update_probes_only d key value e w Hres) as H.
    unfold bind.
    destruct (dict_lmdb_update d key value w) as [[? ?] ?| |]; exact H.
  - pose proof (delete_probes_only d key e w Hres Hfit) as H.
    unfold bind. destruct (dict_lmdb_delete d key w) as [[? ?] ?| |]; exact H.
  - pose proof (sequence_probes_only d function None None w) as H.
    unfold bind.
    destruct (dict_lmdb_sequence d function None None w)
      as [[[[? ?] ?] ?] ?| |]; exact H.
Qed.

(** C3. On a handle whose encoding is resolved (exactly one encoding-try
    flag is left), whatever requests follow, each lookup, update or delete
    makes one probe of the engine, with the folded key in the resolved
    encoding, and a scan makes none: the probes in the log are those, in
    order, up to the request at which the run ended; no probe uses the other
    encoding. A run that returns has made them all and has kept the flags
    of the handle. The keys of the lookups and of the deletes are those
    whose length with the null byte fits the [int] of the source, less
    than 2^31 - 1 bytes. *)
Theorem resolved_encoding_only (d : DICT_LMDB) (rs : list dict_request)
    (e : bool) (w : World Env) :
  resolved (flags (dict d)) e ->
  Forall request_fits rs ->
  exists made,
    made `prefix_of` request_probes (flags (dict d)) e rs
    /\ probe_keys (log (outcome_world (dict_lmdb_requests d rs w)))
       = rev made ++ probe_keys (log w)
    /\ match dict_lmdb_requests d rs w with
       | Returned d' _ =>
           made = request_probes (flags (dict d)) e rs
           /\ flags (dict d') = flags (dict d)
       | _ => True
       end.
Proof.
  intros Hres Hfit. revert d w Hres.
  induction Hfit as [|r rs Hr Hrs IH]; intros d w Hres.
  - exists []. simpl. repeat split. apply prefix_nil.
  - pose proof (request_probes_only d r e w Hres Hr) as Hone.
    simpl. unfold bind.
    destruct (dict_lmdb_request d r w) as [d1 w1|msg w1|msg w1];
      unfold probes_only, id in Hone.
    + destruct Hone as [Hflags Hlog].
      rewrite <- Hflags in Hres.
      destruct (IH d1 w1 Hres) as (made & Hpre & Hkeys & Hret).
      rewrite Hflags in Hpre, Hret.
      exists (request_probe (flags (dict d)) e r ++ made).
      split; [|split].
      * unfold request_probes. simpl. apply prefix_app, Hpre.
      * rewrite Hkeys, Hlog, rev_app_distr, <- app_assoc.
        f_equal. unfold request_probe.
        destruct (request_key r); reflexivity.
      * destruct (dict_lmdb_requests d1 rs w1); auto.
        destruct Hret as [-> Ha]. split; [reflexivity|exact Ha].
    + simpl. destruct Hone as [Hlog|Hlog].
      * exists []. repeat split; [apply prefix_nil|exact Hlog].
      * exists (request_probe (flags (dict d)) e r).
        split; [|split; [|exact I]].
        -- unfold request_probes. simpl. apply prefix_app_r. reflexivity.
        -- rewrite Hlog. unfold request_probe.
           destruct (request_key r); reflexivity.
    + simpl. destruct Hone as [Hlog|Hlog].
      * exists []. repeat split; [apply prefix_nil|exact Hlog].
      * exists (request_probe (flags (dict d)) e r).
        split; [|split; [|exact I]].
        -- unfold request_probes. simpl. apply prefix_app_r. reflexivity.
        -- rewrite Hlog. unfold request_probe.
           destruct (request_key r); reflexivity.
Qed.

(** How a handle gets there: a lookup that found the key, an update that
    returned and a delete that found the key leave exactly one
    encoding-try flag. *)
Lemma lookup_found_resolves (d : DICT_LMDB) (key : bytes) (w : World Env) :
  resolves_when
    (fun a : option bufptr * DICT_LMDB => bool_decide (is_Some (fst a)))
    snd (dict_lmdb_lookup d key w).
Proof.
  destruct (headers_ok_flags Hok).
  unfold dict_lmdb_lookup. cbv zeta. simpl_handle.
  rewrite land_lor_eqb.
  destruct (flag_set (flags (dict d)) DICT_FLAG_TRY1NULL) eqn:H1,
    (flag_set (flags (dict d)) DICT_FLAG_TRY0NULL) eqn:H0; simpl;
    try exact I.
  all: destruct (fold_key_spec (set_error d 0) key) as [fb ->]; simpl_handle.
  all: repeat exec_step.
  all: rewrite ?flag_set_clear_other in * by auto.
  all: try congruence.
  all: simpl; try exact I; intros Hs; try discriminate Hs.
  all: unfold resolved; rewrite ?flag_set_clear_same by auto;
    rewrite ?flag_set_clear_other by auto.
  all: first [exists true; split; [assumption|]; simpl; congruence
             |exists false; split; [|simpl]; congruence].
Qed.

Lemma update_resolves (d : DICT_LMDB) (key value : bytes) (w : World Env) :
  resolves_when (fun _ : Z * DICT_LMDB => true) snd
    (dict_lmdb_update d key value w).
Proof.
  destruct (headers_ok_flags Hok).
  destruct (dict_lmdb_update d key value w) as [[status d1] w1| |] eqn:Hupd;
    simpl; try exact I.
  intros _. pose proof Hupd as Hflags.
  apply update_handle_flags in Hflags. rewrite Hflags.
  unfold dict_lmdb_update in Hupd. simpl_handle.
  rewrite land_lor_eqb in Hupd. unfold decided, resolved.
  destruct (flag_set (flags (dict d)) DICT_FLAG_TRY1NULL) eqn:H1,
    (flag_set (flags (dict d)) DICT_FLAG_TRY0NULL) eqn:H0;
    simpl in *; try discriminate.
  - destruct LMDB_NO_TRAILING_NULL; [exists false|exists true];
      rewrite ?flag_set_clear_same by auto;
      rewrite ?flag_set_clear_other by auto; auto.
  - exists true. auto.
  - exists false. auto.
Qed.

Lemma delete_found_resolves (d : DICT_LMDB) (key : bytes) (w : World Env) :
  resolves_when (fun a : Z * DICT_LMDB => fst a =? 0) snd
    (dict_lmdb_delete d key w).
Proof.
  destruct (headers_ok_flags Hok).
  unfold dict_lmdb_delete. cbv zeta. simpl_handle.
  rewrite land_lor_eqb.
  destruct (flag_set (flags (dict d)) DICT_FLAG_TRY1NULL) eqn:H1,
    (flag_set (flags (dict d)) DICT_FLAG_TRY0NULL) eqn:H0; simpl;
    try exact I.
  all: destruct (fold_key_spec (set_error d 0) key) as [fb ->]; simpl_handle.
  all: repeat exec_step.
  all: rewrite ?flag_set_clear_other in * by auto.
  all: cbn [Z.ltb Z.compare andb] in *.
  all: try congruence.
  all: simpl; try exact I; intros Hs; try discriminate Hs.
  all: unfold resolved; rewrite ?flag_set_clear_same by auto;
    rewrite ?flag_set_clear_other by auto.
  all: first [exists true; split; [assumption|]; simpl; congruence
             |exists false; split; [|simpl]; congruence].
Qed.

End ResolvedEncoding.

(** C3 on the sample constants and the reference engine: a handle resolved
    to the encoding with the null byte, and requests of each kind. *)
Lemma resolved_encoding_only_witness :
  let d := sample_handle 8 in
  let rs := [Update (cstr "alice") (cstr "1"); Lookup (cstr "alice");
             Lookup (cstr "bob"); Sequence 0; Delete (cstr "alice")] in
  @resolved sample_headers (flags (dict d)) true
  /\ Forall (@request_fits sample_headers) rs
  /\ exists made,
      made `prefix_of` @request_probes sample_headers (flags (dict d)) true rs
      /\ probe_keys (log (outcome_world (Sample.requests d rs (ref_world []))))
         = rev made ++ probe_keys (log (ref_world [])).
Proof.
  intros d rs.
  assert (Hres : @resolved sample_headers (flags (dict d)) true)
    by (split; reflexivity).
  assert (Hfit : Forall (@request_fits sample_headers) rs).
  { repeat (apply List.Forall_cons;
            [first [exact I|exact (conj eq_refl eq_refl)]|]).
    apply List.Forall_nil. }
  split; [exact Hres|]. split; [exact Hfit|].
  destruct (@resolved_encoding_only sample_headers RefEnv Sample.collaborators
              eq_refl d rs true (ref_world []) Hres Hfit)
    as (made & Hpre & Hkeys & _).
  exists made. split; [exact Hpre|exact Hkeys].
Defined.

(** ** The buffers of the handle *)

Section Buffers.

Context `{Hdr : Headers} {Env : Type} `{Col : Collaborators Env}.

Lemma lookup_buffers_hold (d : DICT_LMDB) (key : bytes) (w : World Env) :
  lookup_buffers d (dict_lmdb_lookup d key w).
Proof.
  unfold dict_lmdb_lookup. cbv zeta. simpl_handle.
  destruct (Z.land _ _ =? 0); [exact I|].
  destruct (fold_key_spec (set_error d 0) key) as [fb ->].
  repeat exec_step.
  all: simpl; try exact I; auto.
  all: subst; split; [reflexivity|]; split; [reflexivity|];
    eexists _, _, _, _; split; [eassumption|reflexivity].
Qed.

Lemma sequence_buffers_hold (d : DICT_LMDB) (function : Z)
    (kp vp : option bufptr) (w : World Env) :
  sequence_buffers d kp vp (dict_lmdb_sequence d function kp vp w).
Proof.
  unfold dict_lmdb_sequence. cbv zeta.
  repeat exec_step.
  all: simpl; try exact I.
  all: repeat match goal with
              | H : (_ =? _) = true |- _ => apply Z.eqb_eq in H
              | H : (_ =? _) = false |- _ => apply Z.eqb_neq in H
              end; subst.
  all: split; intros Hs;
    [first [discriminate Hs
           |eexists _, _, _, _, _; split; [eassumption|];
            split; [reflexivity|]; split; [reflexivity|];
            try match goal with
                | Hlt : (0 <? strlen _) = _ |- _ => rewrite Hlt
                end; auto]
    |first [exfalso; apply Hs; reflexivity | auto]].
Qed.

(** C10, as the code has it. A lookup that finds the key gives the pointer
    to the value buffer of the handle and replaces what the buffer holds by
    the copy of the value found: what an earlier lookup or scan step
    returned through that pointer is gone. A scan step that gives an entry
    does the same with the key buffer, and with the value buffer when the
    engine's value is not null and not empty; for an empty value it leaves
    the value buffer, and the caller's value pointer, as they were. *)
Theorem buffers_shared_across_calls (d : DICT_LMDB) (key : bytes)
    (function : Z) (kp vp : option bufptr) (w : World Env) :
  lookup_buffers d (dict_lmdb_lookup d key w)
  /\ sequence_buffers d kp vp (dict_lmdb_sequence d function kp vp w).
Proof.
  split.
  - apply lookup_buffers_hold.
  - apply sequence_buffers_hold.
Qed.

End Buffers.

(** What the code does where C10 says otherwise: after a lookup of the key
    b, whose value is 1, a scan step that gives the entry of the key a,
    whose value is empty, succeeds and leaves the value buffer alone: the
    pointer that the lookup returned still reads 1. *)
Lemma sequence_empty_value_keeps_buffer :
  match Sample.lookup (sample_handle 4) (cstr "b")
          (ref_world [(cstr "a", []); (cstr "b", cstr "1")]) with
  | Returned (Some p, d1) w1 =>
      vstring_str d1 p = Some (cstr "1")
      /\ match Sample.sequence d1 0 None None w1 with
         | Returned (status, kp, vp, d2) _ =>
             status = 0
             /\ option_map (vstring_str d2) kp = Some (Some (cstr "a"))
             /\ vp = None
             /\ vstring_str d2 p = Some (cstr "1")
         | _ => False
         end
  | _ => False
  end.
Proof. vm_compute. repeat split. Qed.

(** C10 as amended, on the sample constants: a lookup and a scan step on
    the reference engine. *)
Lemma buffers_shared_across_calls_witness :
  @lookup_buffers RefEnv Sample.collaborators (sample_handle 4)
    (Sample.lookup (sample_handle 4) (cstr "b")
       (ref_world [(cstr "a", []); (cstr "b", cstr "1")]))
  /\ @sequence_buffers RefEnv Sample.collaborators (sample_handle 4)
       None None
       (Sample.sequence (sample_handle 4) 0 None None
          (ref_world [(cstr "a", []); (cstr "b", cstr "1")])).
Proof.
  exact (@buffers_shared_across_calls sample_headers RefEnv
           Sample.collaborators (sample_handle 4) (cstr "b") 0 None None
           (ref_world [(cstr "a", []); (cstr "b", cstr "1")])).
Defined.

(** ** On the reference engine *)

Section OnReference.

Context `{Hdr : Headers}.

Hypothesis Hok : headers_ok = true.

Local Existing Instance ref_collaborators.

Lemma ref_get_found (k v : bytes) (e : RefEnv) :
  fault e = None -> store e !! k = Some v -> slmdb_get k e = (0, v, e).
Proof. intros Hf Hs. cbn. unfold ref_get. rewrite Hf, Hs. reflexivity. Qed.

Lemma ref_del_absent (k : bytes) (e : RefEnv) :
  fault e = None -> store e !! k = None -> slmdb_del k e = (MDB_NOTFOUND, e).
Proof. intros Hf Hs. cbn. unfold ref_del. rewrite Hf, Hs. reflexivity. Qed.

Lemma ref_myflock_granted (fd : Z) (style : myflock_style) (op : myflock_op)
    (e : RefEnv) :
  myflock fd style op e = (0, set_held e op).
Proof. reflexivity. Qed.

(** The facts of a step on the reference engine: a lock is granted. *)
Ltac ref_lock :=
  match goal with
  | H : myflock _ _ _ _ = (_, _) |- _ =>
      rewrite ref_myflock_granted in H; inversion H; subst; clear H;
      try match goal with
          | Hr : 0 < 0 |- _ => exfalso; exact (Z.lt_irrefl _ Hr)
          end
  end.

(** A delete of the reference engine for a key that is not stored. *)
Ltac ref_del_absent_step Hlen :=
  match goal with
  | H : slmdb_del _ _ = (_, _) |- _ =>
      rewrite ?mdb_val_folded, ?mdb_val_folded_null in H by exact Hlen;
      rewrite ref_del_absent in H
        by (cbn [fault store set_held env]; assumption);
      inversion H; subst; clear H
  end.

(** C5. On a handle with any encoding configuration (one encoding-try flag
    or both), with or without locking and folding, the delete of a key that
    the database holds under neither encoding returns 1, the ordinary "not
    found" result: it is not fatal, leaves no error in the handle, and
    changes neither the flags nor the stored entries. The key is one whose
    length with the null byte fits the [int] of the source, less than
    2^31 - 1 bytes. *)
Theorem delete_absent_not_found (d : DICT_LMDB) (key : bytes)
    (w : World RefEnv) :
  flag_set (flags (dict d)) DICT_FLAG_TRY1NULL
  || flag_set (flags (dict d)) DICT_FLAG_TRY0NULL = true ->
  key_fits key ->
  fault (env w) = None ->
  store (env w) !! (folded (flags (dict d)) key ++ [NUL]) = None ->
  store (env w) !! folded (flags (dict d)) key = None ->
  returns_with
    (fun '(status, d') w' =>
       status = 1 /\ error (dict d') = 0
       /\ flags (dict d') = flags (dict d)
       /\ store (env w') = store (env w))
    (dict_lmdb_delete d key w).
Proof.
  intros Hflags Hlen Hfault Hs1 Hs0. destruct (headers_ok_flags Hok).
  unfold dict_lmdb_delete. cbv zeta. simpl_handle.
  rewrite land_lor_eqb.
  destruct (flag_set (flags (dict d)) DICT_FLAG_TRY1NULL) eqn:H1,
    (flag_set (flags (dict d)) DICT_FLAG_TRY0NULL) eqn:H0;
    try discriminate Hflags; cbn [negb andb].
  all: destruct (fold_key_spec (set_error d 0) key) as [fb ->]; simpl_handle.
  all: repeat (exec_step; try ref_lock; try ref_del_absent_step Hlen;
               try contradiction).
  all: rewrite ?flag_set_clear_other in * by auto.
  all: cbn [Z.ltb Z.compare andb] in *.
  all: try congruence.
  all: simpl; auto.
Qed.

Lemma flag_set_diag (m : Z) : m <> 0 -> flag_set m m = true.
Proof.
  intros Hm. unfold flag_set. rewrite Z.land_diag.
  apply negb_true_iff, Z.eqb_neq, Hm.
Qed.

Lemma vstring_strncpy_c_string (s : bytes) (rest : bytes) (n : nat) :
  is_c_string s = true -> (length s <= n)%nat ->
  vstring_strncpy (s ++ NUL :: rest) n = s
  /\ vstring_strncpy s n = s.
Proof.
  revert n. induction s as [|c s IH]; intros n Hc Hn.
  - simpl. destruct n; auto.
  - simpl in Hc. apply andb_true_iff in Hc. destruct Hc as [Hc Hs].
    apply negb_true_iff in Hc.
    destruct n as [|n]; [simpl in Hn; lia|]. simpl in *. rewrite Hc.
    destruct (IH n Hs) as [IH1 IH2]; [lia|]. rewrite IH1, IH2. auto.
Qed.

Lemma copied_encode (e : bool) (value : bytes) :
  is_c_string value = true -> copied (encode e value) = value.
Proof.
  intros Hc. unfold copied, encode. destruct e.
  - apply (vstring_strncpy_c_string value [] _ Hc).
    rewrite length_app. simpl. lia.
  - apply (vstring_strncpy_c_string value [] _ Hc). lia.
Qed.

Lemma decided_other (f m : Z) :
  single_bit m = true ->
  m <> DICT_FLAG_TRY0NULL -> m <> DICT_FLAG_TRY1NULL ->
  flag_set (decided f) m = flag_set f m.
Proof.
  intros Hm H0 H1. destruct (headers_ok_flags Hok). unfold decided.
  destruct (_ && _); [destruct LMDB_NO_TRAILING_NULL|];
    rewrite ?flag_set_clear_other by auto; reflexivity.
Qed.

Lemma decided_resolved (f : Z) :
  flag_set f DICT_FLAG_TRY1NULL || flag_set f DICT_FLAG_TRY0NULL = true ->
  resolved (decided f) (update_with_null f).
Proof.
  intros Hf. destruct (headers_ok_flags Hok).
  unfold resolved, update_with_null, decided.
  destruct (flag_set f DICT_FLAG_TRY1NULL) eqn:H1,
    (flag_set f DICT_FLAG_TRY0NULL) eqn:H0; try discriminate Hf; simpl.
  - destruct LMDB_NO_TRAILING_NULL;
      rewrite ?flag_set_clear_same by auto;
      rewrite ?flag_set_clear_other by auto;
      rewrite ?H1, ?H0; auto.
  - rewrite H1, H0. auto.
  - rewrite H1, H0. auto.
Qed.

(** A put of the reference engine. *)
Ltac ref_put_step Hfault :=
  match goal with
  | H : slmdb_put _ _ ?pf _ = (_, _) |- _ =>
      rewrite ?(mdb_val_all_null _ _ eq_refl), ?(mdb_val_all _ _ eq_refl) in H;
      cbn [slmdb_put ref_collaborators] in H; unfold ref_put in H;
      cbn [fault store set_held env] in H; rewrite Hfault in H;
      destruct (store _ !! _) eqn:?;
      [destruct (flag_set pf MDB_NOOVERWRITE) eqn:?|];
      inversion H; subst; clear H
  end.

Lemma decide_handle (d0 : DICT_LMDB) :
  (if flag_set (flags (dict d0)) DICT_FLAG_TRY1NULL
      && flag_set (flags (dict d0)) DICT_FLAG_TRY0NULL
   then if LMDB_NO_TRAILING_NULL
        then clear_flag d0 DICT_FLAG_TRY1NULL
        else clear_flag d0 DICT_FLAG_TRY0NULL
   else d0)
  = set_flags d0 (decided (flags (dict d0))).
Proof.
  unfold decided, clear_flag.
  destruct (_ && _); [destruct LMDB_NO_TRAILING_NULL; reflexivity|].
  destruct d0 as [[] ? ?]. reflexivity.
Qed.

(** The update, up to the request for the lock: the handle is decided. *)
Ltac start_update d key fb :=
  unfold dict_lmdb_update; cbv zeta; simpl_handle;
  rewrite land_lor_eqb;
  destruct (fold_key_spec (set_error d 0) key) as [fb ->];
  rewrite (decide_handle (set_fold_buf (set_error d 0) fb));
  simpl_handle;
  fold (update_with_null (flags (dict d)));
  rewrite ?(decided_other _ DICT_FLAG_LOCK),
    ?(decided_other _ DICT_FLAG_DUP_REPLACE),
    ?(decided_other _ DICT_FLAG_DUP_IGNORE),
    ?(decided_other _ DICT_FLAG_DUP_WARN) by auto.

Lemma update_stores (d : DICT_LMDB) (key value : bytes) (w : World RefEnv) :
  flag_set (flags (dict d)) DICT_FLAG_TRY1NULL
  || flag_set (flags (dict d)) DICT_FLAG_TRY0NULL = true ->
  fault (env w) = None ->
  when_returned
    (fun '(status, d1) w1 =>
       status = 0 ->
       flags (dict d1) = decided (flags (dict d))
       /\ fault (env w1) = None
       /\ store (env w1)
            !! encode (update_with_null (flags (dict d)))
                 (folded (flags (dict d)) key)
          = Some (encode (update_with_null (flags (dict d))) value))
    (dict_lmdb_update d key value w).
Proof.
  intros Hflags Hfault. destruct (headers_ok_flags Hok).
  start_update d key fb.
  rewrite <- negb_orb, Hflags. cbn [negb].
  destruct (update_with_null (flags (dict d))).
  all: repeat (exec_step; try ref_lock; try ref_put_step Hfault;
               try contradiction).
  all: cbn [when_returned]; try exact I.
  all: intros Hst; try contradiction.
  all: cbn [encode fault store env set_store set_held];
    rewrite ?lookup_insert_eq; auto.
Qed.

(** A read of the reference engine for a key that is stored. *)
Ltac ref_get_found_step Hlen :=
  match goal with
  | H : slmdb_get _ _ = (_, _, _) |- _ =>
      rewrite ?mdb_val_folded, ?mdb_val_folded_null in H by exact Hlen;
      erewrite ref_get_found in H
        by (cbn [fault store set_held env]; eassumption);
      inversion H; subst; clear H
  end.

Lemma lookup_finds_stored (d : DICT_LMDB) (key value : bytes) (e : bool)
    (w : World RefEnv) :
  resolved (flags (dict d)) e ->
  key_fits key ->
  is_c_string value = true ->
  fault (env w) = None ->
  store (env w) !! encode e (folded (flags (dict d)) key)
  = Some (encode e value) ->
  returns_with
    (fun '(result, d') w' =>
       result = Some ptr_val_buf
       /\ vstring_str d' ptr_val_buf = Some value
       /\ store (env w') = store (env w))
    (dict_lmdb_lookup d key w).
Proof.
  intros [H1 H0] Hlen Hc Hfault Hstore. destruct (headers_ok_flags Hok).
  pose proof (copied_encode e value Hc) as Hcopy. unfold copied in Hcopy.
  unfold dict_lmdb_lookup. cbv zeta. simpl_handle.
  rewrite land_lor_eqb, H1, H0.
  destruct (fold_key_spec (set_error d 0) key) as [fb ->]; simpl_handle.
  destruct e; cbn [negb andb encode] in *.
  all: repeat (exec_step; try ref_lock; try ref_get_found_step Hlen;
               try contradiction; try congruence).
  all: cbn [returns_with vstring_str val_buf SCOPY_val set_val_buf env
            set_held store].
  all: rewrite ?Hcopy; auto.
Qed.

Lemma returns_with_impl {W A} (P Q : A -> W -> Prop) (o : outcome W A) :
  (forall a w', P a w' -> Q a w') -> returns_with P o -> returns_with Q o.
Proof. intros HPQ. destruct o; simpl; auto. Qed.

Lemma encode_inj (e : bool) (a b : bytes) : encode e a = encode e b -> a = b.
Proof.
  unfold encode. destruct e; [|auto]. intros H.
  apply app_inj_tail in H. apply H.
Qed.

Lemma resolved_decided (f : Z) (e : bool) :
  resolved f e -> decided f = f /\ update_with_null f = e.
Proof.
  intros [H1 H0]. unfold update_with_null, decided. rewrite H1, H0.
  destruct e; auto.
Qed.

(** A call of the reference engine, whatever it answers. *)
Ltac ref_any Hfault :=
  match goal with
  | H : slmdb_get _ _ = (_, _, _) |- _ =>
      cbn [slmdb_get ref_collaborators] in H; unfold ref_get in H;
      cbn [fault store set_held env] in H; rewrite Hfault in H;
      destruct (store _ !! _) eqn:?;
      inversion H; subst; clear H
  | H : slmdb_del _ _ = (_, _) |- _ =>
      cbn [slmdb_del ref_collaborators] in H; unfold ref_del in H;
      cbn [fault store set_held env] in H; rewrite Hfault in H;
      destruct (store _ !! _) eqn:?;
      inversion H; subst; clear H
  | H : slmdb_cursor_get ?op _ = (_, _, _, _) |- _ =>
      cbn [slmdb_cursor_get ref_collaborators] in H;
      unfold ref_cursor_get in H;
      cbn [fault store cursor set_held env] in H; rewrite Hfault in H;
      match type of H with
      | context [match ?l with [] => _ | _ :: _ => _ end] =>
          destruct l as [|[? ?] ?]
      end;
      inversion H; subst; clear H
  end.

(** What a request that returns leaves of the store of the reference
    engine, on a handle with a resolved encoding: a lookup and a scan step
    leave it as it is; an update and a delete leave the entries of the
    other keys. None changes the flags of the handle. *)
Lemma lookup_keeps_store (d : DICT_LMDB) (key : bytes) (e : bool)
    (w : World RefEnv) :
  resolved (flags (dict d)) e -> fault (env w) = None ->
  when_returned
    (fun '(_, d') w' =>
       flags (dict d') = flags (dict d) /\ fault (env w') = None
       /\ store (env w') = store (env w))
    (dict_lmdb_lookup d key w).
Proof.
  intros [H1 H0] Hfault. destruct (headers_ok_flags Hok).
  unfold dict_lmdb_lookup. cbv zeta. simpl_handle.
  rewrite land_lor_eqb, H1, H0.
  destruct (fold_key_spec (set_error d 0) key) as [fb ->]; simpl_handle.
  destruct e; cbn [negb andb] in *.
  all: repeat (exec_step; try ref_lock; try ref_any Hfault;
               try contradiction; try congruence).
  all: cbn [when_returned]; try exact I; simpl_handle;
    cbn [fault store env set_held].
  all: rewrite ?flag_clear_unset by assumption; auto.
Qed.

Lemma sequence_keeps_store (d : DICT_LMDB) (function : Z)
    (kp vp : option bufptr) (w : World RefEnv) :
  fault (env w) = None ->
  when_returned
    (fun '(_, _, _, d') w' =>
       flags (dict d') = flags (dict d) /\ fault (env w') = None
       /\ store (env w') = store (env w))
    (dict_lmdb_sequence d function kp vp w).
Proof.
  intros Hfault.
  unfold dict_lmdb_sequence. cbv zeta.
  repeat (exec_step; try ref_lock; try ref_any Hfault).
  all: cbn [when_returned]; try exact I; simpl_handle;
    cbn [fault store env set_held set_cursor]; auto.
Qed.

Lemma update_keeps_others (d : DICT_LMDB) (key value sk : bytes) (e : bool)
    (w : World RefEnv) :
  resolved (flags (dict d)) e -> fault (env w) = None ->
  encode e (folded (flags (dict d)) key) <> sk ->
  when_returned
    (fun '(_, d') w' =>
       flags (dict d') = flags (dict d) /\ fault (env w') = None
       /\ store (env w') !! sk = store (env w) !! sk)
    (dict_lmdb_update d key value w).
Proof.
  intros Hres Hfault Hne. destruct (headers_ok_flags Hok).
  destruct (resolved_decided _ _ Hres) as [Hdec Hwith].
  destruct Hres as [H1 H0].
  start_update d key fb.
  rewrite Hdec, Hwith, H1, H0.
  destruct e; cbn [negb andb encode] in *.
  all: repeat (exec_step; try ref_lock; try ref_put_step Hfault;
               try contradiction).
  all: cbn [when_returned]; try exact I; simpl_handle;
    cbn [fault store env set_store set_held].
  all: rewrite ?lookup_insert_ne by exact Hne; auto.
Qed.

Lemma delete_keeps_others (d : DICT_LMDB) (key sk : bytes) (e : bool)
    (w : World RefEnv) :
  resolved (flags (dict d)) e -> key_fits key -> fault (env w) = None ->
  encode e (folded (flags (dict d)) key) <> sk ->
  when_returned
    (fun '(_, d') w' =>
       flags (dict d') = flags (dict d) /\ fault (env w') = None
       /\ store (env w') !! sk = store (env w) !! sk)
    (dict_lmdb_delete d key w).
Proof.
  intros [H1 H0] Hlen Hfault Hne. destruct (headers_ok_flags Hok).
  unfold dict_lmdb_delete. cbv zeta. simpl_handle.
  rewrite land_lor_eqb, H1, H0.
  destruct (fold_key_spec (set_error d 0) key) as [fb ->]; simpl_handle.
  destruct e; cbn [negb andb encode] in *.
  all: repeat (exec_step;
               try match goal with
                   | H : slmdb_del _ _ = _ |- _ =>
                       rewrite ?mdb_val_folded, ?mdb_val_folded_null in H
                         by exact Hlen
                   end;
               try ref_lock; try ref_any Hfault;
               try contradiction; try congruence).
  all: rewrite ?flag_set_clear_other in * by auto.
  all: cbn [Z.ltb Z.compare andb] in *.
  all: try congruence.
  all: cbn [when_returned]; try exact I; simpl_handle;
    cbn [fault store env set_store set_held].
  all: rewrite ?flag_clear_unset by assumption.
  all: rewrite ?lookup_delete_ne by exact Hne; auto.
Qed.

Lemma request_keeps_entry (d : DICT_LMDB) (r : dict_request) (e : bool)
    (key : bytes) (w : World RefEnv) :
  resolved (flags (dict d)) e -> fault (env w) = None ->
  request_fits r -> leaves_key (flags (dict d)) key r ->
  when_returned
    (fun d' w' =>
       flags (dict d') = flags (dict d) /\ fault (env w') = None
       /\ store (env w') !! encode e (folded (flags (dict d)) key)
          = store (env w) !! encode e (folded (flags (dict d)) key))
    (dict_lmdb_request d r w).
Proof.
  intros Hres Hfault Hfit Hleaves.
  destruct r as [key'|key' value'|key'|function];
    unfold dict_lmdb_request; cbn [request_fits leaves_key] in *.
  - pose proof (lookup_keeps_store d key' e w Hres Hfault) as H.
    unfold bind.
    destruct (dict_lmdb_lookup d key' w) as [[? ?] ?| |]; try exact I.
    cbn [when_returned ret] in *. destruct H as (Hf & Hfl & ->). auto.
  - assert (Hne : encode e (folded (flags (dict d)) key')
                  <> encode e (folded (flags (dict d)) key))
      by (intros E; apply Hleaves, (encode_inj e), E).
    pose proof (update_keeps_others d key' value' _ e w Hres Hfault Hne)
      as H.
    unfold bind.
    destruct (dict_lmdb_update d key' value' w) as [[? ?] ?| |];
      try exact I.
    exact H.
  - assert (Hne : encode e (folded (flags (dict d)) key')
                  <> encode e (folded (flags (dict d)) key))
      by (intros E; apply Hleaves, (encode_inj e), E).
    pose proof (delete_keeps_others d key' _ e w Hres Hfit Hfault Hne) as H.
    unfold bind.
    destruct (dict_lmdb_delete d key' w) as [[? ?] ?| |]; try exact I.
    exact H.
  - pose proof (sequence_keeps_store d function None None w Hfault) as H.
    unfold bind.
    destruct (dict_lmdb_sequence d function None None w)
      as [[[[? ?] ?] ?] ?| |]; try exact I.
    cbn [when_returned ret] in *. destruct H as (Hf & Hfl & ->). auto.
Qed.

Lemma requests_keep_entry (rs : list dict_request) (d d' : DICT_LMDB)
    (e : bool) (key : bytes) (w w' : World RefEnv) :
  resolved (flags (dict d)) e -> fault (env w) = None ->
  Forall request_fits rs ->
  Forall (leaves_key (flags (dict d)) key) rs ->
  dict_lmdb_requests d rs w = Returned d' w' ->
  flags (dict d') = flags (dict d) /\ fault (env w') = None
  /\ store (env w') !! encode e (folded (flags (dict d)) key)
     = store (env w) !! encode e (folded (flags (dict d)) key).
Proof.
  revert d w. induction rs as [|r rs IH]; intros d w Hres Hfault Hfit Hlv Hrun.
  - cbn in Hrun. inversion Hrun; subst. auto.
  - apply Forall_cons in Hfit. destruct Hfit as [Hfit1 Hfit].
    apply Forall_cons in Hlv. destruct Hlv as [Hlv1 Hlv].
    cbn [dict_lmdb_requests] in Hrun.
    apply bind_Returned in Hrun. destruct Hrun as (d1 & w1 & Hone & Hrun).
    pose proof (request_keeps_entry d r e key w Hres Hfault Hfit1 Hlv1) as H1.
    rewrite Hone in H1. cbn [when_returned] in H1.
    destruct H1 as (Hf1 & Hfault1 & Hs1).
    rewrite <- Hf1 in Hres, Hlv.
    destruct (IH d1 w1 Hres Hfault1 Hfit Hlv Hrun) as (Hf2 & Hfault2 & Hs2).
    rewrite Hf1 in Hf2, Hs2.
    split; [exact Hf2|]. split; [exact Hfault2|].
    rewrite Hs2. exact Hs1.
Qed.

(** C1. Whatever the encoding flags of the handle and the default of the
    platform: after an update that wrote a key and a value (it returned
    0), and after any requests on the same handle that returned and that
    neither wrote nor deleted the key (lookups, scan steps, updates and
    deletes of other keys), a lookup of the key on the handle finds it and
    returns the pointer to the value buffer, which reads exactly the value
    written. The keys of the lookups and of the deletes are those whose
    length with the null byte fits the [int] of the source, less than
    2^31 - 1 bytes. *)
Theorem update_lookup_roundtrip (d d1 d2 : DICT_LMDB) (key value : bytes)
    (rs : list dict_request) (w w1 w2 : World RefEnv) :
  flag_set (flags (dict d)) DICT_FLAG_TRY1NULL
  || flag_set (flags (dict d)) DICT_FLAG_TRY0NULL = true ->
  key_fits key ->
  is_c_string value = true ->
  fault (env w) = None ->
  dict_lmdb_update d key value w = Returned (0, d1) w1 ->
  Forall request_fits rs ->
  Forall (leaves_key (flags (dict d)) key) rs ->
  dict_lmdb_requests d1 rs w1 = Returned d2 w2 ->
  returns_with
    (fun '(result, d3) _ =>
       result = Some ptr_val_buf
       /\ vstring_str d3 ptr_val_buf = Some value)
    (dict_lmdb_lookup d2 key w2).
Proof.
  intros Hflags Hlen Hc Hfault Hupd Hfit Hlv Hrun.
  destruct (headers_ok_flags Hok).
  pose proof (update_stores d key value w Hflags Hfault) as Hst.
  rewrite Hupd in Hst. cbn [when_returned] in Hst.
  destruct (Hst eq_refl) as (Hf1 & Hfault1 & Hstore1).
  assert (Hfold : forall k, folded (flags (dict d1)) k
                            = folded (flags (dict d)) k).
  { intros k. unfold folded. rewrite Hf1, decided_other by auto.
    reflexivity. }
  assert (Hres : resolved (flags (dict d1))
                   (update_with_null (flags (dict d)))).
  { rewrite Hf1. apply decided_resolved, Hflags. }
  assert (Hlv1 : Forall (leaves_key (flags (dict d1)) key) rs).
  { eapply Forall_impl; [exact Hlv|].
    intros [k|k v|k|fn]; cbn [leaves_key]; rewrite ?Hfold; auto. }
  destruct (requests_keep_entry rs d1 d2 _ key w1 w2 Hres Hfault1 Hfit Hlv1
              Hrun) as (Hf2 & Hfault2 & Hstore2).
  eapply returns_with_impl;
    [|apply (lookup_finds_stored d2 key value
               (update_with_null (flags (dict d))) w2)].
  - intros [result d3] w3 (Hr & Hv & _). auto.
  - rewrite Hf2. exact Hres.
  - exact Hlen.
  - exact Hc.
  - exact Hfault2.
  - rewrite Hf2, Hstore2, Hfold. exact Hstore1.
Qed.

(** A put of the reference engine on a key that is stored. *)
Ltac ref_put_stored_step Hfault Hstore :=
  match goal with
  | H : slmdb_put _ _ ?pf _ = (_, _) |- _ =>
      rewrite ?(mdb_val_all_null _ _ eq_refl), ?(mdb_val_all _ _ eq_refl) in H;
      cbn [slmdb_put ref_collaborators] in H; unfold ref_put in H;
      cbn [fault store set_held env encode] in H, Hstore;
      rewrite Hfault, Hstore in H;
      rewrite ?flag_set_diag in H by assumption;
      cbn [flag_set Z.land Z.eqb negb] in H;
      inversion H; subst; clear H
  end.

(** A status test that contradicts what is known of the status. *)
Ltac absurd_status :=
  match goal with
  | H : negb (?x =? ?y) = false |- _ =>
      apply negb_false_iff, Z.eqb_eq in H; contradiction
  | H : (?x =? ?y) = true |- _ => apply Z.eqb_eq in H; contradiction
  end.

(** C2, as the code has it. An update of a key that is stored (under the
    encoding the update writes with): with duplicate-replace the value is
    overwritten and the update returns 0; else with duplicate-ignore the
    update returns the engine's key-exists status, which is not 0, leaves
    no error, keeps the stored value and logs no warning; else with
    warn-on-duplicates it does the same and logs one warning; with none of
    the three it ends fatally, the stored value kept. *)
Theorem update_existing_key (d : DICT_LMDB) (key value old : bytes)
    (w : World RefEnv) :
  let f := flags (dict d) in
  let e := update_with_null f in
  let k := encode e (folded f key) in
  flag_set f DICT_FLAG_TRY1NULL || flag_set f DICT_FLAG_TRY0NULL = true ->
  fault (env w) = None ->
  store (env w) !! k = Some old ->
  (flag_set f DICT_FLAG_DUP_REPLACE = true ->
   returns_with
     (fun '(status, d') w' =>
        status = 0 /\ store (env w') !! k = Some (encode e value))
     (dict_lmdb_update d key value w))
  /\ (flag_set f DICT_FLAG_DUP_REPLACE = false ->
      flag_set f DICT_FLAG_DUP_IGNORE = true ->
      returns_with
        (fun '(status, d') w' =>
           status = MDB_KEYEXIST /\ status <> 0 /\ error (dict d') = 0
           /\ store (env w') = store (env w)
           /\ warnings (log w') = warnings (log w))
        (dict_lmdb_update d key value w))
  /\ (flag_set f DICT_FLAG_DUP_REPLACE = false ->
      flag_set f DICT_FLAG_DUP_IGNORE = false ->
      flag_set f DICT_FLAG_DUP_WARN = true ->
      returns_with
        (fun '(status, d') w' =>
           status = MDB_KEYEXIST /\ status <> 0 /\ error (dict d') = 0
           /\ store (env w') = store (env w)
           /\ exists message,
               warnings (log w') = message :: warnings (log w))
        (dict_lmdb_update d key value w))
  /\ (flag_set f DICT_FLAG_DUP_REPLACE = false ->
      flag_set f DICT_FLAG_DUP_IGNORE = false ->
      flag_set f DICT_FLAG_DUP_WARN = false ->
      ends_fatally (fun w' => store (env w') = store (env w))
        (dict_lmdb_update d key value w)).
Proof.
  intros f e k Hflags Hfault Hstore. subst f e k.
  destruct (headers_ok_flags Hok).
  start_update d key fb.
  rewrite <- negb_orb, Hflags. cbn [negb].
  split; [|split; [|split]].
  - intros HR. rewrite HR.
    destruct (update_with_null (flags (dict d))).
    all: repeat (exec_step; try ref_lock; try ref_put_stored_step Hfault Hstore;
                 try contradiction; try discriminate).
    all: cbn [returns_with encode env store set_store set_held];
      rewrite ?lookup_insert_eq; auto.
  - intros HR HI. rewrite HR, HI.
    destruct (update_with_null (flags (dict d))).
    all: repeat (exec_step; try ref_lock; try ref_put_stored_step Hfault Hstore;
                 try contradiction; try discriminate).
    all: rewrite ?Z.eqb_refl in *; try discriminate.
    all: cbn [returns_with encode env store set_store set_held log warnings
              error dict set_flags set_fold_buf set_error];
      auto 10.
  - intros HR HI HW. rewrite HR, HI, HW.
    destruct (update_with_null (flags (dict d))).
    all: repeat (exec_step; try ref_lock; try ref_put_stored_step Hfault Hstore;
                 try contradiction; try discriminate; try absurd_status).
    all: rewrite ?Z.eqb_refl in *; try discriminate.
    all: cbn [returns_with encode env store set_store set_held log warnings
              error dict set_flags set_fold_buf set_error];
      eauto 10.
  - intros HR HI HW. rewrite HR, HI, HW.
    destruct (update_with_null (flags (dict d))).
    all: repeat (exec_step; try ref_lock; try ref_put_stored_step Hfault Hstore;
                 try contradiction; try discriminate; try absurd_status).
    all: rewrite ?Z.eqb_refl in *; try discriminate.
    all: cbn [ends_fatally env store set_held]; auto.
Qed.

End OnReference.

(** ** The claims on the reference engine, on examples *)

(** C1 on the reference engine: an update, requests on other keys and a
    lookup of the key, on a handle with both encoding-try flags and locking
    where the platform appends the null byte, and on a handle with both
    flags and key folding where it does not. *)
Lemma update_lookup_roundtrip_witness :
  let rs := [Lookup (cstr "bob"); Update (cstr "bob") (cstr "2");
             Sequence 0; Delete (cstr "bob"); Lookup (cstr "alice")] in
  match Sample.update (sample_handle (4 + 8 + 64)) (cstr "alice") (cstr "1")
          (ref_world []) with
  | Returned (0, d1) w1 =>
      match Sample.requests d1 rs w1 with
      | Returned d2 w2 =>
          returns_with
            (fun '(result, d3) _ =>
               result = Some ptr_val_buf
               /\ vstring_str d3 ptr_val_buf = Some (cstr "1"))
            (Sample.lookup d2 (cstr "alice") w2)
      | _ => False
      end
  | _ => False
  end
  /\ match SampleNoNull.update (sample_handle (4 + 8 + 16384)) (cstr "Alice")
             (cstr "1") (ref_world []) with
     | Returned (0, d1) w1 =>
         returns_with
           (fun '(result, d3) _ =>
              result = Some ptr_val_buf
              /\ vstring_str d3 ptr_val_buf = Some (cstr "1"))
           (SampleNoNull.lookup d1 (cstr "Alice") w1)
     | _ => False
     end.
Proof.
  intros rs.
  assert (Hfit : Forall (@request_fits sample_headers) rs).
  { repeat (apply List.Forall_cons;
            [first [exact I|exact (conj eq_refl eq_refl)]|]).
    apply List.Forall_nil. }
  assert (Hlv : Forall (@leaves_key sample_headers (4 + 8 + 64)
                          (cstr "alice")) rs).
  { repeat (apply List.Forall_cons;
            [first [exact I|intros E; vm_compute in E; discriminate E]|]).
    apply List.Forall_nil. }
  split.
  - destruct (Sample.update (sample_handle (4 + 8 + 64)) (cstr "alice") (cstr "1")
                (ref_world [])) as [[[| |] d1] w1| |] eqn:Hupd;
      try (vm_compute in Hupd; discriminate).
    destruct (Sample.requests d1 rs w1) as [d2 w2|msg w2|msg w2] eqn:Hrun.
    + exact (@update_lookup_roundtrip sample_headers eq_refl
               (sample_handle (4 + 8 + 64)) d1 d2 (cstr "alice") (cstr "1")
               rs (ref_world []) w1 w2 eq_refl (conj eq_refl eq_refl)
               eq_refl eq_refl Hupd Hfit Hlv Hrun).
    + vm_compute in Hupd. injection Hupd as <- <-.
      vm_compute in Hrun. discriminate Hrun.
    + vm_compute in Hupd. injection Hupd as <- <-.
      vm_compute in Hrun. discriminate Hrun.
  - destruct (SampleNoNull.update (sample_handle (4 + 8 + 16384)) (cstr "Alice")
                (cstr "1") (ref_world [])) as [[[| |] d1] w1| |] eqn:Hupd;
      try (vm_compute in Hupd; discriminate).
    exact (@update_lookup_roundtrip sample_headers_no_null eq_refl
             (sample_handle (4 + 8 + 16384)) d1 d1 (cstr "Alice") (cstr "1")
             [] (ref_world []) w1 w1 eq_refl (conj eq_refl eq_refl)
             eq_refl eq_refl Hupd (List.Forall_nil _) (List.Forall_nil _)
             eq_refl).
Defined.

(** What the code does where C2 says otherwise: with duplicate-ignore alone,
    the update of a stored key keeps the stored value but does not return
    success (0): it returns the engine's key-exists status. *)
Lemma update_duplicate_ignored_status :
  match Sample.update (sample_handle (8 + 2)) (cstr "k") (cstr "new")
          (ref_world [(cstr "k" ++ [NUL], cstr "old" ++ [NUL])]) with
  | Returned (status, _) w' =>
      status = @MDB_KEYEXIST sample_headers /\ status <> 0
      /\ store (env w') !! (cstr "k" ++ [NUL]) = Some (cstr "old" ++ [NUL])
  | _ => False
  end.
Proof. vm_compute. split; [reflexivity|]. split; [discriminate|reflexivity]. Qed.

(** C2 as amended, on the reference engine: the four duplicate policies on
    a stored key, with the handles' flags duplicate-replace (and
    duplicate-ignore with it), duplicate-ignore, warn-on-duplicates, none. *)
Lemma update_existing_key_witness :
  let w := ref_world [(cstr "k" ++ [NUL], cstr "old" ++ [NUL])] in
  let k := cstr "k" ++ [NUL] in
  returns_with
    (fun '(status, d') w' =>
       status = 0 /\ store (env w') !! k = Some (cstr "new" ++ [NUL]))
    (Sample.update (sample_handle (8 + 128 + 2)) (cstr "k") (cstr "new") w)
  /\ returns_with
       (fun '(status, d') w' =>
          status = @MDB_KEYEXIST sample_headers /\ status <> 0
          /\ error (dict d') = 0
          /\ store (env w') = store (env w)
          /\ warnings (log w') = warnings (log w))
       (Sample.update (sample_handle (8 + 2)) (cstr "k") (cstr "new") w)
  /\ returns_with
       (fun '(status, d') w' =>
          status = @MDB_KEYEXIST sample_headers /\ status <> 0
          /\ error (dict d') = 0
          /\ store (env w') = store (env w)
          /\ exists message, warnings (log w') = message :: warnings (log w))
       (Sample.update (sample_handle (8 + 1)) (cstr "k") (cstr "new") w)
  /\ ends_fatally (fun w' => store (env w') = store (env w))
       (Sample.update (sample_handle 8) (cstr "k") (cstr "new") w).
Proof.
  intros w k.
  split; [|split; [|split]].
  - apply (@update_existing_key sample_headers eq_refl
             (sample_handle (8 + 128 + 2)) (cstr "k") (cstr "new")
             (cstr "old" ++ [NUL]) w eq_refl eq_refl eq_refl).
    reflexivity.
  - apply (@update_existing_key sample_headers eq_refl
             (sample_handle (8 + 2)) (cstr "k") (cstr "new")
             (cstr "old" ++ [NUL]) w eq_refl eq_refl eq_refl);
      reflexivity.
  - apply (@update_existing_key sample_headers eq_refl
             (sample_handle (8 + 1)) (cstr "k") (cstr "new")
             (cstr "old" ++ [NUL]) w eq_refl eq_refl eq_refl);
      reflexivity.
  - apply (@update_existing_key sample_headers eq_refl
             (sample_handle 8) (cstr "k") (cstr "new")
             (cstr "old" ++ [NUL]) w eq_refl eq_refl eq_refl);
      reflexivity.
Defined.

(** C5 on the reference engine: the delete of a key that is not stored, on
    a handle with both encoding-try flags and locking. *)
Lemma delete_absent_not_found_witness :
  returns_with
    (fun '(status, d') w' =>
       status = 1 /\ error (dict d') = 0
       /\ flags (dict d') = flags (dict (sample_handle (4 + 8 + 64)))
       /\ store (env w')
          = store (env (ref_world [(cstr "alice" ++ [NUL], cstr "1" ++ [NUL])])))
    (Sample.delete (sample_handle (4 + 8 + 64)) (cstr "bob")
       (ref_world [(cstr "alice" ++ [NUL], cstr "1" ++ [NUL])])).
Proof.
  exact (@delete_absent_not_found sample_headers eq_refl
           (sample_handle (4 + 8 + 64)) (cstr "bob")
           (ref_world [(cstr "alice" ++ [NUL], cstr "1" ++ [NUL])])
           eq_refl (conj eq_refl eq_refl) eq_refl eq_refl eq_refl).
Defined.

(** The end-to-end scenario of the specification, on a platform whose
    default is no trailing null byte: open without an encoding preference,
    update alice and bob, look alice up, delete bob, scan. The lookup gives
    1, the delete finds bob (status 0), the scan gives the entry of alice
    and then its end (status 1); the stored key has no null byte. *)
Example specification_scenario :
  match SampleNoNull.open "/etc/postfix/aliases" 2 0 (ref_world []) with
  | Returned (lmdb_handle d) w =>
      returns_with
        (fun seen w' =>
           seen = (Some (cstr "1"), 0,
                   (Some (cstr "alice"), Some (cstr "1")), 1)
           /\ map_to_list (store (env w')) = [(cstr "alice", cstr "1")])
        (SampleNoNull.scenario d w)
  | _ => False
  end.
Proof. vm_compute. split; reflexivity. Qed.

(** * Further properties of the operations *)

(** ** What an operation asks of the engine and of the lock *)

(** The tests of a status, as equations. *)
Ltac status_facts :=
  repeat match goal with
         | H : negb _ = true |- _ => apply negb_true_iff in H
         | H : negb _ = false |- _ => apply negb_false_iff in H
         | H : (_ =? _) = true |- _ => apply Z.eqb_eq in H
         end.

Section EngineCalls.

Context `{Hdr : Headers} {Env : Type} `{Col : Collaborators Env}.

Ltac calls_done :=
  unfold engine_calls_only; cbn [outcome_world log data_calls];
  first [exists []; split; [|split; [|reflexivity]]
        |eexists [_]; split; [|split; [|reflexivity]]
        |eexists [_; _]; split; [|split; [|reflexivity]]];
  repeat constructor.

(** X1. Each operation uses one primitive of the engine only, whatever its
    outcome: a lookup makes at most two reads and never writes, deletes or
    moves the cursor; an update makes at most one put; a delete makes at
    most two deletes; a scan step makes at most one cursor call. *)
Theorem operations_engine_calls (d : DICT_LMDB) (key value : bytes)
    (function : Z) (kp vp : option bufptr) (w : World Env) :
  engine_calls_only call_get 2 w (dict_lmdb_lookup d key w)
  /\ engine_calls_only call_put 1 w (dict_lmdb_update d key value w)
  /\ engine_calls_only call_del 2 w (dict_lmdb_delete d key w)
  /\ engine_calls_only call_cursor_get 1 w
       (dict_lmdb_sequence d function kp vp w).
Proof.
  split; [|split; [|split]].
  - unfold dict_lmdb_lookup. cbv zeta.
    destruct (Z.land _ _ =? 0); [calls_done|].
    destruct (fold_key_spec (set_error d 0) key) as [fb ->].
    repeat exec_step. all: calls_done.
  - unfold dict_lmdb_update. cbv zeta.
    destruct (Z.land _ _ =? 0); [calls_done|].
    destruct (fold_key_spec (set_error d 0) key) as [fb ->].
    repeat exec_step. all: calls_done.
  - unfold dict_lmdb_delete. cbv zeta.
    destruct (Z.land _ _ =? 0); [calls_done|].
    destruct (fold_key_spec (set_error d 0) key) as [fb ->].
    repeat exec_step. all: calls_done.
  - unfold dict_lmdb_sequence. cbv zeta.
    repeat exec_step. all: calls_done.
Qed.

Ltac accepted_done :=
  cbn [errors_not_returned]; try exact I;
  cbn [log data_calls]; status_facts;
  first [exists []; split; [|reflexivity]
        |eexists [_]; split; [|reflexivity]
        |eexists [_; _]; split; [|reflexivity]];
  repeat (apply List.Forall_cons;
          [unfold status_accepted; cbn [fst snd]; auto|]);
  apply List.Forall_nil.

(** X2. No operation returns to its caller over an error of the engine: when
    an operation returns, each data call it made was answered with success,
    or with "not found" (a read, a delete, a cursor call), or with "key
    exists" (a put). Any other status ends the process. *)
Theorem engine_errors_not_returned (d : DICT_LMDB) (key value : bytes)
    (function : Z) (kp vp : option bufptr) (w : World Env) :
  errors_not_returned w (dict_lmdb_lookup d key w)
  /\ errors_not_returned w (dict_lmdb_update d key value w)
  /\ errors_not_returned w (dict_lmdb_delete d key w)
  /\ errors_not_returned w (dict_lmdb_sequence d function kp vp w).
Proof.
  split; [|split; [|split]].
  - unfold dict_lmdb_lookup. cbv zeta.
    destruct (Z.land _ _ =? 0); [exact I|].
    destruct (fold_key_spec (set_error d 0) key) as [fb ->].
    repeat exec_step. all: accepted_done.
  - unfold dict_lmdb_update. cbv zeta.
    destruct (Z.land _ _ =? 0); [exact I|].
    destruct (fold_key_spec (set_error d 0) key) as [fb ->].
    repeat exec_step. all: accepted_done.
  - unfold dict_lmdb_delete. cbv zeta.
    destruct (Z.land _ _ =? 0); [exact I|].
    destruct (fold_key_spec (set_error d 0) key) as [fb ->].
    repeat exec_step. all: accepted_done.
  - unfold dict_lmdb_sequence. cbv zeta.
    repeat exec_step. all: accepted_done.
Qed.

End EngineCalls.

(** A lock request on a handle without the lock flag. *)
Ltac lock_absurd :=
  match goal with
  | H1 : flag_set ?f ?m = false, H2 : flag_set ?f ?m = true |- _ =>
      rewrite H1 in H2; discriminate H2
  end.

Section Results.

Context `{Hdr : Headers} {Env : Type} `{Col : Collaborators Env}.

Hypothesis Hok : headers_ok = true.

(** X3. On a handle without DICT_FLAG_LOCK no operation asks for the lock
    or releases it, whatever its outcome. *)
Theorem unlocked_operations_never_lock (d : DICT_LMDB) (key value : bytes)
    (function : Z) (kp vp : option bufptr) (w : World Env) :
  flag_set (flags (dict d)) DICT_FLAG_LOCK = false ->
  no_lock_request w (dict_lmdb_lookup d key w)
  /\ no_lock_request w (dict_lmdb_update d key value w)
  /\ no_lock_request w (dict_lmdb_delete d key w)
  /\ no_lock_request w (dict_lmdb_sequence d function kp vp w).
Proof.
  intros Hnolock. destruct (headers_ok_flags Hok).
  split; [|split; [|split]].
  - unfold dict_lmdb_lookup. cbv zeta. simpl_handle.
    destruct (Z.land _ _ =? 0); [reflexivity|].
    destruct (fold_key_spec (set_error d 0) key) as [fb ->].
    repeat exec_step.
    all: rewrite ?flag_set_clear_other in * by auto.
    all: try lock_absurd.
    all: reflexivity.
  - unfold dict_lmdb_update. cbv zeta. simpl_handle.
    destruct (Z.land _ _ =? 0); [reflexivity|].
    destruct (fold_key_spec (set_error d 0) key) as [fb ->]. simpl_handle.
    destruct (flag_set (flags (dict d)) DICT_FLAG_TRY1NULL
              && flag_set (flags (dict d)) DICT_FLAG_TRY0NULL);
      [destruct LMDB_NO_TRAILING_NULL|]; simpl_handle.
    all: repeat exec_step.
    all: rewrite ?flag_set_clear_other in * by auto.
    all: try lock_absurd.
    all: reflexivity.
  - unfold dict_lmdb_delete. cbv zeta. simpl_handle.
    destruct (Z.land _ _ =? 0); [reflexivity|].
    destruct (fold_key_spec (set_error d 0) key) as [fb ->].
    repeat exec_step.
    all: rewrite ?flag_set_clear_other in * by auto.
    all: try lock_absurd.
    all: reflexivity.
  - unfold dict_lmdb_sequence. cbv zeta.
    repeat exec_step.
    all: try lock_absurd.
    all: reflexivity.
Qed.

Ltac result_done :=
  cbn [update_result plain_result fst snd]; try exact I;
  simpl_handle; cbn [warnings]; status_facts;
  first
    [split; [auto|split; reflexivity]
    |split; [reflexivity|];
     first
       [left; split; [assumption|reflexivity]
       |right; left; split; [assumption|split; [assumption|reflexivity]]
       |right; right;
        split; [assumption|split; [assumption|split; [assumption|]]];
        eexists; reflexivity]].

(** X4. The results a caller can get. A lookup returns null or the pointer
    to the value buffer; an update returns 0, or the engine's "key exists"
    status when the handle has the ignore policy, or the warn policy (then
    with one warning logged); a delete and a scan step return 0 or 1. No
    other warning is logged, and every operation that returns leaves no
    error in the handle. *)
Theorem operations_results (d : DICT_LMDB) (key value : bytes)
    (function : Z) (kp vp : option bufptr) (w : World Env) :
  plain_result (fun a => fst a = None \/ fst a = Some ptr_val_buf) snd w
    (dict_lmdb_lookup d key w)
  /\ update_result (flags (dict d)) w (dict_lmdb_update d key value w)
  /\ plain_result (fun a => fst a = 0 \/ fst a = 1) snd w
       (dict_lmdb_delete d key w)
  /\ plain_result (fun a => fst (fst (fst a)) = 0 \/ fst (fst (fst a)) = 1)
       snd w (dict_lmdb_sequence d function kp vp w).
Proof.
  destruct (headers_ok_flags Hok).
  split; [|split; [|split]].
  - unfold dict_lmdb_lookup. cbv zeta.
    destruct (Z.land _ _ =? 0); [exact I|].
    destruct (fold_key_spec (set_error d 0) key) as [fb ->].
    repeat exec_step. all: result_done.
  - unfold dict_lmdb_update. cbv zeta. simpl_handle.
    destruct (Z.land _ _ =? 0); [exact I|].
    destruct (fold_key_spec (set_error d 0) key) as [fb ->].
    rewrite (decide_handle (set_fold_buf (set_error d 0) fb)).
    simpl_handle.
    rewrite ?(decided_other Hok _ DICT_FLAG_DUP_IGNORE),
      ?(decided_other Hok _ DICT_FLAG_DUP_WARN) by auto.
    repeat exec_step. all: result_done.
  - unfold dict_lmdb_delete. cbv zeta.
    destruct (Z.land _ _ =? 0); [exact I|].
    destruct (fold_key_spec (set_error d 0) key) as [fb ->].
    repeat exec_step. all: result_done.
  - unfold dict_lmdb_sequence. cbv zeta.
    repeat exec_step. all: result_done.
Qed.

(** X5. The one put of an update. On a handle with an encoding to try, an
    update does not panic and asks the engine for one put: of the folded key
    and of the value, both in the encoding the handle's flags and the
    platform's default decide (the null byte on both or on neither), with
    the engine's "no overwrite" flag unless the handle has the replace
    policy. An update that returns has made this put; one that ends fatally
    ended at the lock before it, or after it. *)
Theorem update_puts_entry (d : DICT_LMDB) (key value : bytes) (w : World Env) :
  let f := flags (dict d) in
  let e := update_with_null f in
  tries_encoding f = true ->
  puts_entry
    (encode e (folded f key), encode e value,
     if flag_set f DICT_FLAG_DUP_REPLACE then 0 else MDB_NOOVERWRITE)
    w (dict_lmdb_update d key value w).
Proof.
  intros f e Ht. subst f e. destruct (headers_ok_flags Hok).
  unfold tries_encoding in Ht.
  unfold dict_lmdb_update. cbv zeta. simpl_handle.
  rewrite land_lor_eqb.
  destruct (fold_key_spec (set_error d 0) key) as [fb ->].
  rewrite (decide_handle (set_fold_buf (set_error d 0) fb)).
  simpl_handle.
  fold (update_with_null (flags (dict d))).
  rewrite ?(decided_other Hok _ DICT_FLAG_DUP_REPLACE) by auto.
  rewrite <- negb_orb, Ht. cbn [negb].
  destruct (update_with_null (flags (dict d))).
  all: repeat exec_step.
  all: cbn [puts_entry log put_calls encode].
  all: rewrite ?(mdb_val_all_null _ _ eq_refl), ?(mdb_val_all _ _ eq_refl).
  all: auto.
Qed.

End Results.

(** X3 on the sample constants and the reference engine: a handle with
    both encodings to try and no locking. *)
Lemma unlocked_operations_never_lock_witness :
  flag_set (flags (dict (sample_handle (4 + 8))))
           (@DICT_FLAG_LOCK sample_headers) = false
  /\ no_lock_request (ref_world [])
       (Sample.lookup (sample_handle (4 + 8)) (cstr "k") (ref_world []))
  /\ no_lock_request (ref_world [])
       (Sample.update (sample_handle (4 + 8)) (cstr "k") (cstr "v")
                      (ref_world []))
  /\ no_lock_request (ref_world [])
       (Sample.delete (sample_handle (4 + 8)) (cstr "k") (ref_world []))
  /\ no_lock_request (ref_world [])
       (Sample.sequence (sample_handle (4 + 8)) 0 None None (ref_world [])).
Proof.
  split; [reflexivity|].
  exact (@unlocked_operations_never_lock sample_headers RefEnv
           Sample.collaborators eq_refl (sample_handle (4 + 8))
           (cstr "k") (cstr "v") 0 None None (ref_world []) eq_refl).
Defined.

(** X4 on the sample constants and the reference engine: the results on a
    database that holds the key, for a handle with the warn policy. *)
Lemma operations_results_witness :
  let d := sample_handle (8 + 1) in
  let w := ref_world [(cstr "k" ++ [NUL], cstr "old" ++ [NUL])] in
  plain_result (fun a => fst a = None \/ fst a = Some ptr_val_buf) snd w
    (Sample.lookup d (cstr "k") w)
  /\ @update_result sample_headers RefEnv (flags (dict d)) w
       (Sample.update d (cstr "k") (cstr "new") w)
  /\ plain_result (fun a => fst a = 0 \/ fst a = 1) snd w
       (Sample.delete d (cstr "k") w)
  /\ plain_result (fun a => fst (fst (fst a)) = 0 \/ fst (fst (fst a)) = 1)
       snd w (Sample.sequence d 0 None None w).
Proof.
  intros d w.
  exact (@operations_results sample_headers RefEnv Sample.collaborators
           eq_refl d (cstr "k") (cstr "new") 0 None None w).
Defined.

(** X5 on the sample constants and the reference engine: the put of an
    update on a handle with both encodings to try and key folding, where
    the platform appends the null byte. *)
Lemma update_puts_entry_witness :
  @tries_encoding sample_headers (flags (dict (sample_handle (4 + 8 + 16384))))
  = true
  /\ puts_entry
       (cstr "alice" ++ [NUL], cstr "1" ++ [NUL],
        @MDB_NOOVERWRITE sample_headers)
       (ref_world [])
       (Sample.update (sample_handle (4 + 8 + 16384)) (cstr "Alice")
                      (cstr "1") (ref_world [])).
Proof.
  split; [reflexivity|].
  exact (@update_puts_entry sample_headers RefEnv Sample.collaborators
           eq_refl (sample_handle (4 + 8 + 16384)) (cstr "Alice") (cstr "1")
           (ref_world []) eq_refl).
Defined.

(** ** The handle across operations *)

Section HandleInvariant.

Context `{Hdr : Headers} {Env : Type} `{Col : Collaborators Env}.

Hypothesis Hok : headers_ok = true.

Lemma flag_clear_twice (f m : Z) :
  single_bit m = true -> flag_clear (flag_clear f m) m = flag_clear f m.
Proof. intros Hm. apply flag_clear_unset, flag_set_clear_same, Hm. Qed.

Lemma same_dictionary_refl (d : DICT_LMDB) : same_dictionary d d.
Proof. repeat split. Qed.

Lemma same_dictionary_trans (d d1 d2 : DICT_LMDB) :
  same_dictionary d d1 -> same_dictionary d1 d2 -> same_dictionary d d2.
Proof.
  unfold same_dictionary. intros (?&?&?&?&?&?&?&?) (?&?&?&?&?&?&?&?).
  repeat split; congruence.
Qed.

Lemma only_encoding_cleared_trans (f f1 f2 : Z) :
  only_encoding_cleared f f1 -> only_encoding_cleared f1 f2 ->
  only_encoding_cleared f f2.
Proof.
  destruct (headers_ok_flags Hok). unfold only_encoding_cleared.
  intros [->|[[H1 ->]|[H0 ->]]]; [auto| |].
  - intros [->|[[H1' ->]|[H0' ->]]]; [auto| |].
    + rewrite flag_clear_twice by assumption. auto.
    + rewrite flag_set_clear_same in H0' by assumption. discriminate.
  - intros [->|[[H1' ->]|[H0' ->]]]; [auto| |].
    + rewrite flag_set_clear_same in H1' by assumption. discriminate.
    + rewrite flag_clear_twice by assumption. auto.
Qed.

Ltac handle_kept :=
  cbn [keeps_handle snd];
  first
    [exact I
    |split; [repeat split|];
     unfold only_encoding_cleared, tries_encoding; simpl_handle;
     rewrite ?flag_set_clear_same by assumption;
     rewrite ?flag_set_clear_other by auto;
     split; [auto|];
     repeat match goal with
            | H : flag_set _ _ = _ |- _ => rewrite H
            end; reflexivity].

Lemma lookup_keeps_handle (d : DICT_LMDB) (key : bytes) (w : World Env) :
  tries_encoding (flags (dict d)) = true ->
  keeps_handle snd d (dict_lmdb_lookup d key w).
Proof.
  intros Ht. destruct (headers_ok_flags Hok). unfold tries_encoding in Ht.
  unfold dict_lmdb_lookup. cbv zeta. simpl_handle.
  rewrite land_lor_eqb.
  destruct (flag_set (flags (dict d)) DICT_FLAG_TRY1NULL) eqn:H1,
    (flag_set (flags (dict d)) DICT_FLAG_TRY0NULL) eqn:H0;
    try discriminate Ht; cbn [negb andb].
  all: destruct (fold_key_spec (set_error d 0) key) as [fb ->]; simpl_handle.
  all: repeat exec_step.
  all: rewrite ?flag_set_clear_other in * by auto.
  all: try congruence.
  all: handle_kept.
Qed.

Lemma update_keeps_handle (d : DICT_LMDB) (key value : bytes) (w : World Env) :
  tries_encoding (flags (dict d)) = true ->
  keeps_handle snd d (dict_lmdb_update d key value w).
Proof.
  intros Ht. destruct (headers_ok_flags Hok). unfold tries_encoding in Ht.
  unfold dict_lmdb_update. cbv zeta. simpl_handle.
  rewrite land_lor_eqb.
  destruct (flag_set (flags (dict d)) DICT_FLAG_TRY1NULL) eqn:H1,
    (flag_set (flags (dict d)) DICT_FLAG_TRY0NULL) eqn:H0;
    try discriminate Ht; cbn [negb andb].
  all: destruct (fold_key_spec (set_error d 0) key) as [fb ->]; simpl_handle.
  all: rewrite ?H1, ?H0; cbn [andb].
  all: try match goal with
           | |- context [LMDB_NO_TRAILING_NULL] =>
               destruct LMDB_NO_TRAILING_NULL; simpl_handle
           end.
  all: repeat exec_step.
  all: handle_kept.
Qed.

Lemma delete_keeps_handle (d : DICT_LMDB) (key : bytes) (w : World Env) :
  tries_encoding (flags (dict d)) = true ->
  keeps_handle snd d (dict_lmdb_delete d key w).
Proof.
  intros Ht. destruct (headers_ok_flags Hok). unfold tries_encoding in Ht.
  unfold dict_lmdb_delete. cbv zeta. simpl_handle.
  rewrite land_lor_eqb.
  destruct (flag_set (flags (dict d)) DICT_FLAG_TRY1NULL) eqn:H1,
    (flag_set (flags (dict d)) DICT_FLAG_TRY0NULL) eqn:H0;
    try discriminate Ht; cbn [negb andb].
  all: destruct (fold_key_spec (set_error d 0) key) as [fb ->]; simpl_handle.
  all: repeat exec_step.
  all: rewrite ?flag_set_clear_other in * by auto.
  all: cbn [Z.ltb Z.compare andb] in *.
  all: try congruence.
  all: handle_kept.
Qed.

Lemma sequence_keeps_handle (d : DICT_LMDB) (function : Z)
    (kp vp : option bufptr) (w : World Env) :
  tries_encoding (flags (dict d)) = true ->
  function = DICT_SEQ_FUN_FIRST \/ function = DICT_SEQ_FUN_NEXT ->
  keeps_handle snd d (dict_lmdb_sequence d function kp vp w).
Proof.
  intros Ht Hfun. destruct (headers_ok_flags Hok).
  unfold dict_lmdb_sequence. cbv zeta.
  repeat exec_step.
  all: try (destruct Hfun; subst; rewrite Z.eqb_refl in *; discriminate).
  all: cbn [keeps_handle snd]; try exact I.
  all: split; [repeat split|split; [left; reflexivity|exact Ht]].
Qed.

Lemma request_keeps_handle (d : DICT_LMDB) (r : dict_request)
    (w : World Env) :
  tries_encoding (flags (dict d)) = true -> request_valid r ->
  keeps_handle id d (dict_lmdb_request d r w).
Proof.
  intros Ht Hr.
  destruct r as [key|key value|key|function];
    unfold dict_lmdb_request, request_valid in *.
  - pose proof (lookup_keeps_handle d key w Ht) as H.
    unfold bind. destruct (dict_lmdb_lookup d key w) as [[? ?] ?| |]; exact H.
  - pose proof (update_keeps_handle d key value w Ht) as H.
    unfold bind.
    destruct (dict_lmdb_update d key value w) as [[? ?] ?| |]; exact H.
  - pose proof (delete_keeps_handle d key w Ht) as H.
    unfold bind. destruct (dict_lmdb_delete d key w) as [[? ?] ?| |]; exact H.
  - pose proof (sequence_keeps_handle d function None None w Ht Hr) as H.
    unfold bind.
    destruct (dict_lmdb_sequence d function None None w)
      as [[[[? ?] ?] ?] ?| |]; exact H.
Qed.

(** A run of requests on a handle with an encoding to try. *)
Lemma run_keeps_handle (d : DICT_LMDB) (rs : list dict_request)
    (w : World Env) :
  tries_encoding (flags (dict d)) = true ->
  Forall request_valid rs ->
  keeps_handle id d (dict_lmdb_requests d rs w).
Proof.
  intros Ht Hrs. revert d w Ht.
  induction Hrs as [|r rs Hr Hrs IH]; intros d w Ht.
  - cbn. split; [apply same_dictionary_refl|]. split; [left; reflexivity|].
    exact Ht.
  - pose proof (request_keeps_handle d r w Ht Hr) as Hone.
    cbn [dict_lmdb_requests]. unfold bind.
    destruct (dict_lmdb_request d r w) as [d1 w1|msg w1|msg w1];
      cbn [keeps_handle id] in Hone; [|exact I|exact Hone].
    destruct Hone as (Hsame & Hflags & Ht1).
    specialize (IH d1 w1 Ht1).
    destruct (dict_lmdb_requests d1 rs w1) as [d2 w2|msg w2|msg w2];
      cbn [keeps_handle id] in *; [|exact I|exact IH].
    destruct IH as (Hsame2 & Hflags2 & Ht2).
    split; [exact (same_dictionary_trans _ _ _ Hsame Hsame2)|].
    split; [exact (only_encoding_cleared_trans _ _ _ Hflags Hflags2)|].
    exact Ht2.
Qed.

(** X6. A handle with an encoding to try stays one, whatever requests
    follow. Over any list of lookups, updates, deletes and scan steps (with
    one of the two scan functions), the adapter never panics; and a run
    that returns leaves a handle of the same dictionary (type, name,
    descriptors, owner), whose flags are those at the start with at most
    one encoding-try flag cleared and the other one still set. *)
Theorem requests_keep_handle (d : DICT_LMDB) (rs : list dict_request)
    (w : World Env) :
  tries_encoding (flags (dict d)) = true ->
  Forall request_valid rs ->
  keeps_handle id d (dict_lmdb_requests d rs w).
Proof.
  intros Ht Hrs. exact (run_keeps_handle d rs w Ht Hrs).
Qed.

End HandleInvariant.

(** X6 on the sample constants and the reference engine: requests of each
    kind on a handle with both encodings to try. *)
Lemma requests_keep_handle_witness :
  let d := sample_handle (4 + 8 + 64) in
  let rs := [Lookup (cstr "alice"); Update (cstr "alice") (cstr "1");
             Lookup (cstr "alice"); Sequence 0; Sequence 1;
             Delete (cstr "alice"); Delete (cstr "bob")] in
  @tries_encoding sample_headers (flags (dict d)) = true
  /\ Forall (@request_valid sample_headers) rs
  /\ @keeps_handle sample_headers _ _ id d
       (Sample.requests d rs (ref_world [])).
Proof.
  intros d rs.
  assert (Hrs : Forall (@request_valid sample_headers) rs).
  { repeat (apply List.Forall_cons; [first [exact I|left; reflexivity
                                           |right; reflexivity]|]).
    apply List.Forall_nil. }
  split; [reflexivity|]. split; [exact Hrs|].
  exact (@requests_keep_handle sample_headers RefEnv Sample.collaborators
           eq_refl d rs (ref_world []) eq_refl Hrs).
Defined.

(** ** The open *)

Section OpenHandle.

Context `{Hdr : Headers} `{Glb : Globals} {Env : Type} `{Col : Collaborators Env}.

Lemma bind_assoc {A B C} (m : M Env A) (k1 : A -> M Env B) (k : B -> M Env C)
    (w : World Env) :
  bind (bind m k1) k w = bind m (fun x => bind (k1 x) k) w.
Proof. unfold bind. destruct (m w); reflexivity. Qed.

Lemma has_flags_lor_l (f m : Z) : has_flags (Z.lor f m) f.
Proof.
  unfold has_flags. apply Z.bits_inj'. intros n Hn.
  rewrite Z.land_spec, Z.lor_spec.
  destruct (Z.testbit f n), (Z.testbit m n); reflexivity.
Qed.

Lemma has_flags_lor_r (f m : Z) : has_flags (Z.lor f m) m.
Proof. rewrite Z.lor_comm. apply has_flags_lor_l. Qed.

Lemma has_flags_lor (f a m : Z) : has_flags f m -> has_flags (Z.lor f a) m.
Proof.
  unfold has_flags. intros H. rewrite Z.land_lor_distr_l, H.
  apply Z.bits_inj'. intros n Hn.
  rewrite Z.lor_spec, Z.land_spec.
  destruct (Z.testbit m n), (Z.testbit a n); reflexivity.
Qed.

Ltac has_flags_step :=
  first [apply has_flags_lor_l | apply has_flags_lor_r
        |apply has_flags_lor; has_flags_step].

(** The steps of the open that the operations do not have. *)
Ltac open_step :=
  first
    [exec_step
    |cbv beta iota zeta;
     lazymatch goal with
     | |- ?Q (bind (bind ?m ?k1) ?k ?w) => rewrite (bind_assoc m k1 k w)
     | |- ?Q (bind (observe ?f) ?k ?w) =>
         change (bind (observe f) k w) with (k (f (env w)) w)
     | |- ?Q (bind (msg_info ?m) ?k ?w) =>
         change (bind (msg_info m) k w)
           with (k tt (mkWorld (env w) (Ev_msg_info m :: log w)))
     | |- ?Q (bind (dict_lmdb_notify ?d MDB_SUCCESS ?l) ?k ?w) =>
         unfold dict_lmdb_notify at 1; rewrite Z.eqb_refl
     end].

(** X7. How the open asks the engine to open the database. An open whose
    session does not start (slmdb_init answers a status other than 0) makes
    no call of the engine's open and gives a stand-in. Every open whose
    session starts calls the engine's open exactly once, whatever comes of
    it: for the file [path].lmdb with the caller's open flags, always
    without a subdirectory and without the engine's own locking, read-only
    when the caller opens read-only, with a writable memory map when the
    dictionary is world-readable, and in bulk mode exactly when the open is
    for bulk update. No open panics. *)
Theorem open_engine_request (path : string) (open_flags dict_flags : Z)
    (w : World Env) :
  let mdb_flags := open_mdb_flags open_flags dict_flags in
  has_flags mdb_flags MDB_NOSUBDIR
  /\ has_flags mdb_flags MDB_NOLOCK
  /\ (open_flags = O_RDONLY -> has_flags mdb_flags MDB_RDONLY)
  /\ (flag_set dict_flags DICT_FLAG_WORLD_READ = true ->
      has_flags mdb_flags MDB_WRITEMAP)
  /\ opens_with
       (fst (slmdb_init dict_lmdb_map_size DICT_LMDB_SIZE_INCR
                        DICT_LMDB_SIZE_MAX (env w)))
       ((path ++ ".lmdb")%string, open_flags, mdb_flags,
        if flag_set dict_flags DICT_FLAG_BULK_UPDATE
        then SLMDB_FLAG_BULK else 0)
       w (dict_lmdb_open path open_flags dict_flags w).
Proof.
  intros mdb_flags. subst mdb_flags.
  split; [|split; [|split; [|split]]].
  - unfold open_mdb_flags. cbv zeta.
    repeat match goal with
           | |- context [if ?c then _ else _] => destruct c
           end; has_flags_step.
  - unfold open_mdb_flags. cbv zeta.
    repeat match goal with
           | |- context [if ?c then _ else _] => destruct c
           end; has_flags_step.
  - intros ->. unfold open_mdb_flags. cbv zeta. rewrite Z.eqb_refl.
    destruct (flag_set _ _); has_flags_step.
  - unfold open_mdb_flags. cbv zeta. intros ->. has_flags_step.
  - replace (if flag_set dict_flags DICT_FLAG_BULK_UPDATE
             then SLMDB_FLAG_BULK else 0)
      with (open_slmdb_flags dict_flags)
      by (unfold open_slmdb_flags; destruct (flag_set _ _); reflexivity).
    unfold dict_lmdb_open, dict_surrogate. cbv zeta.
    change (path ++ "." ++ DICT_TYPE_LMDB)%string
      with (path ++ ".lmdb")%string.
    repeat open_step.
    all: try discriminate.
    all: unfold msg_fatal; cbn [opens_with log engine_opens fst].
    all: repeat match goal with
                | H : negb (?x =? 0) = true |- context [?x =? 0] =>
                    rewrite (proj1 (negb_true_iff _) H)
                | H : negb (?x =? 0) = false |- context [?x =? 0] =>
                    rewrite (proj1 (negb_false_iff _) H)
                end.
    all: try (split; [apply Z.eqb_eq, negb_false_iff; assumption|]).
    all: first [reflexivity|split; [reflexivity|eexists; reflexivity]].
Qed.


Hypothesis Hok : headers_ok = true.

(** X9. What the open bundles up. An open that gives a database handle
    gives one of type "lmdb" named after the path, with no error, the
    descriptor of the database file for locking and for stat, the
    modification time and the owner that fstat gave for that descriptor
    (the owner trusted only when it is root), no key or value buffer, all
    the flags asked for and DICT_FLAG_FIXED, a fold buffer exactly when
    keys are folded and a jump buffer exactly for bulk update. It warns
    that the database is older than its source exactly when locking is
    asked for and the source file exists, is newer than the database and
    was changed more than 100 seconds ago; it logs no other warning. *)
Theorem open_bundles_handle (path : string) (open_flags dict_flags : Z)
    (w : World Env) :
  opens_handle path dict_flags w (dict_lmdb_open path open_flags dict_flags w).
Proof.
  destruct (headers_ok_flags Hok).
  unfold dict_lmdb_open, dict_surrogate. cbv zeta.
  change (path ++ "." ++ DICT_TYPE_LMDB)%string with (path ++ ".lmdb")%string.
  destruct (flag_set dict_flags DICT_FLAG_LOCK) eqn:Hlock;
    destruct (flag_set dict_flags DICT_FLAG_FOLD_FIX) eqn:Hfold.
  all: repeat open_step.
  all: try discriminate.
  all: unfold msg_fatal; cbn [opens_handle]; try exact I.
  all: cbn [log warnings].
  all: first [eexists _, []; split; [reflexivity|]
             |eexists _, [_]; split; [reflexivity|]].
  all: (split;
    [unfold opened_handle; simpl_handle; cbn [stat_fd mtime owner_uid
       owner_status jbuf];
     do 4 (split; [reflexivity|]);
     split; [do 2 eexists; split; [eassumption|];
             split; [apply Z.ltb_ge; assumption|repeat split]|];
     do 2 (split; [reflexivity|]);
     split; [destruct (Z.land _ _ =? 0); has_flags_step|];
     split; [destruct (Z.land _ _ =? 0); rewrite !flag_set_lor;
             rewrite (flag_set_self DICT_FLAG_FIXED) by assumption;
             rewrite ?orb_true_r; reflexivity|];
     split; [|first [reflexivity|symmetry; assumption]];
     rewrite Hfold;
     split; intros Hs; first [reflexivity|eexists; reflexivity
                              |discriminate Hs|destruct Hs; discriminate]
    |]).
  all: cbn [env log] in *.
  all: rewrite Hlock; cbn [mtime dict andb]; unfold source_newer.
  all: repeat match goal with
              | H : stat _ _ = _ |- _ => rewrite H; clear H
              | H : (_ && _) = _ |- _ => rewrite H; clear H
              | H : (_ <? _ - 100) = _ |- _ => rewrite H; clear H
              end.
  all: reflexivity.
Qed.

(** X16. A handle that the open gives is never misused by the requests of
    the interface. Whatever encoding flags the caller asked for, after an
    open that gave a database handle any list of lookups, updates, deletes
    and scan steps (with one of the two scan functions) runs without a
    panic, and a run that returns leaves a handle of the same dictionary
    that still has an encoding to try. *)
Theorem opened_handle_never_panics (path : string)
    (open_flags dict_flags : Z) (w w' : World Env) (d : DICT_LMDB)
    (rs : list dict_request) :
  dict_lmdb_open path open_flags dict_flags w = Returned (lmdb_handle d) w' ->
  Forall request_valid rs ->
  keeps_handle id d (dict_lmdb_requests d rs w').
Proof.
  intros Hopen Hrs. destruct (headers_ok_flags Hok).
  apply (run_keeps_handle Hok); [|exact Hrs].
  destruct (open_Returned_lmdb _ _ _ _ _ _ Hopen) as [_ Hflags].
  rewrite land_lor_eqb in Hflags.
  unfold tries_encoding. rewrite Hflags.
  destruct (flag_set dict_flags DICT_FLAG_TRY0NULL) eqn:H0,
    (flag_set dict_flags DICT_FLAG_TRY1NULL) eqn:H1; cbn [negb andb].
  all: rewrite !flag_set_lor, ?H0, ?H1.
  all: rewrite ?(flag_set_self DICT_FLAG_TRY0NULL),
         ?(flag_set_self DICT_FLAG_TRY1NULL) by assumption.
  all: rewrite ?orb_true_r; reflexivity.
Qed.

End OpenHandle.

(** X7 on the sample constants and the reference engine: a read-only open
    of a world-readable dictionary, whose session starts. *)
Lemma open_engine_request_witness :
  let mdb_flags :=
    @open_mdb_flags sample_headers (@O_RDONLY sample_headers) 1024 in
  has_flags mdb_flags (@MDB_RDONLY sample_headers)
  /\ has_flags mdb_flags (@MDB_WRITEMAP sample_headers)
  /\ opens_with 0
       ("/etc/postfix/aliases.lmdb"%string, @O_RDONLY sample_headers,
        mdb_flags, 0)
       (ref_world [])
       (Sample.open "/etc/postfix/aliases" (@O_RDONLY sample_headers) 1024
                    (ref_world [])).
Proof.
  intros mdb_flags.
  destruct (@open_engine_request sample_headers sample_globals RefEnv
              Sample.collaborators "/etc/postfix/aliases"
              (@O_RDONLY sample_headers) 1024 (ref_world []))
    as (_ & _ & Hro & Hmap & Hopen).
  split; [exact (Hro eq_refl)|]. split; [exact (Hmap eq_refl)|exact Hopen].
Defined.

(** X9 on the sample constants and the reference engine: an open with
    locking and key folding, in a world whose source file was changed at
    the time 500, after the database (at 100) and long before now (1000):
    the handle is bundled up and the one warning is logged. *)
Lemma open_bundles_handle_witness :
  let w := mkWorld (mkRefEnv ∅ [] MYFLOCK_OP_NONE None 0 3
                             (Build_struct_stat 100 0)
                             (Some (Build_struct_stat 500 0)) 1000) [] in
  @opens_handle sample_headers RefEnv Sample.collaborators
    "/etc/postfix/aliases" (64 + 16384) w
    (Sample.open "/etc/postfix/aliases" 2 (64 + 16384) w)
  /\ match Sample.open "/etc/postfix/aliases" 2 (64 + 16384) w with
     | Returned (lmdb_handle d) w' =>
         warnings (log w')
         = [("database /etc/postfix/aliases.lmdb"
             ++ " is older than source file /etc/postfix/aliases")%string]
         /\ mtime (dict d) = 100
     | _ => False
     end.
Proof.
  intros w. split.
  - exact (@open_bundles_handle sample_headers sample_globals RefEnv
             Sample.collaborators eq_refl "/etc/postfix/aliases" 2
             (64 + 16384) w).
  - vm_compute. split; reflexivity.
Defined.

(** X16 on the sample constants and the reference engine: an open without
    an encoding preference, and requests of each kind on its handle. *)
Lemma opened_handle_never_panics_witness :
  let rs := [Lookup (cstr "alice"); Update (cstr "alice") (cstr "1");
             Sequence 0; Sequence 1; Delete (cstr "alice")] in
  match Sample.open "/etc/postfix/aliases" 2 64 (ref_world []) with
  | Returned (lmdb_handle d) w' =>
      @keeps_handle sample_headers _ _ id d (Sample.requests d rs w')
  | _ => False
  end.
Proof.
  intros rs.
  assert (Hrs : Forall (@request_valid sample_headers) rs).
  { repeat (apply List.Forall_cons; [first [exact I|left; reflexivity
                                           |right; reflexivity]|]).
    apply List.Forall_nil. }
  destruct (Sample.open "/etc/postfix/aliases" 2 64 (ref_world []))
    as [[s|d] w'| |] eqn:Hopen;
    try (vm_compute in Hopen; discriminate).
  exact (@opened_handle_never_panics sample_headers sample_globals RefEnv
           Sample.collaborators eq_refl "/etc/postfix/aliases" 2 64
           (ref_world []) w' d rs Hopen Hrs).
Defined.

(** ** Stored entries, on the reference engine *)

Section StoredEntries.

Context `{Hdr : Headers}.

Hypothesis Hok : headers_ok = true.

Local Existing Instance ref_collaborators.

Lemma ref_get_absent (k : bytes) (e : RefEnv) :
  fault e = None -> store e !! k = None ->
  slmdb_get k e = (MDB_NOTFOUND, [], e).
Proof. intros Hf Hs. cbn. unfold ref_get. rewrite Hf, Hs. reflexivity. Qed.

Lemma ref_del_found (k v : bytes) (e : RefEnv) :
  fault e = None -> store e !! k = Some v ->
  slmdb_del k e = (0, set_store e (delete k (store e))).
Proof. intros Hf Hs. cbn. unfold ref_del. rewrite Hf, Hs. reflexivity. Qed.

(** The facts of a step on the reference engine: a lock is granted. *)
Ltac ref_granted :=
  match goal with
  | H : myflock _ _ _ _ = (_, _) |- _ =>
      rewrite ref_myflock_granted in H; inversion H; subst; clear H;
      try match goal with
          | Hr : 0 < 0 |- _ => exfalso; exact (Z.lt_irrefl _ Hr)
          end
  end.

(** A read of the reference engine, for a key that is stored or not. *)
Ltac ref_get_step Hlen :=
  match goal with
  | H : slmdb_get _ _ = (_, _, _) |- _ =>
      rewrite ?mdb_val_folded, ?mdb_val_folded_null in H by exact Hlen;
      first [erewrite ref_get_found in H
               by (cbn [fault store set_held env]; eassumption)
            |rewrite ref_get_absent in H
               by (cbn [fault store set_held env]; assumption)];
      inversion H; subst; clear H
  end.

(** The status 0 where the tests of the program say it is not. *)
Ltac absurd_zero :=
  match goal with
  | H : negb (0 =? 0) = true |- _ => discriminate H
  end.

(** X10. A lookup of a key that the database holds under neither encoding
    returns null, the ordinary "not found" result, on a handle with any
    encoding configuration, with or without locking and folding: it is not
    fatal, leaves no error in the handle and changes neither the flags, nor
    the buffers, nor the stored entries. The key is one whose length with
    the null byte fits the [int] of the source, less than 2^31 - 1 bytes. *)
Theorem lookup_absent_not_found (d : DICT_LMDB) (key : bytes)
    (w : World RefEnv) :
  tries_encoding (flags (dict d)) = true ->
  key_fits key ->
  fault (env w) = None ->
  store (env w) !! (folded (flags (dict d)) key ++ [NUL]) = None ->
  store (env w) !! folded (flags (dict d)) key = None ->
  returns_with
    (fun '(result, d') w' =>
       result = None /\ error (dict d') = 0
       /\ flags (dict d') = flags (dict d)
       /\ key_buf d' = key_buf d /\ val_buf d' = val_buf d
       /\ store (env w') = store (env w))
    (dict_lmdb_lookup d key w).
Proof.
  intros Hflags Hlen Hfault Hs1 Hs0. destruct (headers_ok_flags Hok).
  unfold tries_encoding in Hflags.
  unfold dict_lmdb_lookup. cbv zeta. simpl_handle.
  rewrite land_lor_eqb.
  destruct (flag_set (flags (dict d)) DICT_FLAG_TRY1NULL) eqn:H1,
    (flag_set (flags (dict d)) DICT_FLAG_TRY0NULL) eqn:H0;
    try discriminate Hflags; cbn [negb andb].
  all: destruct (fold_key_spec (set_error d 0) key) as [fb ->]; simpl_handle.
  all: repeat (exec_step; try ref_granted; try ref_get_step Hlen;
               try contradiction).
  all: rewrite ?flag_set_clear_other in * by auto.
  all: try congruence.
  all: simpl; auto 10.
Qed.

(** X11. The order of the encodings in a lookup. On a handle that still
    tries both encodings, an entry stored with the null byte is found by
    the first probe, whatever is stored without it, and the handle is left
    resolved to the encoding with the null byte; an entry stored only
    without the null byte is found by the second probe, and the handle is
    left resolved to the encoding without it. In both cases the value
    buffer holds the copy of the stored value. The key is one whose length
    with the null byte fits the [int] of the source, less than 2^31 - 1
    bytes. *)
Theorem lookup_encoding_order (d : DICT_LMDB) (key : bytes) (w : World RefEnv) :
  let f := flags (dict d) in
  flag_set f DICT_FLAG_TRY1NULL = true ->
  flag_set f DICT_FLAG_TRY0NULL = true ->
  key_fits key ->
  fault (env w) = None ->
  (forall v1,
     store (env w) !! (folded f key ++ [NUL]) = Some v1 ->
     returns_with
       (fun '(result, d') w' =>
          result = Some ptr_val_buf /\ val_buf d' = Some (copied v1)
          /\ flags (dict d') = flag_clear f DICT_FLAG_TRY0NULL
          /\ resolved (flags (dict d')) true)
       (dict_lmdb_lookup d key w))
  /\ (forall v0,
        store (env w) !! (folded f key ++ [NUL]) = None ->
        store (env w) !! folded f key = Some v0 ->
        returns_with
          (fun '(result, d') w' =>
             result = Some ptr_val_buf /\ val_buf d' = Some (copied v0)
             /\ flags (dict d') = flag_clear f DICT_FLAG_TRY1NULL
             /\ resolved (flags (dict d')) false)
          (dict_lmdb_lookup d key w)).
Proof.
  intros f H1 H0 Hlen Hfault. subst f. destruct (headers_ok_flags Hok).
  unfold dict_lmdb_lookup. cbv zeta. simpl_handle.
  rewrite land_lor_eqb, H1, H0. cbn [negb andb].
  destruct (fold_key_spec (set_error d 0) key) as [fb ->]; simpl_handle.
  rewrite H1.
  split.
  - intros v1 Hs1.
    repeat (exec_step; try ref_granted; try ref_get_step Hlen;
            try contradiction).
    all: rewrite ?flag_set_clear_other in * by auto.
    all: try congruence.
    all: cbn [returns_with]; simpl_handle; unfold resolved, copied.
    all: rewrite flag_set_clear_same, flag_set_clear_other by auto.
    all: auto.
  - intros v0 Hs1 Hs0.
    repeat (exec_step; try ref_granted; try ref_get_step Hlen;
            try contradiction).
    all: rewrite ?flag_set_clear_other in * by auto.
    all: try congruence.
    all: cbn [returns_with]; simpl_handle; unfold resolved, copied.
    all: rewrite flag_set_clear_same, flag_set_clear_other by auto.
    all: auto.
Qed.

(** X12. With key folding, a lookup ignores the case of the key. On a
    handle with DICT_FLAG_FOLD_FIX, after an update that wrote a key and a
    value, a lookup of any key that differs from it only in the case of its
    letters (and whose length with the null byte fits the [int] of the
    source, less than 2^31 - 1 bytes) finds the entry and reads exactly the
    value written. *)
Theorem folded_lookup_ignores_case (d d1 : DICT_LMDB)
    (key1 key2 value : bytes) (w w1 : World RefEnv) :
  flag_set (flags (dict d)) DICT_FLAG_FOLD_FIX = true ->
  tries_encoding (flags (dict d)) = true ->
  lowercase key2 = lowercase key1 ->
  key_fits key2 ->
  is_c_string value = true ->
  fault (env w) = None ->
  dict_lmdb_update d key1 value w = Returned (0, d1) w1 ->
  returns_with
    (fun '(result, d2) _ =>
       result = Some ptr_val_buf
       /\ vstring_str d2 ptr_val_buf = Some value)
    (dict_lmdb_lookup d1 key2 w1).
Proof.
  intros Hfold Hflags Hcase Hlen Hc Hfault Hupd.
  destruct (headers_ok_flags Hok). unfold tries_encoding in Hflags.
  pose proof (update_stores Hok d key1 value w Hflags Hfault) as Hst.
  rewrite Hupd in Hst. cbn [when_returned] in Hst.
  destruct (Hst eq_refl) as (Hf1 & Hfault1 & Hstore1).
  assert (Hkey : folded (flags (dict d1)) key2 = folded (flags (dict d)) key1).
  { unfold folded. rewrite Hf1, (decided_other Hok) by auto.
    rewrite Hfold. exact Hcase. }
  eapply returns_with_impl;
    [|apply (lookup_finds_stored Hok d1 key2 value
               (update_with_null (flags (dict d))) w1)].
  - intros [result d2] w2 (Hr & Hv & _). auto.
  - rewrite Hf1. apply (decided_resolved Hok), Hflags.
  - exact Hlen.
  - exact Hc.
  - exact Hfault1.
  - rewrite Hkey. exact Hstore1.
Qed.

(** A put of the reference engine. *)
Ltac ref_put Hfault :=
  match goal with
  | H : slmdb_put _ _ ?pf _ = (_, _) |- _ =>
      rewrite ?(mdb_val_all_null _ _ eq_refl), ?(mdb_val_all _ _ eq_refl) in H;
      cbn [slmdb_put ref_collaborators] in H; unfold ref_put in H;
      cbn [fault store set_held env] in H; rewrite Hfault in H;
      destruct (store _ !! _) eqn:?;
      [destruct (flag_set pf MDB_NOOVERWRITE) eqn:?|];
      inversion H; subst; clear H
  end.

(** The update, up to the request for the lock: the handle is decided. *)
Ltac begin_update d key fb :=
  unfold dict_lmdb_update; cbv zeta; simpl_handle;
  rewrite land_lor_eqb;
  destruct (fold_key_spec (set_error d 0) key) as [fb ->];
  rewrite (decide_handle (set_fold_buf (set_error d 0) fb));
  simpl_handle;
  fold (update_with_null (flags (dict d)));
  rewrite ?(decided_other Hok _ DICT_FLAG_LOCK),
    ?(decided_other Hok _ DICT_FLAG_DUP_REPLACE),
    ?(decided_other Hok _ DICT_FLAG_DUP_IGNORE),
    ?(decided_other Hok _ DICT_FLAG_DUP_WARN) by auto.

(** An update that returned 0 has inserted its entry, and nothing else has
    changed in the store. *)
Lemma update_inserts (d : DICT_LMDB) (key value : bytes) (w : World RefEnv) :
  tries_encoding (flags (dict d)) = true ->
  fault (env w) = None ->
  when_returned
    (fun '(status, d1) w1 =>
       status = 0 ->
       flags (dict d1) = decided (flags (dict d))
       /\ fault (env w1) = None
       /\ store (env w1)
          = <[encode (update_with_null (flags (dict d)))
                (folded (flags (dict d)) key)
              := encode (update_with_null (flags (dict d))) value]>
              (store (env w)))
    (dict_lmdb_update d key value w).
Proof.
  intros Hflags Hfault. destruct (headers_ok_flags Hok).
  unfold tries_encoding in Hflags.
  begin_update d key fb.
  rewrite <- negb_orb, Hflags. cbn [negb].
  destruct (update_with_null (flags (dict d))).
  all: repeat (exec_step; try ref_granted; try ref_put Hfault;
               try contradiction).
  all: cbn [when_returned]; try exact I.
  all: intros Hst; try contradiction.
  all: cbn [encode fault store env set_store set_held]; auto.
Qed.

(** X13. An update of a key that is not stored always succeeds, whatever
    the duplicate policy of the handle: it returns 0, logs no warning,
    leaves the handle resolved to the encoding it wrote with, and the store
    is the old one with the one entry added: the folded key and the value,
    both in that encoding. *)
Theorem update_fresh_key (d : DICT_LMDB) (key value : bytes)
    (w : World RefEnv) :
  let f := flags (dict d) in
  let e := update_with_null f in
  tries_encoding f = true ->
  fault (env w) = None ->
  store (env w) !! encode e (folded f key) = None ->
  returns_with
    (fun '(status, d') w' =>
       status = 0 /\ error (dict d') = 0
       /\ resolved (flags (dict d')) e
       /\ warnings (log w') = warnings (log w)
       /\ store (env w')
          = <[encode e (folded f key) := encode e value]> (store (env w)))
    (dict_lmdb_update d key value w).
Proof.
  intros f e Hflags Hfault Hstore. subst f e.
  destruct (headers_ok_flags Hok).
  pose proof (decided_resolved Hok _ Hflags) as Hres.
  unfold tries_encoding in Hflags.
  begin_update d key fb.
  rewrite <- negb_orb, Hflags. cbn [negb].
  destruct (update_with_null (flags (dict d))); cbn [encode] in Hstore.
  all: repeat (exec_step; try ref_granted; try ref_put Hfault;
               try contradiction; try congruence).
  all: try absurd_zero.
  all: cbn [returns_with encode env store set_store set_held log warnings
            error dict set_flags set_fold_buf set_error flags];
    auto 10.
Qed.

(** A delete of the reference engine for a key that is stored. *)
Ltac ref_del_found_step Hlen :=
  match goal with
  | H : slmdb_del _ _ = (_, _) |- _ =>
      rewrite ?mdb_val_folded, ?mdb_val_folded_null in H by exact Hlen;
      erewrite ref_del_found in H
        by (cbn [fault store set_held env]; eassumption);
      inversion H; subst; clear H
  end.

(** On a handle with a resolved encoding, the delete of a stored key
    removes its entry and nothing else. *)
Lemma delete_resolved_stored (d : DICT_LMDB) (key old : bytes) (e : bool)
    (w : World RefEnv) :
  resolved (flags (dict d)) e ->
  key_fits key ->
  fault (env w) = None ->
  store (env w) !! encode e (folded (flags (dict d)) key) = Some old ->
  returns_with
    (fun '(status, d') w' =>
       status = 0 /\ flags (dict d') = flags (dict d)
       /\ fault (env w') = None
       /\ store (env w')
          = delete (encode e (folded (flags (dict d)) key)) (store (env w)))
    (dict_lmdb_delete d key w).
Proof.
  intros [H1 H0] Hlen Hfault Hstore. destruct (headers_ok_flags Hok).
  unfold dict_lmdb_delete. cbv zeta. simpl_handle.
  rewrite land_lor_eqb, H1, H0.
  destruct (fold_key_spec (set_error d 0) key) as [fb ->]; simpl_handle.
  destruct e; cbn [negb andb encode] in *.
  all: repeat (exec_step; try ref_granted; try ref_del_found_step Hlen;
               try contradiction; try congruence).
  all: rewrite ?flag_set_clear_other in * by auto.
  all: cbn [Z.ltb Z.compare andb] in *.
  all: try congruence.
  all: cbn [returns_with]; simpl_handle;
    cbn [fault store env set_store set_held].
  all: rewrite ?flag_clear_unset by assumption; auto.
Qed.

(** On a handle with a resolved encoding, the lookup of a key that is not
    stored in that encoding finds nothing. *)
Lemma lookup_resolved_misses (d : DICT_LMDB) (key : bytes) (e : bool)
    (w : World RefEnv) :
  resolved (flags (dict d)) e ->
  key_fits key ->
  fault (env w) = None ->
  store (env w) !! encode e (folded (flags (dict d)) key) = None ->
  returns_with (fun '(result, _) _ => result = None)
    (dict_lmdb_lookup d key w).
Proof.
  intros [H1 H0] Hlen Hfault Hstore. destruct (headers_ok_flags Hok).
  unfold dict_lmdb_lookup. cbv zeta. simpl_handle.
  rewrite land_lor_eqb, H1, H0.
  destruct (fold_key_spec (set_error d 0) key) as [fb ->]; simpl_handle.
  destruct e; cbn [negb andb encode] in *.
  all: repeat (exec_step; try ref_granted; try ref_get_step Hlen;
               try contradiction; try congruence).
  all: cbn [returns_with]; auto.
Qed.

(** X14. A delete undoes an update. After an update that wrote a key, a
    delete of the same key on the same handle returns 0 and leaves the
    store as it was without that key; a lookup of the key then finds
    nothing. The key is one whose length with the null byte fits the [int]
    of the source, less than 2^31 - 1 bytes. *)
Theorem delete_undoes_update (d d1 : DICT_LMDB) (key value : bytes)
    (w w1 : World RefEnv) :
  let f := flags (dict d) in
  let e := update_with_null f in
  tries_encoding f = true ->
  key_fits key ->
  fault (env w) = None ->
  dict_lmdb_update d key value w = Returned (0, d1) w1 ->
  returns_with
    (fun '(status, d2) w2 =>
       status = 0
       /\ store (env w2) = delete (encode e (folded f key)) (store (env w))
       /\ returns_with (fun '(result, _) _ => result = None)
            (dict_lmdb_lookup d2 key w2))
    (dict_lmdb_delete d1 key w1).
Proof.
  intros f e Hflags Hlen Hfault Hupd. subst f e.
  destruct (headers_ok_flags Hok).
  pose proof (update_inserts d key value w Hflags Hfault) as Hst.
  rewrite Hupd in Hst. cbn [when_returned] in Hst.
  destruct (Hst eq_refl) as (Hf1 & Hfault1 & Hstore1).
  assert (Hfold : folded (flags (dict d1)) key = folded (flags (dict d)) key).
  { unfold folded. rewrite Hf1, (decided_other Hok) by auto. reflexivity. }
  assert (Hres : resolved (flags (dict d1))
                   (update_with_null (flags (dict d)))).
  { rewrite Hf1. apply (decided_resolved Hok), Hflags. }
  eapply returns_with_impl;
    [|apply (delete_resolved_stored d1 key
               (encode (update_with_null (flags (dict d))) value)
               (update_with_null (flags (dict d))) w1 Hres Hlen Hfault1)].
  - intros [status d2] w2 (Hs & Hf2 & Hfault2 & Hstore2).
    rewrite Hfold, Hstore1, delete_insert_eq in Hstore2.
    split; [exact Hs|]. split; [exact Hstore2|].
    rewrite <- Hf2 in Hres.
    apply (lookup_resolved_misses d2 key _ w2 Hres Hlen Hfault2).
    rewrite Hf2, Hfold, Hstore2. apply lookup_delete_eq.
  - rewrite Hfold, Hstore1. apply lookup_insert_eq.
Qed.

Lemma strlen_encode_pos (e : bool) (value : bytes) :
  value <> [] -> (0 <? strlen (encode e value)) = true.
Proof.
  intros Hv. apply Z.ltb_lt. unfold strlen, encode.
  destruct value as [|c value]; [contradiction|].
  destruct e; simpl length; lia.
Qed.

(** A step of the scan at the end of the entries. *)
Lemma sequence_next_at_end (d : DICT_LMDB) (kp vp : option bufptr)
    (w : World RefEnv) :
  fault (env w) = None -> cursor (env w) = [] ->
  returns_with
    (fun '(status, kp', vp', _) _ => status = 1 /\ kp' = kp /\ vp' = vp)
    (dict_lmdb_sequence d DICT_SEQ_FUN_NEXT kp vp w).
Proof.
  intros Hfault Hcursor. destruct (headers_ok_flags Hok).
  unfold dict_lmdb_sequence. cbv zeta.
  destruct (Z.eqb_spec DICT_SEQ_FUN_NEXT DICT_SEQ_FUN_FIRST) as [E|_];
    [symmetry in E; contradiction|].
  rewrite Z.eqb_refl.
  repeat (exec_step; try ref_granted;
          try match goal with
              | H : slmdb_cursor_get _ _ = _ |- _ =>
                  cbn [slmdb_cursor_get ref_collaborators] in H;
                  unfold ref_cursor_get in H;
                  cbn [fault cursor set_held env] in H;
                  rewrite Hfault, Hcursor in H;
                  inversion H; subst; clear H
              end).
  all: rewrite ?Z.eqb_refl in *; try discriminate.
  all: status_facts; try contradiction.
  all: cbn [returns_with]; auto.
Qed.

(** The first step of a scan of a database with one entry. *)
Lemma sequence_first_single (d : DICT_LMDB) (kp vp : option bufptr)
    (k v : bytes) (w : World RefEnv) :
  fault (env w) = None -> store (env w) = {[k := v]} ->
  (0 <? strlen v) = true ->
  returns_with
    (fun '(status, kp', vp', d2) w2 =>
       status = 0 /\ kp' = Some ptr_key_buf /\ vp' = Some ptr_val_buf
       /\ key_buf d2 = Some (copied k) /\ val_buf d2 = Some (copied v)
       /\ fault (env w2) = None /\ cursor (env w2) = [])
    (dict_lmdb_sequence d DICT_SEQ_FUN_FIRST kp vp w).
Proof.
  intros Hfault Hstore Hpos. destruct (headers_ok_flags Hok).
  unfold dict_lmdb_sequence. cbv zeta.
  rewrite Z.eqb_refl.
  repeat (exec_step; try ref_granted;
          try match goal with
              | H : slmdb_cursor_get _ _ = _ |- _ =>
                  cbn [slmdb_cursor_get ref_collaborators] in H;
                  unfold ref_cursor_get in H;
                  cbn [fault store set_held env] in H;
                  rewrite Hfault, Hstore, map_to_list_singleton in H;
                  cbn [sort_entries foldr insert_entry] in H;
                  inversion H; subst; clear H
              end).
  all: rewrite ?Z.eqb_refl in *; try discriminate.
  all: try match goal with
           | H : (0 <? strlen _) = false |- _ =>
               rewrite Hpos in H; discriminate H
           end.
  all: cbn [returns_with]; simpl_handle;
    cbn [fault cursor env set_cursor set_held]; unfold copied.
  all: auto 10.
Qed.

(** X15. A scan reads back what an update wrote. After an update that
    wrote a key and a value (not empty, both without a null byte) into an
    empty database, the first step of a scan returns 0 with the pointer to
    the key buffer, which reads the folded key, and the pointer to the
    value buffer, which reads the value; the next step returns 1, the end
    of the scan, and leaves the caller's pointers as they are. *)
Theorem scan_reads_update (d d1 : DICT_LMDB) (key value : bytes)
    (kp vp : option bufptr) (w w1 : World RefEnv) :
  let f := flags (dict d) in
  tries_encoding f = true ->
  fault (env w) = None ->
  store (env w) = ∅ ->
  is_c_string (folded f key) = true ->
  is_c_string value = true ->
  value <> [] ->
  dict_lmdb_update d key value w = Returned (0, d1) w1 ->
  returns_with
    (fun '(status, kp', vp', d2) w2 =>
       status = 0
       /\ kp' = Some ptr_key_buf /\ vp' = Some ptr_val_buf
       /\ vstring_str d2 ptr_key_buf = Some (folded f key)
       /\ vstring_str d2 ptr_val_buf = Some value
       /\ returns_with
            (fun '(status', kp'', vp'', _) _ =>
               status' = 1 /\ kp'' = kp' /\ vp'' = vp')
            (dict_lmdb_sequence d2 DICT_SEQ_FUN_NEXT kp' vp' w2))
    (dict_lmdb_sequence d1 DICT_SEQ_FUN_FIRST kp vp w1).
Proof.
  intros f Hflags Hfault Hempty Hkey Hvalue Hne Hupd. subst f.
  pose proof (update_inserts d key value w Hflags Hfault) as Hst.
  rewrite Hupd in Hst. cbn [when_returned] in Hst.
  destruct (Hst eq_refl) as (Hf1 & Hfault1 & Hstore1).
  rewrite Hempty, insert_empty in Hstore1.
  pose proof (copied_encode (update_with_null (flags (dict d))) _ Hkey)
    as Hck.
  pose proof (copied_encode (update_with_null (flags (dict d))) _ Hvalue)
    as Hcv.
  pose proof (strlen_encode_pos (update_with_null (flags (dict d))) _ Hne)
    as Hpos.
  eapply returns_with_impl;
    [|exact (sequence_first_single d1 kp vp _ _ w1 Hfault1 Hstore1 Hpos)].
  intros [[[status kp'] vp'] d2] w2 (Hs & Hkp & Hvp & Hkb & Hvb & Hf2 & Hc2).
  cbn [vstring_str]. rewrite Hkb, Hvb, Hck, Hcv.
  do 5 (split; [first [assumption|reflexivity]|]).
  exact (sequence_next_at_end d2 kp' vp' w2 Hf2 Hc2).
Qed.

End StoredEntries.

(** X10 on the reference engine: the lookup of a key that is not stored,
    on a handle with both encoding-try flags and locking. *)
Lemma lookup_absent_not_found_witness :
  let d := sample_handle (4 + 8 + 64) in
  let w := ref_world [(cstr "alice" ++ [NUL], cstr "1" ++ [NUL])] in
  returns_with
    (fun '(result, d') w' =>
       result = None /\ error (dict d') = 0
       /\ flags (dict d') = flags (dict d)
       /\ key_buf d' = key_buf d /\ val_buf d' = val_buf d
       /\ store (env w') = store (env w))
    (Sample.lookup d (cstr "bob") w).
Proof.
  intros d w.
  exact (@lookup_absent_not_found sample_headers eq_refl d (cstr "bob") w
           eq_refl (conj eq_refl eq_refl) eq_refl eq_refl eq_refl).
Defined.

(** X11 on the reference engine: a database that holds the key in both
    encodings, and one that holds it only without the null byte. *)
Lemma lookup_encoding_order_witness :
  let d := sample_handle (4 + 8) in
  let w1 := ref_world [(cstr "k" ++ [NUL], cstr "one" ++ [NUL]);
                       (cstr "k", cstr "zero")] in
  let w0 := ref_world [(cstr "k", cstr "zero")] in
  returns_with
    (fun '(result, d') w' =>
       result = Some ptr_val_buf
       /\ val_buf d' = Some (copied (cstr "one" ++ [NUL]))
       /\ flags (dict d')
          = flag_clear (flags (dict d)) (@DICT_FLAG_TRY0NULL sample_headers)
       /\ @resolved sample_headers (flags (dict d')) true)
    (Sample.lookup d (cstr "k") w1)
  /\ returns_with
       (fun '(result, d') w' =>
          result = Some ptr_val_buf
          /\ val_buf d' = Some (copied (cstr "zero"))
          /\ flags (dict d')
             = flag_clear (flags (dict d)) (@DICT_FLAG_TRY1NULL sample_headers)
          /\ @resolved sample_headers (flags (dict d')) false)
       (Sample.lookup d (cstr "k") w0).
Proof.
  intros d w1 w0. split.
  - apply (@lookup_encoding_order sample_headers eq_refl d (cstr "k") w1
             eq_refl eq_refl (conj eq_refl eq_refl) eq_refl).
    reflexivity.
  - apply (@lookup_encoding_order sample_headers eq_refl d (cstr "k") w0
             eq_refl eq_refl (conj eq_refl eq_refl) eq_refl);
      reflexivity.
Defined.

(** X12 on the reference engine: an update of "Alice" and a lookup of
    "ALICE" on a handle with key folding. *)
Lemma folded_lookup_ignores_case_witness :
  match Sample.update (sample_handle (4 + 8 + 16384)) (cstr "Alice")
          (cstr "1") (ref_world []) with
  | Returned (0, d1) w1 =>
      returns_with
        (fun '(result, d2) _ =>
           result = Some ptr_val_buf
           /\ vstring_str d2 ptr_val_buf = Some (cstr "1"))
        (Sample.lookup d1 (cstr "ALICE") w1)
  | _ => False
  end.
Proof.
  destruct (Sample.update (sample_handle (4 + 8 + 16384)) (cstr "Alice")
              (cstr "1") (ref_world [])) as [[[| |] d1] w1| |] eqn:Hupd;
    try (vm_compute in Hupd; discriminate).
  exact (@folded_lookup_ignores_case sample_headers eq_refl
           (sample_handle (4 + 8 + 16384)) d1 (cstr "Alice") (cstr "ALICE")
           (cstr "1") (ref_world []) w1 eq_refl eq_refl eq_refl
           (conj eq_refl eq_refl) eq_refl eq_refl Hupd).
Defined.

(** X13 on the reference engine: an update of a key that is not stored, on
    a handle without any duplicate policy. *)
Lemma update_fresh_key_witness :
  let d := sample_handle (4 + 8) in
  let w := ref_world [(cstr "alice" ++ [NUL], cstr "1" ++ [NUL])] in
  returns_with
    (fun '(status, d') w' =>
       status = 0 /\ error (dict d') = 0
       /\ @resolved sample_headers (flags (dict d')) true
       /\ warnings (log w') = warnings (log w)
       /\ store (env w')
          = <[cstr "bob" ++ [NUL] := cstr "2" ++ [NUL]]> (store (env w)))
    (Sample.update d (cstr "bob") (cstr "2") w).
Proof.
  intros d w.
  exact (@update_fresh_key sample_headers eq_refl d (cstr "bob") (cstr "2") w
           eq_refl eq_refl eq_refl).
Defined.

(** X14 on the reference engine: update, delete and lookup of one key on a
    platform that does not append the null byte. *)
Lemma delete_undoes_update_witness :
  match SampleNoNull.update (sample_handle (4 + 8 + 64)) (cstr "bob")
          (cstr "2") (ref_world [(cstr "alice", cstr "1")]) with
  | Returned (0, d1) w1 =>
      returns_with
        (fun '(status, d2) w2 =>
           status = 0
           /\ store (env w2)
              = delete (cstr "bob")
                  (store (env (ref_world [(cstr "alice", cstr "1")])))
           /\ returns_with (fun '(result, _) _ => result = None)
                (SampleNoNull.lookup d2 (cstr "bob") w2))
        (SampleNoNull.delete d1 (cstr "bob") w1)
  | _ => False
  end.
Proof.
  destruct (SampleNoNull.update (sample_handle (4 + 8 + 64)) (cstr "bob")
              (cstr "2") (ref_world [(cstr "alice", cstr "1")]))
    as [[[| |] d1] w1| |] eqn:Hupd;
    try (vm_compute in Hupd; discriminate).
  exact (@delete_undoes_update sample_headers_no_null eq_refl
           (sample_handle (4 + 8 + 64)) d1 (cstr "bob") (cstr "2")
           (ref_world [(cstr "alice", cstr "1")]) w1
           eq_refl (conj eq_refl eq_refl) eq_refl Hupd).
Defined.

(** X15 on the reference engine: an update into an empty database on a
    handle with key folding, and the two steps of the scan after it. *)
Lemma scan_reads_update_witness :
  match Sample.update (sample_handle (4 + 8 + 16384)) (cstr "Alice")
          (cstr "1") (ref_world []) with
  | Returned (0, d1) w1 =>
      returns_with
        (fun '(status, kp', vp', d2) w2 =>
           status = 0
           /\ kp' = Some ptr_key_buf /\ vp' = Some ptr_val_buf
           /\ vstring_str d2 ptr_key_buf = Some (cstr "alice")
           /\ vstring_str d2 ptr_val_buf = Some (cstr "1")
           /\ returns_with
                (fun '(status', kp'', vp'', _) _ =>
                   status' = 1 /\ kp'' = kp' /\ vp'' = vp')
                (Sample.sequence d2 1 kp' vp' w2))
        (Sample.sequence d1 0 None None w1)
  | _ => False
  end.
Proof.
  destruct (Sample.update (sample_handle (4 + 8 + 16384)) (cstr "Alice")
              (cstr "1") (ref_world [])) as [[[| |] d1] w1| |] eqn:Hupd;
    try (vm_compute in Hupd; discriminate).
  assert (Hne : cstr "1" <> []) by discriminate.
  exact (@scan_reads_update sample_headers eq_refl
           (sample_handle (4 + 8 + 16384)) d1 (cstr "Alice") (cstr "1")
           None None (ref_world []) w1 eq_refl eq_refl eq_refl eq_refl
           eq_refl Hne Hupd).
Defined.
